(** * py_gamma_sdk: a shallow embedding of the client and its entity models

    The development follows the layout of the package:
    - Python strings, objects and dicts as the code uses them;
    - [models.py]: the flexible datetime normalizer and the declarative
      entity schemas, read by a validator that follows pydantic's field
      resolution (alias first, then field name; defaults for absent
      optional fields; unknown keys ignored);
    - [client.py]: the request pipeline over an abstract HTTP transport,
      the resource sub-clients and the facade operations. *)

From Stdlib Require Import ZArith QArith Qround List String Ascii Bool Lia.
Import ListNotations.
Local Open Scope string_scope.
Local Open Scope Z_scope.

Set Implicit Arguments.
Local Set Warnings "-register-all".

(* ================================================================== *)
(** * Python strings *)
(* ================================================================== *)

(** Python [str] values are modelled by Rocq strings.  Every operation
    below searches for ASCII text only, so working on the UTF-8 bytes
    gives the result of the Python method on the decoded text. *)

(** [sub in s] *)
Fixpoint str_in (sub s : string) : bool :=
  prefix sub s ||
  match s with
  | EmptyString => false
  | String _ s' => str_in sub s'
  end.

(** [s.endswith(suf)] *)
Fixpoint str_endswith (s suf : string) : bool :=
  String.eqb s suf ||
  match s with
  | EmptyString => false
  | String _ s' => str_endswith s' suf
  end.

(** [s.replace(old, new, 1)]: only the first occurrence is replaced. *)
Fixpoint str_replace_first (old new s : string) : string :=
  if prefix old s
  then new ++ substring (String.length old) (String.length s - String.length old) s
  else match s with
       | EmptyString => EmptyString
       | String c s' => String c (str_replace_first old new s')
       end.

Definition char_in (c : ascii) (chars : string) : bool :=
  existsb (Ascii.eqb c) (list_ascii_of_string chars).

(** [s.lstrip(chars)]: drops every leading character that is in [chars]. *)
Fixpoint str_lstrip (chars s : string) : string :=
  match s with
  | EmptyString => EmptyString
  | String c s' => if char_in c chars then str_lstrip chars s' else s
  end.

(** [s.rstrip(chars)]: drops every trailing character that is in [chars]. *)
Fixpoint str_rstrip (chars s : string) : string :=
  match s with
  | EmptyString => EmptyString
  | String c s' =>
      match str_rstrip chars s' with
      | EmptyString => if char_in c chars then EmptyString else String c EmptyString
      | r => String c r
      end
  end.

(** [s.strip(chars)] *)
Definition str_strip (chars s : string) : string :=
  str_rstrip chars (str_lstrip chars s).

(** [s.split(sep)] for a one-character separator: the result is never
    empty, [''.split('/')] is [['']]. *)
Fixpoint str_split (sep : ascii) (s : string) : list string :=
  match s with
  | EmptyString => [EmptyString]
  | String c s' =>
      if Ascii.eqb c sep then EmptyString :: str_split sep s'
      else match str_split sep s' with
           | [] => [String c EmptyString]
           | seg :: segs => String c seg :: segs
           end
  end.

Definition is_digit (c : ascii) : bool :=
  let n := nat_of_ascii c in (48 <=? n)%nat && (n <=? 57)%nat.

(** Shape of a text: ["d"] in the pattern stands for one decimal digit,
    every other pattern character for itself. *)
Fixpoint matches (pat s : string) : bool :=
  match pat, s with
  | EmptyString, EmptyString => true
  | String p pat', String c s' =>
      (if Ascii.eqb p "d" then is_digit c else Ascii.eqb p c) && matches pat' s'
  | _, _ => false
  end.

(** Every character of [s] is in [chars]. *)
Definition all_in (chars s : string) : bool :=
  forallb (fun c => char_in c chars) (list_ascii_of_string s).

(** [s] starts with a character of [chars]. *)
Definition starts_in (chars s : string) : bool :=
  match s with
  | EmptyString => false
  | String c _ => char_in c chars
  end.

(** [s] ends with a character of [chars]. *)
Fixpoint ends_in (chars s : string) : bool :=
  match s with
  | EmptyString => false
  | String c EmptyString => char_in c chars
  | String _ s' => ends_in chars s'
  end.

Definition dquote : string := String "034"%char EmptyString.

(** The decoding of a text body as the specification words it: one pair
    of surrounding double quotes is removed when both a leading and a
    trailing one are present, and nothing else is touched. *)
Definition strip_one_quote_pair (s : string) : string :=
  match s with
  | String c rest =>
      if Ascii.eqb c "034" && ends_in dquote rest
      then substring 0 (String.length rest - 1) rest
      else s
  | EmptyString => s
  end.

(* ================================================================== *)
(** * Python objects *)
(* ================================================================== *)

(** [datetime.datetime]: the fields of the Python object; [tzoffset] is
    the UTC offset in minutes of an aware value, [None] for a naive one. *)
Record datetime := mk_datetime {
  year : Z; month : Z; day : Z;
  hour : Z; minute : Z; second : Z; microsecond : Z;
  tzoffset : option Z
}.

(** The values that flow through the client: what [json.loads] produces
    ([None], [bool], [int], [float], [str], [list], [dict] with string
    keys), [datetime] objects, and instances of the entity models
    ([PModel cls fields], the fields under their Python names).  A dict
    keeps its insertion order.  Floats are carried as rationals. *)
Inductive pyobj :=
| PNone
| PBool (b : bool)
| PInt (z : Z)
| PFloat (q : Q)
| PStr (s : string)
| PDatetime (d : datetime)
| PList (l : list pyobj)
| PDict (d : list (string * pyobj))
| PModel (cls : string) (fields : list (string * pyobj)).

Definition dict := list (string * pyobj).

(** [d.get(k)] *)
Fixpoint dict_get (k : string) (d : dict) : option pyobj :=
  match d with
  | [] => None
  | (k', v) :: d' => if String.eqb k k' then Some v else dict_get k d'
  end.

(** [d.get(k, default)] *)
Definition dict_get_default (k : string) (default : pyobj) (d : dict) : pyobj :=
  match dict_get k d with
  | Some v => v
  | None => default
  end.

(** [d[k] = v]: an existing key keeps its position, a new key goes last. *)
Fixpoint dict_set (k : string) (v : pyobj) (d : dict) : dict :=
  match d with
  | [] => [(k, v)]
  | (k', v') :: d' =>
      if String.eqb k k' then (k, v) :: d' else (k', v') :: dict_set k v d'
  end.

(** [bool(v)], Python truthiness. *)
Definition truthy (v : pyobj) : bool :=
  match v with
  | PNone => false
  | PBool b => b
  | PInt z => negb (z =? 0)
  | PFloat q => negb (Qeq_bool q 0)
  | PStr s => negb (String.eqb s "")
  | PDatetime _ => true
  | PList l => match l with [] => false | _ => true end
  | PDict d => match d with [] => false | _ => true end
  | PModel _ _ => true
  end.

(* ================================================================== *)
(** * models.py: the flexible datetime normalizer *)
(* ================================================================== *)

Definition parse_flexible_datetime (value : pyobj) : pyobj :=
  match value with
  | PNone => value
  | PDatetime _ => value
  | PStr s =>
      let s1 := if str_in " " s && negb (str_in "T" s)
                then str_replace_first " " "T" s else s in
      let s2 := if str_endswith s1 "+00" || str_endswith s1 "-00"
                then s1 ++ ":00" else s1 in
      PStr s2
  | _ => value
  end.

(* ================================================================== *)
(** * Exceptions and results *)
(* ================================================================== *)

(** Modelled from the spec: [exceptions.py] is not among the sources.
    Its classes form the library's taxonomy: [GammaError] is the base,
    [GammaAPIError] carries an optional status code and response text,
    [NotFoundError] a status code, [ValidationError] reports malformed
    caller input.  [HTTPStatusError] is what httpx's [raise_for_status]
    raises, with the status and body text of its response;
    [PydanticValidationError] lists the wire names of the offending
    fields; [PyError cls msg] is any other [Exception] ([TypeError],
    [KeyError], [ZeroDivisionError], a transport failure, ...). *)
Inductive exn :=
| GammaError (msg : string)
| GammaAPIError (msg : string) (status_code : option Z) (response_text : option string)
| NotFoundError (msg : string) (status_code : option Z)
| ValidationError (msg : string)
| HTTPStatusError (msg : string) (status_code : Z) (response_text : string)
| PydanticValidationError (cls : string) (errors : list (string * string))
| PyError (cls : string) (msg : string).

(** [isinstance(e, GammaError)] *)
Definition is_GammaError (e : exn) : bool :=
  match e with
  | GammaError _ | GammaAPIError _ _ _ | NotFoundError _ _ | ValidationError _ => true
  | _ => false
  end.

(** [str(e)], as interpolated by an f-string. *)
Definition exn_str (e : exn) : string :=
  match e with
  | GammaError m | GammaAPIError m _ _ | NotFoundError m _ | ValidationError m => m
  | HTTPStatusError m _ _ => m
  | PydanticValidationError cls _ => "validation error for " ++ cls
  | PyError _ m => m
  end.

(** A computation returns a value or raises. *)
Definition result (A : Type) : Type := (exn + A)%type.
Definition Ok {A} (a : A) : result A := inr a.
Definition Raise {A} (e : exn) : result A := inl e.

Definition is_ok {A} (r : result A) : bool :=
  match r with inr _ => true | inl _ => false end.

(** [o.name] on a model instance. *)
Definition getattr (o : pyobj) (name : string) : result pyobj :=
  match o with
  | PModel _ fields =>
      match dict_get name fields with
      | Some v => Ok v
      | None => Raise (PyError "AttributeError" name)
      end
  | _ => Raise (PyError "AttributeError" name)
  end.

(** [o[key]] for a string key. *)
Definition getitem (o : pyobj) (key : string) : result pyobj :=
  match o with
  | PDict d =>
      match dict_get key d with
      | Some v => Ok v
      | None => Raise (PyError "KeyError" key)
      end
  | _ => Raise (PyError "TypeError" "object is not subscriptable with a str key")
  end.

(** Numbers as Python arithmetic sees them: [bool] is an [int]. *)
Definition as_number (v : pyobj) : option (Z + Q) :=
  match v with
  | PInt z => Some (inl z)
  | PBool b => Some (inl (if b then 1 else 0))
  | PFloat q => Some (inr q)
  | _ => None
  end.

Definition to_Q (n : Z + Q) : Q :=
  match n with inl z => inject_Z z | inr q => q end.

(** [a // b]: floor division, [ZeroDivisionError] on a zero divisor. *)
Definition py_floordiv (a b : pyobj) : result pyobj :=
  match as_number a, as_number b with
  | Some (inl x), Some (inl y) =>
      if y =? 0 then Raise (PyError "ZeroDivisionError" "integer division or modulo by zero")
      else Ok (PInt (x / y))
  | Some x, Some y =>
      if Qeq_bool (to_Q y) 0 then Raise (PyError "ZeroDivisionError" "float floor division by zero")
      else Ok (PFloat (inject_Z (Qfloor (Qdiv (to_Q x) (to_Q y)))))
  | _, _ => Raise (PyError "TypeError" "unsupported operand type(s) for //")
  end.

(** [a + b] on numbers. *)
Definition py_add (a b : pyobj) : result pyobj :=
  match as_number a, as_number b with
  | Some (inl x), Some (inl y) => Ok (PInt (x + y))
  | Some x, Some y => Ok (PFloat (Qplus (to_Q x) (to_Q y)))
  | _, _ => Raise (PyError "TypeError" "unsupported operand type(s) for +")
  end.

(** [range(a, b)] over integers. *)
Definition range (a b : Z) : list Z :=
  map (fun i => a + Z.of_nat i) (seq 0 (Z.to_nat (b - a))).

(** [range(a, stop)] where [stop] is a Python object: it must be an [int]. *)
Definition py_range (a : Z) (stop : pyobj) : result (list Z) :=
  match stop with
  | PInt b => Ok (range a b)
  | PBool b => Ok (range a (if b then 1 else 0))
  | _ => Raise (PyError "TypeError" "object cannot be interpreted as an integer")
  end.

(* ================================================================== *)
(** * models.py: entity models *)
(* ================================================================== *)

(** A type annotation is read as the validator pydantic derives from it:
    [Some v'] is the validated value, [None] a type error. *)
Definition validator := pyobj -> option pyobj.

(** The scalar validators of pydantic other than [str].  Which inputs
    they coerce (numeric strings, timestamps, ISO 8601 texts, ...) is the
    library's business; the models below are read for every choice. *)
Class Pydantic := {
  float_ : validator;
  bool_ : validator;
  int_ : validator;
  datetime_ : validator
}.

(** [str]: only a string is a string. *)
Definition str_ : validator :=
  fun v => match v with PStr _ => Some v | _ => None end.

(** [Optional[t]] *)
Definition Optional (t : validator) : validator :=
  fun v => match v with PNone => Some PNone | _ => t v end.

Fixpoint validate_all (t : validator) (l : list pyobj) : option (list pyobj) :=
  match l with
  | [] => Some []
  | x :: l' =>
      match t x, validate_all t l' with
      | Some x', Some r => Some (x' :: r)
      | _, _ => None
      end
  end.

(** [List[t]] *)
Definition List_ (t : validator) : validator :=
  fun v => match v with
           | PList l => option_map PList (validate_all t l)
           | _ => None
           end.

(** [Union[t1, ..., tn]]: the members used in the models accept disjoint
    inputs, so the member that accepts is found by trying them in turn. *)
Fixpoint Union (ts : list validator) : validator :=
  fun v => match ts with
           | [] => None
           | t :: ts' => match t v with Some v' => Some v' | None => Union ts' v end
           end.

(** [Dict[str, Any]] *)
Definition Dict_str_Any : validator :=
  fun v => match v with PDict _ => Some v | _ => None end.

(** [Annotated[t, BeforeValidator(f)]]: [f] runs on the raw input, the
    validator of [t] on what [f] returns. *)
Definition BeforeValidator := pyobj -> pyobj.
Definition Annotated (t : validator) (before : BeforeValidator) : validator :=
  fun v => t (before v).

Definition FlexibleDatetime {P : Pydantic} : validator :=
  Annotated (Optional datetime_) parse_flexible_datetime.

Inductive default := Required | Default (v : pyobj).

Record field := mk_field {
  f_name : string;
  f_type : validator;
  f_default : default;
  f_alias : option string
}.

(** [name: t] *)
Definition annot (name : string) (t : validator) : field :=
  mk_field name t Required None.
(** [name: t = v] *)
Definition assign (name : string) (t : validator) (v : pyobj) : field :=
  mk_field name t (Default v) None.
(** [name: t = Field(dflt, alias=a)], [Required] for [Field(..., alias=a)] *)
Definition Field (name : string) (t : validator) (dflt : default) (a : string) : field :=
  mk_field name t dflt (Some a).

Record model_config := ConfigDict { populate_by_name : bool }.

Record model := mk_model {
  cls_name : string;
  model_config_of : model_config;
  cls_fields : list field
}.

(** The key a field is read from on the wire. *)
Definition wire_name (f : field) : string :=
  match f_alias f with Some a => a | None => f_name f end.

(** The input of a field: its alias first and, as [populate_by_name]
    allows, its Python name.  No other key of the mapping is looked at. *)
Definition field_input (cfg : model_config) (f : field) (d : dict) : option pyobj :=
  match dict_get (wire_name f) d with
  | Some v => Some v
  | None => if populate_by_name cfg then dict_get (f_name f) d else None
  end.

Definition validate_field (cfg : model_config) (f : field) (d : dict)
  : (string * string) + (string * pyobj) :=
  match field_input cfg f d with
  | Some v =>
      match f_type f v with
      | Some v' => inr (f_name f, v')
      | None => inl (wire_name f, "invalid")
      end
  | None =>
      match f_default f with
      | Default dv => inr (f_name f, dv)
      | Required => inl (wire_name f, "missing")
      end
  end.

(** Every field is validated; all the errors are collected. *)
Fixpoint validate_fields (cfg : model_config) (fs : list field) (d : dict)
  : list (string * string) * list (string * pyobj) :=
  match fs with
  | [] => ([], [])
  | f :: fs' =>
      let (errs, vals) := validate_fields cfg fs' d in
      match validate_field cfg f d with
      | inl e => (e :: errs, vals)
      | inr kv => (errs, kv :: vals)
      end
  end.

(** Calling the class on the unpacked dict [d]. *)
Definition construct (m : model) (d : dict) : result pyobj :=
  match validate_fields (model_config_of m) (cls_fields m) d with
  | ([], vals) => Ok (PModel (cls_name m) vals)
  | (errs, _) => Raise (PydanticValidationError (cls_name m) errs)
  end.

(** Calling the class on an unpacked object: only a mapping can be
    unpacked. *)
Definition call_model (m : model) (data : pyobj) : result pyobj :=
  match data with
  | PDict d => construct m d
  | _ => Raise (PyError "TypeError" "argument after ** must be a mapping")
  end.

(** A field whose type is a model: a mapping is validated into an
    instance, an instance of the class is kept. *)
Definition Model_ (m : model) : validator :=
  fun v => match v with
           | PDict d => match construct m d with inr o => Some o | inl _ => None end
           | PModel c _ => if String.eqb c (cls_name m) then Some v else None
           | _ => None
           end.

Definition GammaBaseModel_config : model_config := ConfigDict true.

(** [k] is the Python name or the wire alias of a field of [m]. *)
Definition declares (m : model) (k : string) : bool :=
  existsb (fun f => String.eqb k (f_name f)
                    || match f_alias f with Some a => String.eqb k a | None => false end)
          (cls_fields m).

Definition is_required (f : field) : bool :=
  match f_default f with Required => true | Default _ => false end.

(** The wire names of the mandatory fields of a model. *)
Definition mandatory (m : model) : list string :=
  map wire_name (filter is_required (cls_fields m)).

(** The field is supplied under neither of its names. *)
Definition absent (m : model) (f : field) (d : dict) : Prop :=
  field_input (model_config_of m) f d = None.

(** Every value the mapping supplies for a declared field passes the
    validator of that field. *)
Definition well_typed (m : model) (d : dict) : Prop :=
  forall f v, In f (cls_fields m) ->
              field_input (model_config_of m) f d = Some v -> f_type f v <> None.

Definition is_some {A} (o : option A) : bool :=
  match o with Some _ => true | None => false end.

(** The two wire shapes of a [Union[List[str], str]] field. *)
Definition union_value (w : string + list string) : pyobj :=
  match w with
  | inl s => PStr s
  | inr l => PList (map PStr l)
  end.

Definition Tag {P : Pydantic} : model :=
  mk_model "Tag" GammaBaseModel_config
  [ annot "id" str_;
    assign "label" (Optional str_) PNone;
    assign "slug" (Optional str_) PNone;
    Field "force_show" (Optional bool_) (Default PNone) "forceShow";
    Field "force_hide" (Optional bool_) (Default PNone) "forceHide";
    Field "is_carousel" (Optional bool_) (Default PNone) "isCarousel";
    Field "published_at" (Optional str_) (Default PNone) "publishedAt";
    Field "created_at" (Optional datetime_) (Default PNone) "createdAt";
    Field "updated_at" (Optional datetime_) (Default PNone) "updatedAt" ].

Definition Market {P : Pydantic} : model :=
  mk_model "Market" GammaBaseModel_config
  [ annot "id" str_;
    annot "question" str_;
    Field "condition_id" str_ Required "conditionId";
    annot "slug" str_;
    Field "twitter_card_image" (Optional str_) (Default PNone) "twitterCardImage";
    Field "resolution_source" (Optional str_) (Default PNone) "resolutionSource";
    Field "end_date_iso" (Optional str_) (Default PNone) "endDateIso";
    assign "category" (Optional str_) PNone;
    Field "amm_type" (Optional str_) (Default PNone) "ammType";
    assign "liquidity" (Optional float_) PNone;
    assign "volume" (Optional float_) PNone;
    annot "outcomes" (Union [List_ str_; str_]);
    Field "clob_token_ids" (Union [List_ str_; str_]) Required "clobTokenIds";
    Field "group_item_title" (Optional str_) (Default PNone) "groupItemTitle";
    Field "group_item_threshold" (Optional str_) (Default PNone) "groupItemThreshold";
    Field "question_id" (Optional str_) (Default PNone) "questionId";
    Field "rewards_min_size" (Optional float_) (Default PNone) "rewardsMinSize";
    Field "rewards_max_spread" (Optional float_) (Default PNone) "rewardsMaxSpread";
    assign "spread" (Optional float_) PNone;
    Field "last_trade_price" (Optional float_) (Default PNone) "lastTradePrice";
    Field "best_bid" (Optional float_) (Default PNone) "bestBid";
    Field "best_ask" (Optional float_) (Default PNone) "bestAsk";
    assign "active" bool_ (PBool true);
    assign "closed" bool_ (PBool false);
    assign "archived" bool_ (PBool false);
    assign "restricted" bool_ (PBool false);
    Field "event_id" (Optional str_) (Default PNone) "eventId" ].

Definition Event {P : Pydantic} : model :=
  mk_model "Event" GammaBaseModel_config
  [ annot "id" str_;
    assign "ticker" (Optional str_) PNone;
    annot "slug" str_;
    annot "title" str_;
    assign "description" (Optional str_) PNone;
    assign "image" (Optional str_) PNone;
    assign "icon" (Optional str_) PNone;
    assign "active" bool_ (PBool true);
    assign "closed" bool_ (PBool false);
    assign "archived" bool_ (PBool false);
    assign "new" bool_ (PBool false);
    assign "featured" bool_ (PBool false);
    assign "restricted" bool_ (PBool false);
    Field "start_date" (Optional datetime_) (Default PNone) "startDate";
    Field "end_date" (Optional datetime_) (Default PNone) "endDate";
    Field "creation_date" (Optional datetime_) (Default PNone) "creationDate";
    Field "last_updated_at" (Optional datetime_) (Default PNone) "lastUpdatedAt";
    assign "markets" (List_ (Model_ Market)) (PList []);
    assign "tags" (List_ (Model_ Tag)) (PList []) ].

Definition Team {P : Pydantic} : model :=
  mk_model "Team" GammaBaseModel_config
  [ annot "id" int_;
    annot "name" str_;
    annot "league" str_;
    assign "record" (Optional str_) PNone;
    assign "logo" (Optional str_) PNone;
    assign "abbreviation" (Optional str_) PNone;
    assign "alias" (Optional str_) PNone;
    Field "created_at" (Optional datetime_) (Default PNone) "createdAt";
    Field "updated_at" (Optional datetime_) (Default PNone) "updatedAt" ].

Definition SportMetadata {P : Pydantic} : model :=
  mk_model "SportMetadata" GammaBaseModel_config
  [ annot "sport" str_;
    assign "image" (Optional str_) PNone;
    assign "resolution" (Optional str_) PNone;
    assign "ordering" (Optional str_) PNone;
    assign "tags" (Optional str_) PNone;
    assign "series" (Optional str_) PNone ].

Definition Series {P : Pydantic} : model :=
  mk_model "Series" GammaBaseModel_config
  [ annot "id" str_;
    annot "title" str_;
    annot "slug" str_;
    annot "active" bool_;
    Field "created_at" (Optional datetime_) (Default PNone) "createdAt";
    Field "updated_at" (Optional datetime_) (Default PNone) "updatedAt" ].

Definition Comment {P : Pydantic} : model :=
  mk_model "Comment" GammaBaseModel_config
  [ annot "id" str_;
    annot "comment" str_;
    Field "user_address" str_ Required "userAddress";
    Field "user_name" (Optional str_) (Default PNone) "userName";
    Field "proxy_wallet" (Optional str_) (Default PNone) "proxyWallet";
    Field "market_id" (Optional str_) (Default PNone) "marketId";
    Field "event_id" (Optional str_) (Default PNone) "eventId";
    Field "created_at" (Optional datetime_) (Default PNone) "createdAt";
    Field "updated_at" (Optional datetime_) (Default PNone) "updatedAt" ].

Definition Profile {P : Pydantic} : model :=
  mk_model "Profile" GammaBaseModel_config
  [ Field "proxy_wallet" str_ Required "proxyWallet";
    Field "display_name" (Optional str_) (Default PNone) "displayName";
    assign "bio" (Optional str_) PNone;
    assign "image" (Optional str_) PNone;
    Field "created_at" (Optional datetime_) (Default PNone) "createdAt" ].

Definition PublicSearchMarket {P : Pydantic} : model :=
  mk_model "PublicSearchMarket" GammaBaseModel_config
  [ annot "id" str_;
    annot "question" str_;
    Field "condition_id" str_ Required "conditionId";
    annot "slug" str_;
    Field "resolution_source" (Optional str_) (Default PNone) "resolutionSource";
    Field "end_date" (Optional datetime_) (Default PNone) "endDate";
    Field "start_date" (Optional datetime_) (Default PNone) "startDate";
    assign "image" (Optional str_) PNone;
    assign "icon" (Optional str_) PNone;
    assign "description" (Optional str_) PNone;
    assign "outcomes" (Optional str_) PNone;
    Field "outcome_prices" (Optional str_) (Default PNone) "outcomePrices";
    Field "market_maker_address" (Optional str_) (Default PNone) "marketMakerAddress";
    Field "closed_time" FlexibleDatetime (Default PNone) "closedTime";
    assign "submitted_by" (Optional str_) PNone;
    Field "resolved_by" (Optional str_) (Default PNone) "resolvedBy";
    Field "group_item_title" (Optional str_) (Default PNone) "groupItemTitle";
    Field "group_item_threshold" (Optional str_) (Default PNone) "groupItemThreshold";
    Field "question_id" (Optional str_) (Default PNone) "questionID";
    Field "uma_end_date" (Optional datetime_) (Default PNone) "umaEndDate";
    Field "order_price_min_tick_size" (Optional float_) (Default PNone) "orderPriceMinTickSize";
    Field "order_min_size" (Optional float_) (Default PNone) "orderMinSize";
    Field "uma_resolution_status" (Optional str_) (Default PNone) "umaResolutionStatus";
    Field "volume_num" (Optional float_) (Default PNone) "volumeNum";
    Field "end_date_iso" (Optional str_) (Default PNone) "endDateIso";
    Field "start_date_iso" (Optional str_) (Default PNone) "startDateIso";
    Field "has_reviewed_dates" (Optional bool_) (Default PNone) "hasReviewedDates";
    Field "clob_token_ids" (Optional str_) (Default PNone) "clobTokenIds";
    Field "uma_bond" (Optional str_) (Default PNone) "umaBond";
    Field "uma_reward" (Optional str_) (Default PNone) "umaReward";
    Field "volume_1wk_clob" (Optional float_) (Default PNone) "volume1wkClob";
    Field "volume_1mo_clob" (Optional float_) (Default PNone) "volume1moClob";
    Field "volume_1yr_clob" (Optional float_) (Default PNone) "volume1yrClob";
    Field "volume_clob" (Optional float_) (Default PNone) "volumeClob";
    Field "custom_liveness" (Optional int_) (Default PNone) "customLiveness";
    Field "accepting_orders" (Optional bool_) (Default PNone) "acceptingOrders";
    Field "neg_risk_request_id" (Optional str_) (Default PNone) "negRiskRequestID";
    assign "ready" (Optional bool_) PNone;
    assign "funded" (Optional bool_) PNone;
    Field "accepting_orders_timestamp" (Optional datetime_) (Default PNone) "acceptingOrdersTimestamp";
    assign "cyom" (Optional bool_) PNone;
    Field "pager_duty_notification_enabled" (Optional bool_) (Default PNone) "pagerDutyNotificationEnabled";
    assign "approved" (Optional bool_) PNone;
    Field "rewards_min_size" (Optional float_) (Default PNone) "rewardsMinSize";
    Field "rewards_max_spread" (Optional float_) (Default PNone) "rewardsMaxSpread";
    assign "spread" (Optional float_) PNone;
    Field "automatically_resolved" (Optional bool_) (Default PNone) "automaticallyResolved";
    Field "last_trade_price" (Optional float_) (Default PNone) "lastTradePrice";
    Field "best_ask" (Optional float_) (Default PNone) "bestAsk";
    Field "best_bid" (Optional float_) (Default PNone) "bestBid";
    Field "automatically_active" (Optional bool_) (Default PNone) "automaticallyActive";
    Field "clear_book_on_start" (Optional bool_) (Default PNone) "clearBookOnStart";
    Field "manual_activation" (Optional bool_) (Default PNone) "manualActivation";
    Field "neg_risk_other" (Optional bool_) (Default PNone) "negRiskOther";
    Field "uma_resolution_statuses" (Optional str_) (Default PNone) "umaResolutionStatuses";
    Field "pending_deployment" (Optional bool_) (Default PNone) "pendingDeployment";
    assign "deploying" (Optional bool_) PNone;
    Field "deploying_timestamp" (Optional datetime_) (Default PNone) "deployingTimestamp";
    Field "rfq_enabled" (Optional bool_) (Default PNone) "rfqEnabled";
    Field "holding_rewards_enabled" (Optional bool_) (Default PNone) "holdingRewardsEnabled";
    Field "fees_enabled" (Optional bool_) (Default PNone) "feesEnabled";
    Field "requires_translation" (Optional bool_) (Default PNone) "requiresTranslation";
    assign "active" bool_ (PBool true);
    assign "closed" bool_ (PBool false);
    assign "archived" bool_ (PBool false);
    assign "restricted" bool_ (PBool false);
    assign "liquidity" (Optional float_) PNone;
    assign "volume" (Optional float_) PNone;
    assign "new" bool_ (PBool false);
    assign "featured" bool_ (PBool false);
    Field "neg_risk" (Optional bool_) (Default PNone) "negRisk" ].

Definition PublicSearchEvent {P : Pydantic} : model :=
  mk_model "PublicSearchEvent" GammaBaseModel_config
  [ annot "id" str_;
    assign "ticker" (Optional str_) PNone;
    annot "slug" str_;
    annot "title" str_;
    assign "description" (Optional str_) PNone;
    Field "resolution_source" (Optional str_) (Default PNone) "resolutionSource";
    Field "start_date" (Optional datetime_) (Default PNone) "startDate";
    Field "creation_date" (Optional datetime_) (Default PNone) "creationDate";
    Field "end_date" (Optional datetime_) (Default PNone) "endDate";
    assign "image" (Optional str_) PNone;
    assign "icon" (Optional str_) PNone;
    assign "active" bool_ (PBool true);
    assign "closed" bool_ (PBool false);
    assign "archived" bool_ (PBool false);
    assign "new" bool_ (PBool false);
    assign "featured" bool_ (PBool false);
    assign "restricted" bool_ (PBool false);
    assign "liquidity" (Optional float_) PNone;
    assign "volume" (Optional float_) PNone;
    Field "open_interest" (Optional float_) (Default PNone) "openInterest";
    Field "created_at" (Optional datetime_) (Default PNone) "createdAt";
    Field "updated_at" (Optional datetime_) (Default PNone) "updatedAt";
    assign "competitive" (Optional float_) PNone;
    Field "volume_24hr" (Optional float_) (Default PNone) "volume24hr";
    Field "volume_1wk" (Optional float_) (Default PNone) "volume1wk";
    Field "volume_1mo" (Optional float_) (Default PNone) "volume1mo";
    Field "volume_1yr" (Optional float_) (Default PNone) "volume1yr";
    Field "enable_order_book" (Optional bool_) (Default PNone) "enableOrderBook";
    Field "liquidity_clob" (Optional float_) (Default PNone) "liquidityClob";
    Field "neg_risk" (Optional bool_) (Default PNone) "negRisk";
    Field "neg_risk_market_id" (Optional str_) (Default PNone) "negRiskMarketID";
    Field "comment_count" (Optional int_) (Default PNone) "commentCount";
    assign "markets" (List_ (Model_ PublicSearchMarket)) (PList []) ].

Definition PublicSearchResponse {P : Pydantic} : model :=
  mk_model "PublicSearchResponse" GammaBaseModel_config
  [ assign "events" (List_ (Model_ PublicSearchEvent)) (PList []);
    assign "pagination" (Optional Dict_str_Any) PNone ].


(* ================================================================== *)
(** * routes.py *)
(* ================================================================== *)

Definition EVENTS_BY_SLUG : string := "/events/slug/{slug}".
Definition MARKETS_BY_SLUG : string := "/markets/slug/{slug}".
Definition STATUS : string := "/status".
Definition SEARCH : string := "/search".
Definition PUBLIC_SEARCH : string := "/public-search".

(** [template.format(name=value)] for a template with the one
    replacement field [{name}]. *)
Definition str_format (template name value : string) : string :=
  str_replace_first ("{" ++ name ++ "}") value template.

(* ================================================================== *)
(** * client.py: the request pipeline *)
(* ================================================================== *)

(** What the client passes to [httpx.Client.request]; [req_params] is
    [None] when the call has no [params] keyword. *)
Record request := mk_request {
  req_method : string;
  req_endpoint : string;
  req_params : option dict
}.

(** What the client reads of an [httpx.Response]: the status code, the
    [Content-Type] header when there is one, the body text, what
    [response.json()] returns or raises, and the message of the
    [HTTPStatusError] that [raise_for_status] builds for it. *)
Record response := mk_response {
  status_code : Z;
  content_type_header : option string;
  text : string;
  json : result pyobj;
  status_message : string
}.

(** The HTTP transport, an external collaborator: given a request it
    answers with a response or raises, and may change its own state. *)
Class Transport (W : Type) := {
  send : request -> W -> result response * W
}.

(** The state a client operation runs in: the transport's state and the
    requests issued so far, oldest first. *)
Record client_state (W : Type) := mk_state {
  world : W;
  sent : list request
}.

(** A client operation. *)
Definition M (W A : Type) : Type := client_state W -> result A * client_state W.

Definition ret {W A} (a : A) : M W A := fun st => (Ok a, st).
Definition raise {W A} (e : exn) : M W A := fun st => (Raise e, st).
Definition bind {W A B} (m : M W A) (k : A -> M W B) : M W B :=
  fun st => match m st with
            | (inl e, st') => (inl e, st')
            | (inr a, st') => k a st'
            end.
Definition lift {W A} (r : result A) : M W A := fun st => (r, st).

(** [try: body / except Exception as e: handler e] *)
Definition try_except {W A} (body : M W A) (handler : exn -> M W A) : M W A :=
  fun st => match body st with
            | (inl e, st') => handler e st'
            | (inr a, st') => (inr a, st')
            end.

Declare Scope client_scope.
Delimit Scope client_scope with client.
Notation "x <- m ;; k" := (bind m (fun x => k))
  (at level 61, m at next level, right associativity) : client_scope.
Local Open Scope client_scope.

(** [self._http_client.request(method, endpoint, **kwargs)] *)
Definition http_client_request {W} {T : Transport W} (rq : request) : M W response :=
  fun st =>
    let (out, w') := send rq (world st) in
    (out, mk_state w' (sent st ++ [rq])%list).

(** httpx: a status outside 200..299 raises [HTTPStatusError]. *)
Definition raise_for_status (r : response) : result unit :=
  if (200 <=? status_code r) && (status_code r <=? 299) then Ok tt
  else Raise (HTTPStatusError (status_message r) (status_code r) (text r)).

(** The handlers of [_request], in the order of the source. *)
Definition request_handlers {W} (e : exn) : M W pyobj :=
  match e with
  | HTTPStatusError m status body =>
      raise (GammaAPIError ("API Error: " ++ m) (Some status) (Some body))
  | _ =>
      if is_GammaError e then raise e
      else raise (GammaAPIError ("Unexpected Error: " ++ exn_str e) None None)
  end.

(** [GammaClient._request] *)
Definition GammaClient__request {W} {T : Transport W}
    (method endpoint : string) (params : option dict) : M W pyobj :=
  try_except
    (response <- http_client_request (mk_request method endpoint params) ;;
     if status_code response =? 404
     then raise (NotFoundError ("Resource not found: " ++ endpoint) (Some 404))
     else
       _ <- lift (raise_for_status response) ;;
       let content_type :=
         match content_type_header response with Some c => c | None => "" end in
       if str_in "application/json" content_type
       then lift (json response)
       else ret (PStr (str_strip dquote (text response))))
    request_handlers.

(** [AsyncGammaClient._request]: the same statements, awaiting the
    transport. *)
Definition AsyncGammaClient__request {W} {T : Transport W}
    (method endpoint : string) (params : option dict) : M W pyobj :=
  try_except
    (response <- http_client_request (mk_request method endpoint params) ;;
     if status_code response =? 404
     then raise (NotFoundError ("Resource not found: " ++ endpoint) (Some 404))
     else
       _ <- lift (raise_for_status response) ;;
       let content_type :=
         match content_type_header response with Some c => c | None => "" end in
       if str_in "application/json" content_type
       then lift (json response)
       else ret (PStr (str_strip dquote (text response))))
    request_handlers.

(* ------------------------------------------------------------------ *)
(** ** Sub-clients *)

(** [MarketsClient.get_by_slug] *)
Definition MarketsClient_get_by_slug {W} {T : Transport W} {P : Pydantic}
    (slug : string) : M W pyobj :=
  data <- GammaClient__request "GET" (str_format MARKETS_BY_SLUG "slug" slug) None ;;
  match data with
  | PList l =>
      match l with
      | [] => ret PNone
      | first :: _ => lift (call_model Market first)
      end
  | _ => lift (call_model Market data)
  end.

(** [AsyncMarketsClient.get_by_slug] *)
Definition AsyncMarketsClient_get_by_slug {W} {T : Transport W} {P : Pydantic}
    (slug : string) : M W pyobj :=
  data <- AsyncGammaClient__request "GET" (str_format MARKETS_BY_SLUG "slug" slug) None ;;
  match data with
  | PList l =>
      match l with
      | [] => ret PNone
      | first :: _ => lift (call_model Market first)
      end
  | _ => lift (call_model Market data)
  end.

(** [EventsClient.get_by_slug] *)
Definition EventsClient_get_by_slug {W} {T : Transport W} {P : Pydantic}
    (slug : string) : M W pyobj :=
  data <- GammaClient__request "GET" (str_format EVENTS_BY_SLUG "slug" slug) None ;;
  lift (call_model Event data).

(* ------------------------------------------------------------------ *)
(** ** Facade operations *)

(** [GammaClient.public_search] *)
Definition GammaClient_public_search {W} {T : Transport W} {P : Pydantic}
    (query : string) (params : dict) : M W pyobj :=
  let params := dict_set "q" (PStr query) params in
  data <- GammaClient__request "GET" PUBLIC_SEARCH (Some params) ;;
  lift (call_model PublicSearchResponse data).

(** The [api_params] of [public_search_all] before the first fetch:
    the literal, then the loop over [params.items()]. *)
Definition initial_api_params (params : dict) : dict :=
  let api_params :=
    [ ("page", PInt 1);
      ("limit_per_type", dict_get_default "limit_per_type" (PInt 20) params);
      ("type", dict_get_default "type" (PStr "events") params);
      ("sort", dict_get_default "sort" (PStr "volume_24hr") params) ] in
  fold_left (fun api_params kv => dict_set (fst kv) (snd kv) api_params) params api_params.

(** [events.extend(data.events)] *)
Definition extend_events (events : list pyobj) (data : pyobj) : result (list pyobj) :=
  match getattr data "events" with
  | inr (PList l) => Ok (events ++ l)%list
  | inr _ => Raise (PyError "TypeError" "object is not iterable")
  | inl e => Raise e
  end.

(** The loop [for page in range(2, page_count)] over the pages still to
    visit; it carries [api_params] and [events], both updated in place
    by the source. *)
Fixpoint fetch_pages {W} {T : Transport W} {P : Pydantic}
    (query : string) (pages : list Z) (api_params : dict) (events : list pyobj)
  : M W (list pyobj) :=
  match pages with
  | [] => ret events
  | page :: rest =>
      let api_params := dict_set "page" (PInt page) api_params in
      data <- GammaClient_public_search query api_params ;;
      events <- lift (extend_events events data) ;;
      fetch_pages query rest api_params events
  end.

(** [GammaClient.public_search_all] *)
Definition GammaClient_public_search_all {W} {T : Transport W} {P : Pydantic}
    (query : string) (params : dict) : M W pyobj :=
  let api_params := initial_api_params params in
  data <- GammaClient_public_search query api_params ;;
  pagination <- lift (getattr data "pagination") ;;
  page_count <-
    match pagination with
    | PNone => ret None
    | _ =>
        total <- lift (getitem pagination "totalResults") ;;
        limit <- lift (getitem (PDict api_params) "limit_per_type") ;;
        quotient <- lift (py_floordiv total limit) ;;
        count <- lift (py_add quotient (PInt 1)) ;;
        ret (Some count)
    end ;;
  stop <-
    match page_count with
    | None => ret true
    | Some _ =>
        has_more <- lift (getitem pagination "hasMore") ;;
        ret (negb (truthy has_more))
    end ;;
  if (stop : bool) then ret data
  else
    match page_count with
    | None => ret data
    | Some count =>
        events <- lift (extend_events [] data) ;;
        pages <- lift (py_range 2 count) ;;
        events <- fetch_pages query pages api_params events ;;
        lift (construct PublicSearchResponse [("events", PList events)])
    end.

(** The vocabulary of the aggregation's specification. *)

(** [isinstance(o, cls)] for a model class. *)
Definition is_instance (cls : string) (o : pyobj) : bool :=
  match o with
  | PModel c _ => String.eqb c cls
  | _ => false
  end.

(** [data.events] of a search response. *)
Definition events_of (data : pyobj) : list pyobj :=
  match getattr data "events" with
  | inr (PList l) => l
  | _ => []
  end.

(** The defaults of the first page. *)
Definition default_api_params : dict :=
  [ ("page", PInt 1); ("limit_per_type", PInt 20);
    ("type", PStr "events"); ("sort", PStr "volume_24hr") ].

(** The request [public_search] issues for [api_params]. *)
Definition search_request (query : string) (api_params : dict) : request :=
  mk_request "GET" PUBLIC_SEARCH (Some (dict_set "q" (PStr query) api_params)).

(** [fetched query api_params pages st datas st']: starting in [st], the
    pages [pages] are fetched one after the other, each with
    [api_params] where [page] is set to its number, every fetch succeeds,
    [datas] are the responses in that order and [st'] is the state after
    the last one. *)
Inductive fetched {W} {T : Transport W} {P : Pydantic} (query : string) (api_params : dict)
  : list Z -> client_state W -> list pyobj -> client_state W -> Prop :=
| fetched_nil st : fetched query api_params [] st [] st
| fetched_cons page pages st data st1 datas st2 :
    GammaClient_public_search query (dict_set "page" (PInt page) api_params) st
    = (Ok data, st1) ->
    fetched query api_params pages st1 datas st2 ->
    fetched query api_params (page :: pages) st (data :: datas) st2.

(** [urllib.parse.urlparse(url).path], or the exception [urlparse]
    raises; the parser is Python's, not this package's. *)
Class Urllib := {
  urlparse_path : string -> result string
}.

(** [x in ["market", "event"]] *)
Definition is_market_or_event (x : string) : bool :=
  String.eqb x "market" || String.eqb x "event".

(** [GammaClient._extract_slug_from_url]; the asynchronous facade has the
    same method. *)
Definition _extract_slug_from_url {U : Urllib} (url : string) : option string :=
  match urlparse_path url with
  | inl _ => None
  | inr path =>
      let path_parts := str_split "/" (str_strip "/" path) in
      if (2 <=? List.length path_parts)%nat && is_market_or_event (hd "" path_parts)
      then Some (last path_parts "")
      else None
  end.

(** [not slug] for an [Optional[str]]. *)
Definition not_slug (slug : option string) : bool :=
  match slug with
  | None => true
  | Some s => String.eqb s ""
  end.

(** [GammaClient.resolve_url] *)
Definition GammaClient_resolve_url {W} {T : Transport W} {P : Pydantic} {U : Urllib}
    (url : string) : M W pyobj :=
  let slug := _extract_slug_from_url url in
  if not_slug slug then raise (ValidationError ("Invalid Polymarket URL: " ++ url))
  else
    let slug := match slug with Some s => s | None => "" end in
    try_except (MarketsClient_get_by_slug slug)
      (fun _ => try_except (EventsClient_get_by_slug slug)
                  (fun _ => ret PNone)).

(* ================================================================== *)
(** * Concrete collaborators, for running the model *)
(* ================================================================== *)

(** The number a text of decimal digits denotes. *)
Definition digits_value (s : string) : Z :=
  fold_left (fun acc c => 10 * acc + (Z.of_nat (nat_of_ascii c) - 48))
            (list_ascii_of_string s) 0.

Definition iso_fields (s : string) (tz : option Z) : datetime :=
  mk_datetime (digits_value (substring 0 4 s)) (digits_value (substring 5 2 s))
              (digits_value (substring 8 2 s)) (digits_value (substring 11 2 s))
              (digits_value (substring 14 2 s)) (digits_value (substring 17 2 s))
              0 tz.

Definition iso_offset (s : string) : Z :=
  digits_value (substring 20 2 s) * 60 + digits_value (substring 23 2 s).

(** ISO 8601 date-times with second precision: date and time separated
    by ["T"] or a space, then nothing, ["Z"] or a full [+HH:MM] offset. *)
Definition parse_iso_datetime (s : string) : option datetime :=
  if matches "dddd-dd-ddTdd:dd:dd" s || matches "dddd-dd-dd dd:dd:dd" s
  then Some (iso_fields s None)
  else if matches "dddd-dd-ddTdd:dd:ddZ" s || matches "dddd-dd-dd dd:dd:ddZ" s
  then Some (iso_fields s (Some 0))
  else if matches "dddd-dd-ddTdd:dd:dd+dd:dd" s || matches "dddd-dd-dd dd:dd:dd+dd:dd" s
  then Some (iso_fields s (Some (iso_offset s)))
  else if matches "dddd-dd-ddTdd:dd:dd-dd:dd" s || matches "dddd-dd-dd dd:dd:dd-dd:dd" s
  then Some (iso_fields s (Some (- iso_offset s)))
  else None.

(** Scalar validators that accept the values already of the annotated
    type, integers for floats, and ISO 8601 texts for date-times. *)
Definition iso_validators : Pydantic :=
  {| float_ := fun v => match v with
                        | PFloat _ => Some v
                        | PInt z => Some (PFloat (inject_Z z))
                        | _ => None
                        end;
     bool_ := fun v => match v with PBool _ => Some v | _ => None end;
     int_ := fun v => match v with PInt _ => Some v | _ => None end;
     datetime_ := fun v => match v with
                           | PDatetime _ => Some v
                           | PStr s => option_map PDatetime (parse_iso_datetime s)
                           | _ => None
                           end |}.

(** A transport that answers from a fixed table and has no state. *)
Definition table_transport (table : request -> result response) : Transport unit :=
  {| send := fun rq w => (table rq, w) |}.

Definition json_response (body : pyobj) : response :=
  mk_response 200 (Some "application/json") "" (Ok body) "".

Definition text_response (body : string) : response :=
  mk_response 200 (Some "text/plain; charset=utf-8") body
              (Raise (PyError "JSONDecodeError" "Expecting value")) "".

Definition error_response (status : Z) (body : string) : response :=
  mk_response status (Some "application/json") body
              (Raise (PyError "JSONDecodeError" "Expecting value")) "status error".

Definition initial_state : client_state unit := mk_state tt [].

Fixpoint drop_to (stop : ascii -> bool) (s : string) : string :=
  match s with
  | EmptyString => EmptyString
  | String c s' => if stop c then s else drop_to stop s'
  end.

Fixpoint take_to (stop : ascii -> bool) (s : string) : string :=
  match s with
  | EmptyString => EmptyString
  | String c s' => if stop c then EmptyString else String c (take_to stop s')
  end.

(** The path of [scheme://host/path?query#fragment] and of a bare path. *)
Definition plain_url_path (url : string) : string :=
  let after_host :=
    match index 0 "://" url with
    | Some n => drop_to (Ascii.eqb "/")
                  (substring (n + 3) (String.length url) url)
    | None => url
    end in
  take_to (fun c => Ascii.eqb c "?" || Ascii.eqb c "#") after_host.

Definition plain_urls : Urllib :=
  {| urlparse_path := fun url => Ok (plain_url_path url) |}.

(** Text bodies enclosed in two layers of double quotes, and with a
    leading double quote only. *)
Definition doubly_quoted_body : string := dquote ++ dquote ++ "abc" ++ dquote ++ dquote.
Definition half_quoted_body : string := dquote ++ "abc".

Definition status_text (body : string) : Transport unit :=
  table_transport (fun _ => Ok (text_response body)).

(** An upstream that knows no market and the event [foo-bar]. *)
Definition event_upstream : Transport unit :=
  table_transport (fun rq =>
    if String.eqb (req_endpoint rq) "/events/slug/foo-bar"
    then Ok (json_response (PDict [ ("id", PStr "175976"); ("slug", PStr "foo-bar");
                                     ("title", PStr "Foo") ]))
    else Ok (error_response 404 "not found")).

(** Mappings used as sample inputs. *)
Definition minimal_market : dict :=
  [ ("id", PStr "1"); ("question", PStr "Q"); ("conditionId", PStr "0x1");
    ("slug", PStr "slug"); ("outcomes", PList [PStr "A"; PStr "B"]);
    ("clobTokenIds", PList [PStr "T1"; PStr "T2"]) ].

Definition minimal_search_market : dict :=
  [ ("id", PStr "test-id"); ("question", PStr "Test question?");
    ("conditionId", PStr "0x123"); ("slug", PStr "test-slug") ].

Definition sample_event (id : string) : pyobj :=
  PDict [ ("id", PStr id); ("slug", PStr "elon-musk-tweets"); ("title", PStr "Tweets") ].

(** An upstream that knows the market [foo-bar] only, and answers its
    lookup by slug with [body]. *)
Definition market_upstream (body : pyobj) : Transport unit :=
  table_transport (fun rq =>
    if String.eqb (req_endpoint rq) "/markets/slug/foo-bar"
    then Ok (json_response body)
    else Ok (error_response 404 "not found")).

(** A mapping with the six mandatory keys of a market. *)
Definition market_mapping (id question conditionId slug : string)
    (outcomes clobTokenIds : pyobj) : dict :=
  [ ("id", PStr id); ("question", PStr question); ("conditionId", PStr conditionId);
    ("slug", PStr slug); ("outcomes", outcomes); ("clobTokenIds", clobTokenIds) ].

(** All six mandatory keys are present, the id is a number. *)
Definition market_with_numeric_id : dict :=
  [ ("id", PInt 1); ("question", PStr "Q"); ("conditionId", PStr "0x1");
    ("slug", PStr "slug"); ("outcomes", PList [PStr "A"; PStr "B"]);
    ("clobTokenIds", PList [PStr "T1"; PStr "T2"]) ].

(** A search market with one more key, a timestamp text. *)
Definition search_market_with (key text : string) : dict :=
  (minimal_search_market ++ [(key, PStr text)])%list.

(** The mapping of [test_market_model_invalid]. *)
Definition market_without_slug : dict :=
  [ ("id", PStr "1"); ("question", PStr "Q") ].

(** A search endpoint with 45 results served 20 per page. *)
Definition paged_search (rq : request) : result response :=
  match req_params rq with
  | Some params =>
      match dict_get "page" params with
      | Some (PInt 1) =>
          Ok (json_response (PDict
                [ ("events", PList [sample_event "a"; sample_event "b"]);
                  ("pagination", PDict [("hasMore", PBool true); ("totalResults", PInt 45)]) ]))
      | Some (PInt 2) =>
          Ok (json_response (PDict
                [ ("events", PList [sample_event "c"]);
                  ("pagination", PDict [("hasMore", PBool true); ("totalResults", PInt 45)]) ]))
      | _ =>
          Ok (json_response (PDict
                [ ("events", PList [sample_event "d"]);
                  ("pagination", PDict [("hasMore", PBool false); ("totalResults", PInt 45)]) ]))
      end
  | None => Raise (PyError "ConnectError" "no route")
  end.

Definition paged_upstream : Transport unit := table_transport paged_search.

(** The two pages the aggregation fetches from [paged_upstream], and the
    states after each fetch. *)
Definition first_page_run : result pyobj * client_state unit :=
  Eval vm_compute in
    GammaClient_public_search (T := paged_upstream) (P := iso_validators)
      "q" (initial_api_params []) initial_state.

Definition first_page : pyobj :=
  Eval vm_compute in match fst first_page_run with inr d => d | inl _ => PNone end.

Definition after_first_page : client_state unit :=
  Eval vm_compute in snd first_page_run.

Definition second_page_run : result pyobj * client_state unit :=
  Eval vm_compute in
    GammaClient_public_search (T := paged_upstream) (P := iso_validators)
      "q" (dict_set "page" (PInt 2) (initial_api_params [])) after_first_page.

Definition second_page : pyobj :=
  Eval vm_compute in match fst second_page_run with inr d => d | inl _ => PNone end.

Definition after_second_page : client_state unit :=
  Eval vm_compute in snd second_page_run.

(* ================================================================== *)
(** * The other routes and operations of the client *)
(* ================================================================== *)

(** ** routes.py, the remaining templates *)

Definition SPORTS : string := "/sports".
Definition SPORTS_TEAMS : string := "/sports/teams".
Definition SPORTS_MARKET_TYPES : string := "/sports/market-types".
Definition TAGS : string := "/tags".
Definition TAGS_BY_ID : string := "/tags/{tag_id}".
Definition TAGS_BY_SLUG : string := "/tags/slug/{slug}".
Definition TAGS_RELATED_BY_ID : string := "/tags-related-tag-id/{tag_id}".
Definition TAGS_RELATED_BY_SLUG : string := "/tags-related-tag-slug/{slug}".
Definition TAGS_RELATED_TO_ID : string := "/tags/{tag_id}/related".
Definition TAGS_RELATED_TO_SLUG : string := "/tags/slug/{slug}/related".
Definition EVENTS : string := "/events".
Definition EVENTS_BY_ID : string := "/events/{event_id}".
Definition EVENTS_TAGS : string := "/events/{event_id}/tags".
Definition MARKETS : string := "/markets".
Definition MARKETS_BY_ID : string := "/markets/{market_id}".
Definition MARKETS_TAGS : string := "/markets/{market_id}/tags".
Definition SERIES : string := "/series".
Definition SERIES_BY_ID : string := "/series/{series_id}".
Definition COMMENTS : string := "/comments".
Definition COMMENTS_BY_ID : string := "/comments/{comment_id}".
Definition COMMENTS_BY_USER : string := "/comments/user/{address}".
Definition PROFILES_BY_ADDRESS : string := "/profiles/{address}".

(** ** Comprehensions over a decoded body *)

(** The one-character strings of a text, as iterating a [str] yields
    them (one per byte here; every use below fails on the first one). *)
Fixpoint str_items (s : string) : list pyobj :=
  match s with
  | EmptyString => []
  | String c s' => PStr (String c EmptyString) :: str_items s'
  end.

(** [for item in data]: the elements of a list, the keys of a dict, the
    characters of a text; nothing else met here is iterable. *)
Definition py_iter (data : pyobj) : result (list pyobj) :=
  match data with
  | PList l => Ok l
  | PDict d => Ok (map (fun kv => PStr (fst kv)) d)
  | PStr s => Ok (str_items s)
  | _ => Raise (PyError "TypeError" "object is not iterable")
  end.

(** The items are constructed from left to right; the first failure
    ends the comprehension. *)
Fixpoint construct_each (m : model) (items : list pyobj) : result (list pyobj) :=
  match items with
  | [] => Ok []
  | item :: rest =>
      match call_model m item with
      | inl e => Raise e
      | inr o =>
          match construct_each m rest with
          | inl e => Raise e
          | inr os => Ok (o :: os)
          end
      end
  end.

(** The list comprehension that calls the class [m] on each unpacked
    item of [data]. *)
Definition comprehension (m : model) (data : pyobj) : result pyobj :=
  match py_iter data with
  | inl e => Raise e
  | inr items =>
      match construct_each m items with
      | inl e => Raise e
      | inr os => Ok (PList os)
      end
  end.

(** [data.get(key, default)]: only a dict has the method. *)
Definition py_get (data : pyobj) (key : string) (default : pyobj) : result pyobj :=
  match data with
  | PDict d => Ok (dict_get_default key default d)
  | _ => Raise (PyError "AttributeError" "get")
  end.

Local Open Scope client_scope.

(** ** SportsClient *)

Definition SportsClient_list_teams {W} {T : Transport W} {P : Pydantic}
    (params : dict) : M W pyobj :=
  data <- GammaClient__request "GET" SPORTS_TEAMS (Some params) ;;
  lift (comprehension Team data).

Definition SportsClient_get_metadata {W} {T : Transport W} {P : Pydantic} : M W pyobj :=
  data <- GammaClient__request "GET" SPORTS None ;;
  lift (comprehension SportMetadata data).

Definition SportsClient_get_market_types {W} {T : Transport W} : M W pyobj :=
  data <- GammaClient__request "GET" SPORTS_MARKET_TYPES None ;;
  lift (py_get data "marketTypes" (PList [])).

(** ** TagsClient *)

Definition TagsClient_list {W} {T : Transport W} {P : Pydantic}
    (params : dict) : M W pyobj :=
  data <- GammaClient__request "GET" TAGS (Some params) ;;
  lift (comprehension Tag data).

Definition TagsClient_get_by_id {W} {T : Transport W} {P : Pydantic}
    (tag_id : string) : M W pyobj :=
  data <- GammaClient__request "GET" (str_format TAGS_BY_ID "tag_id" tag_id) None ;;
  lift (call_model Tag data).

Definition TagsClient_get_by_slug {W} {T : Transport W} {P : Pydantic}
    (slug : string) : M W pyobj :=
  data <- GammaClient__request "GET" (str_format TAGS_BY_SLUG "slug" slug) None ;;
  lift (call_model Tag data).

Definition TagsClient_get_related_by_id {W} {T : Transport W}
    (tag_id : string) : M W pyobj :=
  GammaClient__request "GET" (str_format TAGS_RELATED_BY_ID "tag_id" tag_id) None.

Definition TagsClient_get_related_by_slug {W} {T : Transport W}
    (slug : string) : M W pyobj :=
  GammaClient__request "GET" (str_format TAGS_RELATED_BY_SLUG "slug" slug) None.

Definition TagsClient_get_tags_related_to_id {W} {T : Transport W} {P : Pydantic}
    (tag_id : string) : M W pyobj :=
  data <- GammaClient__request "GET" (str_format TAGS_RELATED_TO_ID "tag_id" tag_id) None ;;
  lift (comprehension Tag data).

Definition TagsClient_get_tags_related_to_slug {W} {T : Transport W} {P : Pydantic}
    (slug : string) : M W pyobj :=
  data <- GammaClient__request "GET" (str_format TAGS_RELATED_TO_SLUG "slug" slug) None ;;
  lift (comprehension Tag data).

(** ** EventsClient *)

Definition EventsClient_list {W} {T : Transport W} {P : Pydantic}
    (params : dict) : M W pyobj :=
  data <- GammaClient__request "GET" EVENTS (Some params) ;;
  lift (comprehension Event data).

Definition EventsClient_get_by_id {W} {T : Transport W} {P : Pydantic}
    (event_id : string) : M W pyobj :=
  data <- GammaClient__request "GET" (str_format EVENTS_BY_ID "event_id" event_id) None ;;
  lift (call_model Event data).

Definition EventsClient_get_tags {W} {T : Transport W} {P : Pydantic}
    (event_id : string) : M W pyobj :=
  data <- GammaClient__request "GET" (str_format EVENTS_TAGS "event_id" event_id) None ;;
  lift (comprehension Tag data).

(** ** MarketsClient *)

Definition MarketsClient_list {W} {T : Transport W} {P : Pydantic}
    (params : dict) : M W pyobj :=
  data <- GammaClient__request "GET" MARKETS (Some params) ;;
  lift (comprehension Market data).

Definition MarketsClient_get_by_id {W} {T : Transport W} {P : Pydantic}
    (market_id : string) : M W pyobj :=
  data <- GammaClient__request "GET" (str_format MARKETS_BY_ID "market_id" market_id) None ;;
  lift (call_model Market data).

Definition MarketsClient_get_tags {W} {T : Transport W} {P : Pydantic}
    (market_id : string) : M W pyobj :=
  data <- GammaClient__request "GET" (str_format MARKETS_TAGS "market_id" market_id) None ;;
  lift (comprehension Tag data).

(** ** SeriesClient, CommentsClient, ProfilesClient *)

Definition SeriesClient_list {W} {T : Transport W} {P : Pydantic}
    (params : dict) : M W pyobj :=
  data <- GammaClient__request "GET" SERIES (Some params) ;;
  lift (comprehension Series data).

Definition SeriesClient_get_by_id {W} {T : Transport W} {P : Pydantic}
    (series_id : string) : M W pyobj :=
  data <- GammaClient__request "GET" (str_format SERIES_BY_ID "series_id" series_id) None ;;
  lift (call_model Series data).

Definition CommentsClient_list {W} {T : Transport W} {P : Pydantic}
    (params : dict) : M W pyobj :=
  data <- GammaClient__request "GET" COMMENTS (Some params) ;;
  lift (comprehension Comment data).

Definition CommentsClient_get_by_id {W} {T : Transport W} {P : Pydantic}
    (comment_id : string) : M W pyobj :=
  data <- GammaClient__request "GET" (str_format COMMENTS_BY_ID "comment_id" comment_id) None ;;
  lift (call_model Comment data).

Definition CommentsClient_get_by_user {W} {T : Transport W} {P : Pydantic}
    (address : string) : M W pyobj :=
  data <- GammaClient__request "GET" (str_format COMMENTS_BY_USER "address" address) None ;;
  lift (comprehension Comment data).

Definition ProfilesClient_get_by_address {W} {T : Transport W} {P : Pydantic}
    (address : string) : M W pyobj :=
  data <- GammaClient__request "GET" (str_format PROFILES_BY_ADDRESS "address" address) None ;;
  lift (call_model Profile data).

(** ** GammaClient, the remaining facade operations *)

Definition GammaClient_get_status {W} {T : Transport W} : M W pyobj :=
  GammaClient__request "GET" STATUS None.

Definition GammaClient_search {W} {T : Transport W}
    (query : string) (params : dict) : M W pyobj :=
  let params := dict_set "q" (PStr query) params in
  GammaClient__request "GET" SEARCH (Some params).

(** ** Vocabulary of the statements about these operations *)

(** Whatever its outcome, the operation issues the one request [rq]. *)
Definition sends {W A} (op : M W A) (rq : request) : Prop :=
  forall st r st', op st = (r, st') -> sent st' = (sent st ++ [rq])%list.

(** The condition of the first repair of the normalizer. *)
Definition needs_T (s : string) : bool :=
  str_in " " s && negb (str_in "T" s).

(** The templated routes with the parameter each one names, and the
    text before and after the replacement field. *)
Definition templated_routes : list (string * string * string * string) :=
  [ (TAGS_BY_ID, "tag_id", "/tags/", "");
    (TAGS_BY_SLUG, "slug", "/tags/slug/", "");
    (TAGS_RELATED_BY_ID, "tag_id", "/tags-related-tag-id/", "");
    (TAGS_RELATED_BY_SLUG, "slug", "/tags-related-tag-slug/", "");
    (TAGS_RELATED_TO_ID, "tag_id", "/tags/", "/related");
    (TAGS_RELATED_TO_SLUG, "slug", "/tags/slug/", "/related");
    (EVENTS_BY_ID, "event_id", "/events/", "");
    (EVENTS_TAGS, "event_id", "/events/", "/tags");
    (EVENTS_BY_SLUG, "slug", "/events/slug/", "");
    (MARKETS_BY_ID, "market_id", "/markets/", "");
    (MARKETS_TAGS, "market_id", "/markets/", "/tags");
    (MARKETS_BY_SLUG, "slug", "/markets/slug/", "");
    (SERIES_BY_ID, "series_id", "/series/", "");
    (COMMENTS_BY_ID, "comment_id", "/comments/", "");
    (COMMENTS_BY_USER, "address", "/comments/user/", "");
    (PROFILES_BY_ADDRESS, "address", "/profiles/", "") ].

(** The template renders to the value between its fixed parts. *)
Definition renders_verbatim (route : string * string * string * string) : Prop :=
  let '(template, name, before, after) := route in
  forall value, str_format template name value = before ++ value ++ after.

(** Distinct values never render to the same endpoint. *)
Definition renders_injectively (route : string * string * string * string) : Prop :=
  let '(template, name, _, _) := route in
  forall v v', str_format template name v = str_format template name v' -> v = v'.

(** [outs] are the instances constructed from [items], one for one. *)
Definition constructed (m : model) (items outs : list pyobj) : Prop :=
  Forall2 (fun item o => call_model m item = Ok o) items outs.

(** An upstream that answers every request with the JSON [body]. *)
Definition json_upstream (body : pyobj) : Transport unit :=
  table_transport (fun _ => Ok (json_response body)).

Definition tag_mapping (id : string) : pyobj := PDict [("id", PStr id)].

(** A search endpoint whose first page announces more, and whose
    connection is lost afterwards. *)
Definition interrupted_search (rq : request) : result response :=
  match req_params rq with
  | Some params =>
      match dict_get "page" params with
      | Some (PInt 1) =>
          Ok (json_response (PDict
                [ ("events", PList [sample_event "a"; sample_event "b"]);
                  ("pagination", PDict [("hasMore", PBool true); ("totalResults", PInt 45)]) ]))
      | _ => Raise (PyError "ConnectError" "connection lost")
      end
  | None => Raise (PyError "ConnectError" "connection lost")
  end.

Definition interrupted_upstream : Transport unit := table_transport interrupted_search.

(** A search endpoint whose pagination has no [totalResults]. *)
Definition untotalled_upstream : Transport unit :=
  json_upstream (PDict [ ("events", PList []);
                         ("pagination", PDict [("hasMore", PBool false)]) ]).

Definition untotalled_page : pyobj :=
  Eval vm_compute in
    match fst (GammaClient_public_search (T := untotalled_upstream) (P := iso_validators)
                 "q" (initial_api_params []) initial_state) with
    | inr d => d
    | inl _ => PNone
    end.

(** The two names of [f] are its own: a field of [m] that shares one of
    them has both. *)
Definition owns_names (m : model) (f : field) : bool :=
  forallb (fun g =>
             if String.eqb (wire_name g) (wire_name f)
                || String.eqb (f_name g) (wire_name f)
                || String.eqb (wire_name g) (f_name f)
                || String.eqb (f_name g) (f_name f)
             then String.eqb (wire_name g) (wire_name f)
                  && String.eqb (f_name g) (f_name f)
             else true)
          (cls_fields m).

(** A mapping with the three mandatory keys of an event. *)
Definition event_mapping (id slug title : string) : dict :=
  [ ("id", PStr id); ("slug", PStr slug); ("title", PStr title) ].

(** A mapping with the four mandatory keys of a search market. *)
Definition search_market_mapping (id question conditionId slug : string) : dict :=
  [ ("id", PStr id); ("question", PStr question);
    ("conditionId", PStr conditionId); ("slug", PStr slug) ].

(** The entity models of [models.py]. *)
Definition entity_models {P : Pydantic} : list model :=
  [ Tag; Market; Event; Team; SportMetadata; Series; Comment; Profile;
    PublicSearchMarket; PublicSearchEvent; PublicSearchResponse ].

Definition market_by_python_names : dict :=
  [ ("id", PStr "1"); ("question", PStr "Q"); ("condition_id", PStr "0x1");
    ("slug", PStr "slug"); ("outcomes", PStr "A"); ("clob_token_ids", PStr "T1") ].

(** A 200 answer with a JSON text and no [Content-Type] header. *)
Definition headerless_response : response :=
  mk_response 200 None "{}" (Ok (PDict [])) "".

(** A search endpoint whose only page says that nothing more follows. *)
Definition last_page_upstream : Transport unit :=
  json_upstream (PDict [ ("events", PList [sample_event "a"]);
                         ("pagination",
                          PDict [("hasMore", PBool false); ("totalResults", PInt 5)]) ]).

(** The caller's parameters with a page size of zero. *)
Definition zero_limit_params : dict := [("limit_per_type", PInt 0)].

Definition last_page : pyobj :=
  Eval vm_compute in
    match fst (GammaClient_public_search (T := last_page_upstream) (P := iso_validators)
                 "q" (initial_api_params zero_limit_params) initial_state) with
    | inr d => d
    | inl _ => PNone
    end.

(* ================================================================== *)
(** * Properties of the string operations *)
(* ================================================================== *)

Unset Implicit Arguments.

Lemma str_app_assoc (a b c : string) : (a ++ b) ++ c = a ++ (b ++ c).
Proof. induction a as [|x a IH]; simpl; [reflexivity | now rewrite IH]. Qed.

Lemma str_app_nil_r (a : string) : a ++ "" = a.
Proof. induction a as [|x a IH]; simpl; [reflexivity | now rewrite IH]. Qed.

Lemma prefix_nil (s : string) : prefix "" s = true.
Proof. destruct s; reflexivity. Qed.

Lemma substring_all (s : string) : substring 0 (String.length s) s = s.
Proof. induction s as [|x s IH]; simpl; [reflexivity | now rewrite IH]. Qed.

Lemma prefix_char (c a : ascii) (s : string) :
  prefix (String c "") (String a s) = Ascii.eqb c a.
Proof.
  simpl. destruct (ascii_dec c a) as [->|n].
  - now rewrite prefix_nil, Ascii.eqb_refl.
  - symmetry. now apply Ascii.eqb_neq.
Qed.

Lemma str_in_char_cons (c a : ascii) (s : string) :
  str_in (String c "") (String a s) = Ascii.eqb c a || str_in (String c "") s.
Proof.
  change (str_in (String c "") (String a s))
    with (prefix (String c "") (String a s) || str_in (String c "") s).
  now rewrite prefix_char.
Qed.

Lemma str_in_char_app (c : ascii) (a b : string) :
  str_in (String c "") (a ++ b) = str_in (String c "") a || str_in (String c "") b.
Proof.
  induction a as [|x a IH].
  - reflexivity.
  - change (String x a ++ b) with (String x (a ++ b)).
    rewrite !str_in_char_cons, IH. now rewrite orb_assoc.
Qed.

(** A text of a given shape holds no character that the shape excludes. *)
Lemma matches_no_char (c : ascii) : forall pat s,
  matches pat s = true ->
  is_digit c = false ->
  str_in (String c "") pat = false ->
  str_in (String c "") s = false.
Proof.
  induction pat as [|p pat IH]; intros [|x s] Hm Hd Hp; simpl in Hm; try discriminate.
  - reflexivity.
  - apply andb_true_iff in Hm as [Hx Hm].
    rewrite str_in_char_cons in Hp. apply orb_false_iff in Hp as [Hcp Hp].
    rewrite str_in_char_cons, (IH s Hm Hd Hp), orb_false_r.
    destruct (Ascii.eqb p "d").
    + destruct (Ascii.eqb_spec c x) as [->|]; [congruence | reflexivity].
    + apply Ascii.eqb_eq in Hx. now subst x.
Qed.

Lemma str_replace_first_char (c : ascii) (new : string) : forall a b,
  str_in (String c "") a = false ->
  str_replace_first (String c "") new (a ++ String c b) = a ++ new ++ b.
Proof.
  induction a as [|x a IH]; intros b Ha.
  - change ("" ++ String c b) with (String c b).
    unfold str_replace_first. rewrite prefix_char, Ascii.eqb_refl.
    simpl. now rewrite Nat.sub_0_r, substring_all.
  - rewrite str_in_char_cons in Ha. apply orb_false_iff in Ha as [Hx Ha].
    change (String x a ++ String c b) with (String x (a ++ String c b)).
    change (str_replace_first (String c "") new (String x (a ++ String c b)))
      with (if prefix (String c "") (String x (a ++ String c b))
            then new ++ substring (String.length (String c ""))
                          (String.length (String x (a ++ String c b))
                           - String.length (String c ""))
                          (String x (a ++ String c b))
            else String x (str_replace_first (String c "") new (a ++ String c b))).
    rewrite prefix_char, Hx, (IH b Ha). reflexivity.
Qed.

Lemma str_endswith_app (a suf : string) : str_endswith (a ++ suf) suf = true.
Proof.
  induction a as [|x a IH].
  - change ("" ++ suf) with suf.
    destruct suf as [|y suf]; [reflexivity|].
    change (String.eqb (String y suf) (String y suf) || str_endswith suf (String y suf) = true).
    now rewrite String.eqb_refl.
  - change (String x a ++ suf) with (String x (a ++ suf)).
    simpl. rewrite IH. apply orb_true_r.
Qed.

(** Both repairs of the normalizer on a text [date time rest] whose date
    has neither a space nor a ["T"], and whose remainder has no ["T"]. *)
Lemma parse_flexible_datetime_space_offset (date rest sign : string) :
  str_in " " date = false ->
  str_in "T" date = false ->
  str_in "T" rest = false ->
  sign = "+" \/ sign = "-" ->
  parse_flexible_datetime (PStr (date ++ " " ++ rest ++ sign ++ "00"))
  = PStr (date ++ "T" ++ rest ++ sign ++ "00:00").
Proof.
  intros Hsp HT HrT Hsign. unfold parse_flexible_datetime.
  assert (Hin : str_in " " (date ++ " " ++ rest ++ sign ++ "00") = true).
  { rewrite str_in_char_app. change (" " ++ rest ++ sign ++ "00")
      with (String " " (rest ++ sign ++ "00")).
    rewrite str_in_char_cons. simpl. apply orb_true_r. }
  assert (HnT : str_in "T" (date ++ " " ++ rest ++ sign ++ "00") = false).
  { rewrite str_in_char_app, HT.
    change (" " ++ rest ++ sign ++ "00") with (String " " (rest ++ sign ++ "00")).
    rewrite str_in_char_cons, str_in_char_app, HrT.
    destruct Hsign as [-> | ->]; reflexivity. }
  rewrite Hin, HnT. cbn [andb negb].
  change (date ++ " " ++ rest ++ sign ++ "00")
    with (date ++ String " " (rest ++ sign ++ "00")).
  rewrite (str_replace_first_char " " "T" date (rest ++ sign ++ "00") Hsp).
  assert (Hend : str_endswith (date ++ "T" ++ rest ++ sign ++ "00") "+00"
                 || str_endswith (date ++ "T" ++ rest ++ sign ++ "00") "-00" = true).
  { destruct Hsign as [-> | ->].
    - replace (date ++ "T" ++ rest ++ "+" ++ "00") with ((date ++ "T" ++ rest) ++ "+00")
        by (now rewrite !str_app_assoc).
      now rewrite str_endswith_app.
    - replace (date ++ "T" ++ rest ++ "-" ++ "00") with ((date ++ "T" ++ rest) ++ "-00")
        by (now rewrite !str_app_assoc).
      rewrite str_endswith_app. apply orb_true_r. }
  rewrite Hend. f_equal. rewrite !str_app_assoc. reflexivity.
Qed.

(** C7. For every text [YYYY-MM-DD HH:MM:SS+00] or [YYYY-MM-DD HH:MM:SS-00]
    (digits in the date and time, a space between them, a two-digit zero
    offset), the normalizer returns the ISO form [YYYY-MM-DDTHH:MM:SS+00:00]
    (resp. [-00:00]): the space becomes ["T"] and [":00"] completes the
    offset, both repairs on the one input. *)
Theorem parse_flexible_datetime_iso_form (date time sign : string) :
  matches "dddd-dd-dd" date = true ->
  matches "dd:dd:dd" time = true ->
  sign = "+" \/ sign = "-" ->
  parse_flexible_datetime (PStr (date ++ " " ++ time ++ sign ++ "00"))
  = PStr (date ++ "T" ++ time ++ sign ++ "00:00").
Proof.
  intros Hd Ht Hs.
  apply parse_flexible_datetime_space_offset; trivial.
  - now apply (matches_no_char " " _ _ Hd).
  - now apply (matches_no_char "T" _ _ Hd).
  - now apply (matches_no_char "T" _ _ Ht).
Qed.

Lemma parse_flexible_datetime_iso_form_witness :
  parse_flexible_datetime (PStr "2026-01-30 19:37:52+00")
  = PStr "2026-01-30T19:37:52+00:00".
Proof.
  apply (parse_flexible_datetime_iso_form "2026-01-30" "19:37:52" "+");
    [reflexivity | reflexivity | left; reflexivity].
Defined.

(* ------------------------------------------------------------------ *)
(** ** [strip] *)

Lemma str_lstrip_spec (chars : string) : forall s,
  exists a, s = a ++ str_lstrip chars s
            /\ all_in chars a = true
            /\ starts_in chars (str_lstrip chars s) = false.
Proof.
  induction s as [|c s IH].
  - exists "". repeat split.
  - simpl. destruct (char_in c chars) eqn:Hc.
    + destruct IH as (a & Hs & Ha & Hst).
      exists (String c a). repeat split.
      * simpl. now rewrite <- Hs.
      * unfold all_in in *. simpl. now rewrite Hc, Ha.
      * exact Hst.
    + exists "". repeat split. simpl. exact Hc.
Qed.

Lemma str_rstrip_spec (chars : string) : forall s,
  exists b, s = str_rstrip chars s ++ b
            /\ all_in chars b = true
            /\ ends_in chars (str_rstrip chars s) = false.
Proof.
  induction s as [|c s IH].
  - exists "". repeat split.
  - destruct IH as (b & Hs & Hb & He). simpl.
    destruct (str_rstrip chars s) as [|x r] eqn:Hr.
    + simpl in Hs. subst b. destruct (char_in c chars) eqn:Hc.
      * exists (String c s). repeat split.
        unfold all_in in *. simpl. now rewrite Hc, Hb.
      * exists s. repeat split; trivial.
    + exists b. repeat split; trivial.
      simpl in Hs |- *. now rewrite <- Hs.
Qed.

Lemma str_rstrip_starts (chars s : string) :
  starts_in chars s = false -> starts_in chars (str_rstrip chars s) = false.
Proof.
  destruct s as [|c s]; [trivial|]. simpl. intros Hc.
  destruct (str_rstrip chars s); [rewrite Hc|]; simpl; trivial.
Qed.

Lemma str_lstrip_id (chars s : string) :
  starts_in chars s = false -> str_lstrip chars s = s.
Proof. destruct s as [|c s]; simpl; [trivial|]. now intros ->. Qed.

Lemma str_rstrip_app (chars : string) : forall r b,
  all_in chars b = true -> ends_in chars r = false ->
  str_rstrip chars (r ++ b) = r.
Proof.
  assert (Hall : forall b, all_in chars b = true -> str_rstrip chars b = "").
  { induction b as [|c b IH]; [trivial|]. unfold all_in. simpl.
    intros H. apply andb_true_iff in H as [Hc Hb].
    unfold all_in in IH. now rewrite (IH Hb), Hc. }
  induction r as [|c r IH]; intros b Hb He.
  - now apply Hall.
  - change (String c r ++ b) with (String c (r ++ b)). simpl.
    destruct r as [|x r].
    + change ("" ++ b) with b. rewrite (Hall b Hb).
      simpl in He. now rewrite He.
    + rewrite (IH b Hb He). reflexivity.
Qed.

Lemma str_rstrip_id (chars s : string) :
  ends_in chars s = false -> str_rstrip chars s = s.
Proof.
  intros He. rewrite <- (str_app_nil_r s) at 1.
  now apply str_rstrip_app.
Qed.

(** [strip] removes a run of [chars] at each end and leaves a text that
    neither starts nor ends with one of them. *)
Lemma str_strip_spec (chars s : string) :
  exists a b, s = a ++ str_strip chars s ++ b
              /\ all_in chars a = true /\ all_in chars b = true
              /\ starts_in chars (str_strip chars s) = false
              /\ ends_in chars (str_strip chars s) = false.
Proof.
  unfold str_strip.
  destruct (str_lstrip_spec chars s) as (a & Hs & Ha & Hst).
  destruct (str_rstrip_spec chars (str_lstrip chars s)) as (b & Hl & Hb & He).
  exists a, b. repeat split; trivial.
  - now rewrite <- Hl.
  - now apply str_rstrip_starts.
Qed.

Lemma str_strip_id (chars s : string) :
  starts_in chars s = false -> ends_in chars s = false -> str_strip chars s = s.
Proof.
  intros Hs He. unfold str_strip. rewrite (str_lstrip_id _ _ Hs).
  now apply str_rstrip_id.
Qed.

Lemma str_strip_enclosed (c : ascii) (mid : string) :
  starts_in (String c "") mid = false ->
  ends_in (String c "") mid = false ->
  str_strip (String c "") (String c "" ++ mid ++ String c "") = mid.
Proof.
  intros Hs He. unfold str_strip.
  change (String c "" ++ mid ++ String c "") with (String c (mid ++ String c "")).
  assert (Hc : char_in c (String c "") = true).
  { unfold char_in. simpl. now rewrite Ascii.eqb_refl. }
  assert (Hq : all_in (String c "") (String c "") = true).
  { unfold all_in. simpl. now rewrite Hc. }
  change (str_lstrip (String c "") (String c (mid ++ String c "")))
    with (if char_in c (String c "") then str_lstrip (String c "") (mid ++ String c "")
          else String c (mid ++ String c "")).
  rewrite Hc. destruct mid as [|x mid].
  - simpl. now rewrite Hc.
  - change (String x mid ++ String c "") with (String x (mid ++ String c "")).
    simpl in Hs. simpl str_lstrip. rewrite Hs.
    change (String x (mid ++ String c "")) with (String x mid ++ String c "").
    now apply str_rstrip_app.
Qed.

(* ================================================================== *)
(** * The request pipeline *)
(* ================================================================== *)

Section Request.
Context {W : Type} {T : Transport W}.
Variables (method endpoint : string) (params : option dict).
Variable st : client_state W.

Let rq := mk_request method endpoint params.
Let after (w' : W) := mk_state w' (sent st ++ [rq]).

Lemma Async_request_eq :
  AsyncGammaClient__request method endpoint params
  = GammaClient__request method endpoint params.
Proof. reflexivity. Qed.

(** The transport raised: the handlers see its exception. *)
Lemma request_transport_raised (e : exn) (w' : W) :
  send rq (world st) = (Raise e, w') ->
  GammaClient__request method endpoint params st = request_handlers e (after w').
Proof.
  intros Hs. unfold GammaClient__request, try_except, bind, http_client_request.
  fold rq. rewrite Hs. reflexivity.
Qed.

Lemma request_404 (r : response) (w' : W) :
  send rq (world st) = (Ok r, w') ->
  status_code r = 404 ->
  GammaClient__request method endpoint params st
  = (Raise (NotFoundError ("Resource not found: " ++ endpoint) (Some 404)), after w').
Proof.
  intros Hs H404. unfold GammaClient__request, try_except, bind, http_client_request.
  fold rq. rewrite Hs. unfold Ok. rewrite H404. reflexivity.
Qed.

Lemma request_status_error (r : response) (w' : W) :
  send rq (world st) = (Ok r, w') ->
  status_code r <> 404 ->
  status_code r < 200 \/ 299 < status_code r ->
  GammaClient__request method endpoint params st
  = (Raise (GammaAPIError ("API Error: " ++ status_message r)
              (Some (status_code r)) (Some (text r))), after w').
Proof.
  intros Hs H404 Hout. unfold GammaClient__request, try_except, bind, http_client_request.
  fold rq. rewrite Hs. unfold Ok.
  apply Z.eqb_neq in H404. rewrite H404.
  unfold lift, raise_for_status.
  replace ((200 <=? status_code r) && (status_code r <=? 299)) with false.
  - reflexivity.
  - symmetry. apply andb_false_iff.
    destruct Hout; [left; apply Z.leb_gt | right; apply Z.leb_gt]; lia.
Qed.

(** A 2xx answer: the decoded JSON body, or the stripped text. *)
Lemma request_success (r : response) (w' : W) :
  send rq (world st) = (Ok r, w') ->
  200 <= status_code r <= 299 ->
  GammaClient__request method endpoint params st
  = (if str_in "application/json"
          match content_type_header r with Some c => c | None => "" end
     then match json r with
          | inl e => fst (request_handlers (W:=W) e (after w'))
          | inr v => Ok v
          end
     else Ok (PStr (str_strip dquote (text r))),
     after w').
Proof.
  intros Hs Hin. unfold GammaClient__request, try_except, bind, http_client_request.
  fold rq. rewrite Hs. unfold Ok.
  replace (status_code r =? 404) with false by (symmetry; apply Z.eqb_neq; lia).
  unfold lift, raise_for_status.
  replace ((200 <=? status_code r) && (status_code r <=? 299)) with true
    by (symmetry; apply andb_true_iff; split; apply Z.leb_le; lia).
  unfold Ok.
  destruct (str_in "application/json" _).
  - destruct (json r) as [e|v]; [|reflexivity].
    destruct e; simpl; try reflexivity.
  - reflexivity.
Qed.

Lemma request_handlers_raise (e : exn) (s : client_state W) :
  exists g, request_handlers e s = (Raise g, s) /\ is_GammaError g = true.
Proof.
  destruct e; simpl; eexists; split; reflexivity.
Qed.

(** Whatever [_request] raises belongs to the library's taxonomy. *)
Lemma request_raises_GammaError (e : exn) (st' : client_state W) :
  GammaClient__request method endpoint params st = (Raise e, st') ->
  is_GammaError e = true.
Proof.
  destruct (send rq (world st)) as [[ex|r] w'] eqn:Hs.
  - rewrite (request_transport_raised ex w' Hs).
    destruct (request_handlers_raise ex (after w')) as (g & -> & Hg).
    intros [= <- _]. exact Hg.
  - destruct (Z.eq_dec (status_code r) 404) as [H404|H404].
    + rewrite (request_404 r w' Hs H404). intros [= <- _]. reflexivity.
    + destruct (Z_lt_dec (status_code r) 200) as [Hlo|Hlo];
        [|destruct (Z_lt_dec 299 (status_code r)) as [Hhi|Hhi]].
      * rewrite (request_status_error r w' Hs H404 (or_introl Hlo)).
        intros [= <- _]. reflexivity.
      * rewrite (request_status_error r w' Hs H404 (or_intror Hhi)).
        intros [= <- _]. reflexivity.
      * rewrite (request_success r w' Hs) by lia.
        destruct (str_in _ _); [|discriminate].
        destruct (json r) as [ex|v]; [|discriminate].
        destruct (request_handlers_raise ex (after w')) as (g & -> & Hg).
        intros [= <- _]. exact Hg.
Qed.

(** Each call issues exactly one transport request. *)
Lemma request_state (out : result response) (w' : W) :
  send rq (world st) = (out, w') ->
  snd (GammaClient__request method endpoint params st) = after w'.
Proof.
  intros Hs. destruct out as [ex|r].
  - rewrite (request_transport_raised ex w' Hs).
    now destruct (request_handlers_raise ex (after w')) as (g & -> & _).
  - destruct (Z.eq_dec (status_code r) 404) as [H404|H404].
    + now rewrite (request_404 r w' Hs H404).
    + destruct (Z_lt_dec (status_code r) 200) as [Hlo|Hlo];
        [|destruct (Z_lt_dec 299 (status_code r)) as [Hhi|Hhi]].
      * now rewrite (request_status_error r w' Hs H404 (or_introl Hlo)).
      * now rewrite (request_status_error r w' Hs H404 (or_intror Hhi)).
      * rewrite (request_success r w' Hs) by lia. reflexivity.
Qed.

Lemma request_sent (res : result pyobj) (st' : client_state W) :
  GammaClient__request method endpoint params st = (res, st') ->
  sent st' = (sent st ++ [rq])%list.
Proof.
  intros Hr. destruct (send rq (world st)) as [out w'] eqn:Hs.
  pose proof (request_state out w' Hs) as Hst.
  rewrite Hr in Hst. simpl in Hst. now subst st'.
Qed.
End Request.

(** C5. A 404 answer raises [NotFoundError] with status code 404; any
    other status outside 200..299 raises [GammaAPIError] with the status
    code and the body text; an exception of the transport call, or of
    decoding the body, that is neither of the library nor an
    [HTTPStatusError] is wrapped into a [GammaAPIError] whose message
    holds its description; so whatever a request raises is a
    [GammaError].  The asynchronous pipeline is the same function. *)
Theorem request_error_taxonomy {W : Type} {T : Transport W}
    (method endpoint : string) (params : option dict) (st : client_state W) :
  (forall r w',
      send (mk_request method endpoint params) (world st) = (Ok r, w') ->
      status_code r = 404 ->
      fst (GammaClient__request method endpoint params st)
      = Raise (NotFoundError ("Resource not found: " ++ endpoint) (Some 404)))
  /\ (forall r w',
      send (mk_request method endpoint params) (world st) = (Ok r, w') ->
      status_code r <> 404 ->
      status_code r < 200 \/ 299 < status_code r ->
      fst (GammaClient__request method endpoint params st)
      = Raise (GammaAPIError ("API Error: " ++ status_message r)
                 (Some (status_code r)) (Some (text r))))
  /\ (forall e w',
      send (mk_request method endpoint params) (world st) = (Raise e, w') ->
      is_GammaError e = false ->
      (forall m s t, e <> HTTPStatusError m s t) ->
      fst (GammaClient__request method endpoint params st)
      = Raise (GammaAPIError ("Unexpected Error: " ++ exn_str e) None None))
  /\ (forall r w' e,
      send (mk_request method endpoint params) (world st) = (Ok r, w') ->
      200 <= status_code r <= 299 ->
      str_in "application/json"
        match content_type_header r with Some c => c | None => "" end = true ->
      json r = Raise e ->
      is_GammaError e = false ->
      (forall m s t, e <> HTTPStatusError m s t) ->
      fst (GammaClient__request method endpoint params st)
      = Raise (GammaAPIError ("Unexpected Error: " ++ exn_str e) None None))
  /\ (forall e st',
      GammaClient__request method endpoint params st = (Raise e, st') ->
      is_GammaError e = true)
  /\ AsyncGammaClient__request method endpoint params st
     = GammaClient__request method endpoint params st.
Proof.
  assert (Hwrap : forall e (s : client_state W),
            is_GammaError e = false ->
            (forall m c t, e <> HTTPStatusError m c t) ->
            fst (request_handlers (W:=W) e s)
            = Raise (GammaAPIError ("Unexpected Error: " ++ exn_str e) None None)).
  { intros e s Hg Hh. destruct e; simpl in *; try discriminate; try reflexivity.
    now elim (Hh msg status_code0 response_text). }
  repeat split.
  - intros r w' Hs H404. now rewrite (request_404 _ _ _ _ r w' Hs H404).
  - intros r w' Hs H404 Hout. now rewrite (request_status_error _ _ _ _ r w' Hs H404 Hout).
  - intros e w' Hs Hg Hh. rewrite (request_transport_raised _ _ _ _ e w' Hs).
    now apply Hwrap.
  - intros r w' e Hs Hin Hct Hj Hg Hh.
    rewrite (request_success _ _ _ _ r w' Hs Hin), Hct, Hj. simpl.
    now apply Hwrap.
  - intros e st'. apply request_raises_GammaError.
Qed.

Lemma request_error_taxonomy_witness :
  fst (GammaClient__request (T := table_transport (fun _ => Ok (error_response 503 "down")))
         "GET" STATUS None initial_state)
  = Raise (GammaAPIError "API Error: status error" (Some 503) (Some "down")).
Proof.
  apply (proj1 (proj2 (request_error_taxonomy
                         (T := table_transport (fun _ => Ok (error_response 503 "down")))
                         "GET" STATUS None initial_state))
           (error_response 503 "down") tt).
  - reflexivity.
  - discriminate.
  - right. reflexivity.
Defined.

(** C9, as the code has it.  For a 2xx answer whose [Content-Type] does
    not contain [application/json], the value returned is the body text
    without its leading and without its trailing double quotes, however
    many there are at either end: what is returned neither starts nor
    ends with a double quote.  A text enclosed in one pair whose inside
    has no double quote at its ends loses exactly that pair, and a text
    with no double quote at either end is returned unchanged. *)
Theorem request_text_body_strips_quotes {W : Type} {T : Transport W}
    (method endpoint : string) (params : option dict) (st : client_state W)
    (r : response) (w' : W) :
  send (mk_request method endpoint params) (world st) = (Ok r, w') ->
  200 <= status_code r <= 299 ->
  str_in "application/json"
    match content_type_header r with Some c => c | None => "" end = false ->
  fst (GammaClient__request method endpoint params st)
  = Ok (PStr (str_strip dquote (text r)))
  /\ fst (AsyncGammaClient__request method endpoint params st)
     = Ok (PStr (str_strip dquote (text r)))
  /\ (exists a b, text r = a ++ str_strip dquote (text r) ++ b
                  /\ all_in dquote a = true /\ all_in dquote b = true)
  /\ starts_in dquote (str_strip dquote (text r)) = false
  /\ ends_in dquote (str_strip dquote (text r)) = false
  /\ (forall mid, text r = dquote ++ mid ++ dquote ->
                  starts_in dquote mid = false -> ends_in dquote mid = false ->
                  str_strip dquote (text r) = mid)
  /\ (starts_in dquote (text r) = false -> ends_in dquote (text r) = false ->
      str_strip dquote (text r) = text r).
Proof.
  intros Hs Hin Hct.
  assert (Hreq : fst (GammaClient__request method endpoint params st)
                 = Ok (PStr (str_strip dquote (text r)))).
  { now rewrite (request_success _ _ _ _ r w' Hs Hin), Hct. }
  destruct (str_strip_spec dquote (text r)) as (a & b & Ht & Ha & Hb & Hst & Hen).
  repeat split; trivial.
  - now exists a, b.
  - intros mid -> Hms Hme. now apply str_strip_enclosed.
  - apply str_strip_id.
Qed.

Lemma request_text_body_strips_quotes_witness :
  fst (GammaClient__request (T := status_text (dquote ++ "OK" ++ dquote))
         "GET" STATUS None initial_state)
  = Ok (PStr "OK").
Proof.
  refine (proj1 (request_text_body_strips_quotes
                   (T := status_text (dquote ++ "OK" ++ dquote))
                   "GET" STATUS None initial_state
                   (text_response (dquote ++ "OK" ++ dquote)) tt _ _ _)).
  - reflexivity.
  - simpl. lia.
  - reflexivity.
Defined.

(** C9 as stated fails: two layers of quotes are both removed, and a
    lone leading quote is removed although no pair encloses the text. *)
Lemma request_text_body_one_pair_counterexample :
  fst (GammaClient__request (T := status_text doubly_quoted_body)
         "GET" STATUS None initial_state) = Ok (PStr "abc")
  /\ strip_one_quote_pair doubly_quoted_body = dquote ++ "abc" ++ dquote
  /\ "abc" <> strip_one_quote_pair doubly_quoted_body
  /\ fst (GammaClient__request (T := status_text half_quoted_body)
            "GET" STATUS None initial_state) = Ok (PStr "abc")
  /\ strip_one_quote_pair half_quoted_body = half_quoted_body
  /\ "abc" <> strip_one_quote_pair half_quoted_body.
Proof.
  repeat split; try reflexivity; vm_compute; discriminate.
Qed.

(* ================================================================== *)
(** * Sub-clients *)
(* ================================================================== *)

Lemma markets_by_slug_route (slug : string) :
  str_format MARKETS_BY_SLUG "slug" slug = "/markets/slug/" ++ slug.
Proof. unfold str_format, MARKETS_BY_SLUG. simpl. now rewrite str_app_nil_r. Qed.

Lemma events_by_slug_route (slug : string) :
  str_format EVENTS_BY_SLUG "slug" slug = "/events/slug/" ++ slug.
Proof. unfold str_format, EVENTS_BY_SLUG. simpl. now rewrite str_app_nil_r. Qed.

(** C4. When the request of a market lookup by slug succeeds: a body
    that is one JSON object gives the [Market] constructed from it, a
    one-element array gives the [Market] constructed from its element
    (the same call on the same mapping), and an empty array gives
    [None]; the blocking and the asynchronous sub-client agree. *)
Theorem get_by_slug_body_shapes {W : Type} {T : Transport W} {P : Pydantic}
    (slug : string) (st st' : client_state W) (body : pyobj) :
  GammaClient__request "GET" ("/markets/slug/" ++ slug) None st = (Ok body, st') ->
  (forall d, body = PDict d ->
     MarketsClient_get_by_slug slug st = (construct Market d, st')
     /\ AsyncMarketsClient_get_by_slug slug st = (construct Market d, st'))
  /\ (forall d, body = PList [PDict d] ->
     MarketsClient_get_by_slug slug st = (construct Market d, st')
     /\ AsyncMarketsClient_get_by_slug slug st = (construct Market d, st'))
  /\ (body = PList [] ->
     MarketsClient_get_by_slug slug st = (Ok PNone, st')
     /\ AsyncMarketsClient_get_by_slug slug st = (Ok PNone, st')).
Proof.
  intros Hreq.
  assert (Hrun : MarketsClient_get_by_slug slug st
                 = match body with
                   | PList [] => (Ok PNone, st')
                   | PList (first :: _) => (call_model Market first, st')
                   | _ => (call_model Market body, st')
                   end).
  { unfold MarketsClient_get_by_slug, bind. rewrite markets_by_slug_route, Hreq.
    unfold Ok. destruct body as [| | | | | |[|x l]| |]; reflexivity. }
  assert (Ha : AsyncMarketsClient_get_by_slug slug st = MarketsClient_get_by_slug slug st)
    by reflexivity.
  rewrite Ha, Hrun.
  repeat split; subst body; reflexivity.
Qed.

Lemma get_by_slug_body_shapes_witness :
  MarketsClient_get_by_slug (T := market_upstream (PList [PDict minimal_market]))
    (P := iso_validators) "foo-bar" initial_state
  = (construct (Market (P := iso_validators)) minimal_market,
     mk_state tt [mk_request "GET" "/markets/slug/foo-bar" None]).
Proof.
  refine (proj1 (proj1 (proj2 (get_by_slug_body_shapes
            (T := market_upstream (PList [PDict minimal_market])) (P := iso_validators)
            "foo-bar" initial_state
            (mk_state tt [mk_request "GET" "/markets/slug/foo-bar" None])
            (PList [PDict minimal_market]) _)) minimal_market eq_refl)).
  reflexivity.
Defined.

(* ================================================================== *)
(** * Entity models *)
(* ================================================================== *)

Lemma dict_get_set (k k' : string) (v : pyobj) : forall d,
  dict_get k (dict_set k' v d)
  = if String.eqb k k' then Some v else dict_get k d.
Proof.
  induction d as [|[k0 v0] d IH]; simpl.
  - reflexivity.
  - destruct (String.eqb_spec k' k0) as [->|Hn]; simpl.
    + destruct (String.eqb k k0); reflexivity.
    + rewrite IH. destruct (String.eqb_spec k k0) as [->|Hn'].
      * destruct (String.eqb_spec k0 k'); [congruence | reflexivity].
      * reflexivity.
Qed.

Lemma dict_set_set (k : string) (v v' : pyobj) : forall d,
  dict_set k v (dict_set k v' d) = dict_set k v d.
Proof.
  induction d as [|[k0 v0] d IH]; simpl.
  - now rewrite String.eqb_refl.
  - destruct (String.eqb k k0) eqn:E; simpl.
    + now rewrite String.eqb_refl.
    + now rewrite E, IH.
Qed.

Section Construct.
Variable m : model.

(** Construction reads the mapping through the declared names only. *)
Lemma validate_fields_ext (cfg : model_config) (d d' : dict) : forall fs,
  (forall f, In f fs ->
     dict_get (wire_name f) d = dict_get (wire_name f) d'
     /\ dict_get (f_name f) d = dict_get (f_name f) d') ->
  validate_fields cfg fs d = validate_fields cfg fs d'.
Proof.
  induction fs as [|f fs IH]; intros Hagree; simpl.
  - reflexivity.
  - rewrite IH by (intros g Hg; apply Hagree; now right).
    destruct (Hagree f (or_introl eq_refl)) as [Hw Hn].
    unfold validate_field, field_input. now rewrite Hw, Hn.
Qed.

Lemma construct_ext (d d' : dict) :
  (forall k, declares m k = true -> dict_get k d = dict_get k d') ->
  construct m d = construct m d'.
Proof.
  intros Hagree. unfold construct.
  rewrite (validate_fields_ext (model_config_of m) d d' (cls_fields m)).
  - reflexivity.
  - intros f Hf. split; apply Hagree; unfold declares; apply existsb_exists;
      exists f; split; trivial.
    + unfold wire_name. destruct (f_alias f).
      * rewrite String.eqb_refl. apply orb_true_r.
      * now rewrite String.eqb_refl.
    + now rewrite String.eqb_refl.
Qed.

(** An instance has exactly the declared fields, in their order. *)
Lemma validate_fields_names (cfg : model_config) (d : dict) : forall fs vals,
  validate_fields cfg fs d = ([], vals) -> map fst vals = map f_name fs.
Proof.
  induction fs as [|f fs IH]; simpl; intros vals.
  - now intros [= <-].
  - destruct (validate_fields cfg fs d) as [errs vs].
    unfold validate_field.
    destruct (field_input cfg f d) as [v|].
    + destruct (f_type f v); intros [= -> <-]. simpl. now rewrite (IH vs).
    + destruct (f_default f); intros [= -> <-]. simpl. now rewrite (IH vs).
Qed.

Lemma construct_instance (d : dict) (o : pyobj) :
  construct m d = Ok o ->
  exists vals, o = PModel (cls_name m) vals /\ map fst vals = map f_name (cls_fields m).
Proof.
  unfold construct.
  destruct (validate_fields (model_config_of m) (cls_fields m) d) as [[|e errs] vals] eqn:E.
  - intros [= <-]. exists vals. split; [reflexivity|].
    now apply (validate_fields_names (model_config_of m) d).
  - discriminate.
Qed.

Lemma dict_get_undeclared (k : string) (vals : dict) :
  declares m k = false ->
  map fst vals = map f_name (cls_fields m) ->
  dict_get k vals = None.
Proof.
  unfold declares. generalize (cls_fields m). intros fs. revert vals.
  induction fs as [|f fs IH]; intros [|[k0 v0] vals]; simpl; try discriminate.
  - reflexivity.
  - intros Hd [= -> Hm]. apply orb_false_iff in Hd as [Hf Hd].
    apply orb_false_iff in Hf as [Hf _]. rewrite Hf. now apply IH.
Qed.
End Construct.

(** C10. For every entity model (the statement holds for any declared
    schema, so for [Market], [Event], [Tag], [PublicSearchMarket],
    [PublicSearchEvent] and the others), a key that is neither the name
    nor the alias of a declared field changes nothing: construction from
    the mapping with the key gives what construction without it gives, a
    success stays a success, and the instance has no attribute of that
    key. *)
Theorem construct_ignores_unknown_key (m : model) (d : dict) (k : string) (v : pyobj) :
  declares m k = false ->
  construct m (dict_set k v d) = construct m d
  /\ construct m ((k, v) :: d) = construct m d
  /\ (is_ok (construct m d) = true -> is_ok (construct m (dict_set k v d)) = true)
  /\ (forall o, construct m (dict_set k v d) = Ok o ->
                exists vals, o = PModel (cls_name m) vals /\ dict_get k vals = None).
Proof.
  intros Hk.
  assert (Hset : construct m (dict_set k v d) = construct m d).
  { apply construct_ext. intros k' Hk'. rewrite dict_get_set.
    destruct (String.eqb_spec k' k) as [->|]; [congruence | reflexivity]. }
  repeat split.
  - exact Hset.
  - apply construct_ext. intros k' Hk'. simpl.
    destruct (String.eqb_spec k' k) as [->|]; [congruence | reflexivity].
  - now rewrite Hset.
  - intros o Ho. destruct (construct_instance m _ o Ho) as (vals & -> & Hn).
    exists vals. split; [reflexivity|]. now apply (dict_get_undeclared m).
Qed.

Lemma construct_ignores_unknown_key_witness :
  construct (Market (P := iso_validators)) (dict_set "umaOracle" (PInt 7) minimal_market)
  = construct (Market (P := iso_validators)) minimal_market.
Proof.
  apply (proj1 (construct_ignores_unknown_key (Market (P := iso_validators))
                  minimal_market "umaOracle" (PInt 7) eq_refl)).
Defined.

Section Mandatory.
Variable m : model.

Lemma validate_fields_missing (cfg : model_config) (d : dict) (f : field) : forall fs,
  In f fs -> is_required f = true -> field_input cfg f d = None ->
  fst (validate_fields cfg fs d) <> [].
Proof.
  unfold is_required.
  induction fs as [|g fs IH]; simpl; intros Hin Hreq Hnone; [contradiction|].
  destruct (validate_fields cfg fs d) as [errs vals] eqn:E.
  destruct Hin as [->|Hin].
  - unfold validate_field. rewrite Hnone.
    destruct (f_default f); [discriminate | discriminate].
  - specialize (IH Hin Hreq Hnone). simpl in IH.
    destruct (validate_field cfg g d); simpl; [discriminate | exact IH].
Qed.

Lemma validate_fields_errors (cfg : model_config) (d : dict) : forall fs,
  fst (validate_fields cfg fs d) <> [] ->
  exists f, In f fs /\
    ((exists v, field_input cfg f d = Some v /\ f_type f v = None)
     \/ (field_input cfg f d = None /\ is_required f = true)).
Proof.
  unfold is_required.
  induction fs as [|g fs IH]; simpl; intros Herr; [congruence|].
  destruct (validate_fields cfg fs d) as [errs vals] eqn:E.
  unfold validate_field in Herr.
  destruct (field_input cfg g d) as [v|] eqn:Hin.
  - destruct (f_type g v) eqn:Hty.
    + destruct (IH Herr) as (f & Hf & Hcase). exists f. split; [now right | exact Hcase].
    + exists g. split; [now left|]. left. now exists v.
  - destruct (f_default g) eqn:Hdef.
    + exists g. split; [now left|]. right. now rewrite Hdef.
    + destruct (IH Herr) as (f & Hf & Hcase). exists f. split; [now right | exact Hcase].
Qed.

Lemma is_ok_construct (d : dict) :
  is_ok (construct m d) = false
  <-> fst (validate_fields (model_config_of m) (cls_fields m) d) <> [].
Proof.
  unfold construct.
  destruct (validate_fields (model_config_of m) (cls_fields m) d) as [[|e errs] vals];
    simpl; split; congruence.
Qed.

(** A mandatory field supplied under neither name fails construction. *)
Lemma construct_missing (d : dict) (f : field) :
  In f (cls_fields m) -> is_required f = true -> absent m f d ->
  is_ok (construct m d) = false.
Proof.
  intros Hin Hreq Habs. apply is_ok_construct.
  now apply (validate_fields_missing _ d f).
Qed.

(** With well-typed supplied values, nothing else fails it. *)
Lemma construct_fails_iff_missing (d : dict) :
  well_typed m d ->
  (is_ok (construct m d) = false
   <-> exists f, In f (cls_fields m) /\ is_required f = true /\ absent m f d).
Proof.
  intros Hwt. split.
  - intros Hfail. apply is_ok_construct in Hfail.
    destruct (validate_fields_errors _ d _ Hfail) as (f & Hf & [(v & Hv & Hty)|[Hn Hr]]).
    + now elim (Hwt f v Hf Hv).
    + now exists f.
  - intros (f & Hf & Hr & Ha). now apply (construct_missing d f).
Qed.
End Mandatory.

Lemma validate_all_strs (l : list string) :
  validate_all str_ (map PStr l) = Some (map PStr l).
Proof. induction l as [|s l IH]; simpl; [reflexivity | now rewrite IH]. Qed.

Lemma union_value_valid (w : string + list string) :
  Union [List_ str_; str_] (union_value w) = Some (union_value w).
Proof.
  destruct w as [s|l]; simpl; [reflexivity|].
  now rewrite validate_all_strs.
Qed.

(** The instance built from the six mandatory keys alone. *)
Lemma Market_from_mandatory {P : Pydantic} (id question conditionId slug : string)
    (outcomes clobTokenIds : string + list string) :
  construct Market (market_mapping id question conditionId slug
                      (union_value outcomes) (union_value clobTokenIds))
  = Ok (PModel "Market"
          [ ("id", PStr id); ("question", PStr question);
            ("condition_id", PStr conditionId); ("slug", PStr slug);
            ("twitter_card_image", PNone); ("resolution_source", PNone);
            ("end_date_iso", PNone); ("category", PNone); ("amm_type", PNone);
            ("liquidity", PNone); ("volume", PNone);
            ("outcomes", union_value outcomes);
            ("clob_token_ids", union_value clobTokenIds);
            ("group_item_title", PNone); ("group_item_threshold", PNone);
            ("question_id", PNone); ("rewards_min_size", PNone);
            ("rewards_max_spread", PNone); ("spread", PNone);
            ("last_trade_price", PNone); ("best_bid", PNone); ("best_ask", PNone);
            ("active", PBool true); ("closed", PBool false);
            ("archived", PBool false); ("restricted", PBool false);
            ("event_id", PNone) ]).
Proof.
  unfold construct, market_mapping. cbn -[Union union_value].
  rewrite !union_value_valid. reflexivity.
Qed.

(** C6, as the code has it.  The mandatory fields of [Market] are id,
    question, conditionId, slug, outcomes and clobTokenIds.  Construction
    fails whenever one of them is supplied under neither its wire name
    nor its Python name; for a mapping whose supplied values pass the
    validators of their fields it fails exactly then.  From the six
    mandatory keys alone, with strings and a string or a list of strings
    for outcomes and clobTokenIds, construction succeeds: every
    [Optional] field is [None] (liquidity, volume and the prices are not
    zero) and the flags active, closed, archived, restricted take their
    declared defaults. *)
Theorem market_mandatory_fields {P : Pydantic} :
  mandatory Market = ["id"; "question"; "conditionId"; "slug"; "outcomes"; "clobTokenIds"]
  /\ (forall d f, In f (cls_fields Market) -> is_required f = true ->
                  absent Market f d -> is_ok (construct Market d) = false)
  /\ (forall d, well_typed Market d ->
                (is_ok (construct Market d) = false
                 <-> exists f, In f (cls_fields Market) /\ is_required f = true
                               /\ absent Market f d))
  /\ (forall id question conditionId slug outcomes clobTokenIds,
        construct Market (market_mapping id question conditionId slug
                            (union_value outcomes) (union_value clobTokenIds))
        = Ok (PModel "Market"
                [ ("id", PStr id); ("question", PStr question);
                  ("condition_id", PStr conditionId); ("slug", PStr slug);
                  ("twitter_card_image", PNone); ("resolution_source", PNone);
                  ("end_date_iso", PNone); ("category", PNone); ("amm_type", PNone);
                  ("liquidity", PNone); ("volume", PNone);
                  ("outcomes", union_value outcomes);
                  ("clob_token_ids", union_value clobTokenIds);
                  ("group_item_title", PNone); ("group_item_threshold", PNone);
                  ("question_id", PNone); ("rewards_min_size", PNone);
                  ("rewards_max_spread", PNone); ("spread", PNone);
                  ("last_trade_price", PNone); ("best_bid", PNone); ("best_ask", PNone);
                  ("active", PBool true); ("closed", PBool false);
                  ("archived", PBool false); ("restricted", PBool false);
                  ("event_id", PNone) ])).
Proof.
  split; [reflexivity|]. split; [|split].
  - intros d f. apply construct_missing.
  - intros d. apply construct_fails_iff_missing.
  - apply Market_from_mandatory.
Qed.

Lemma market_mandatory_fields_witness :
  is_ok (construct (Market (P := iso_validators)) market_without_slug) = false.
Proof.
  apply (proj1 (proj2 (market_mandatory_fields (P := iso_validators)))
           market_without_slug (annot "slug" str_)).
  - simpl. tauto.
  - reflexivity.
  - reflexivity.
Defined.

(** C6 as stated fails: with all six mandatory fields supplied,
    construction still fails when the id is a number. *)
Lemma market_fails_with_all_mandatory_counterexample :
  construct (Market (P := iso_validators)) market_with_numeric_id
  = Raise (PydanticValidationError "Market" [("id", "invalid")])
  /\ forallb (fun k => is_some (dict_get k market_with_numeric_id))
       ["id"; "question"; "conditionId"; "slug"; "outcomes"; "clobTokenIds"] = true.
Proof. split; reflexivity. Qed.

(** C8. [Market] accepts a single string as well as a list of strings
    for outcomes and for clobTokenIds: whichever shape each of the two
    has on the wire, construction succeeds and the instance holds the
    value as supplied. *)
Theorem market_union_fields_accept_both_shapes {P : Pydantic}
    (id question conditionId slug : string) (outcomes clobTokenIds : string + list string) :
  union_value (inl "A") = PStr "A"
  /\ union_value (inr ["A"; "B"]) = PList [PStr "A"; PStr "B"]
  /\ exists vals,
       construct Market (market_mapping id question conditionId slug
                           (union_value outcomes) (union_value clobTokenIds))
       = Ok (PModel "Market" vals)
       /\ dict_get "outcomes" vals = Some (union_value outcomes)
       /\ dict_get "clob_token_ids" vals = Some (union_value clobTokenIds).
Proof.
  split; [reflexivity|]. split; [reflexivity|].
  eexists. split; [apply Market_from_mandatory|]. split; reflexivity.
Qed.

(** C2, as the code has it.  [PublicSearchMarket] runs the normalizer
    before validation on closedTime only.  The text supplied as
    umaEndDate, and as endDate, reaches the date-time validator as it
    is: construction succeeds exactly when the validator accepts the raw
    text, whereas for closedTime it succeeds exactly when the validator
    accepts the normalized text.  With a validator that wants a full
    offset, the text [2023-04-01 12:00:00+00] is refused as umaEndDate
    and accepted as closedTime. *)
Theorem uma_end_date_is_not_normalized {P : Pydantic} (s : string) :
  is_ok (construct PublicSearchMarket (search_market_with "umaEndDate" s))
  = is_some (datetime_ (PStr s))
  /\ is_ok (construct PublicSearchMarket (search_market_with "endDate" s))
     = is_some (datetime_ (PStr s))
  /\ is_ok (construct PublicSearchMarket (search_market_with "closedTime" s))
     = is_some (datetime_ (parse_flexible_datetime (PStr s)))
  /\ construct (PublicSearchMarket (P := iso_validators))
       (search_market_with "umaEndDate" "2023-04-01 12:00:00+00")
     = Raise (PydanticValidationError "PublicSearchMarket" [("umaEndDate", "invalid")])
  /\ is_ok (construct (PublicSearchMarket (P := iso_validators))
              (search_market_with "closedTime" "2023-04-01 12:00:00+00")) = true.
Proof.
  repeat split.
  - unfold construct, search_market_with. cbn -[datetime_].
    destruct (datetime_ (PStr s)); reflexivity.
  - unfold construct, search_market_with. cbn -[datetime_].
    destruct (datetime_ (PStr s)); reflexivity.
  - unfold construct, search_market_with. cbn -[datetime_ parse_flexible_datetime].
    unfold FlexibleDatetime, Annotated, Optional.
    destruct (parse_flexible_datetime (PStr s)) eqn:E;
      try (unfold parse_flexible_datetime in E; discriminate).
    destruct (datetime_ (PStr s0)); reflexivity.
Qed.

(* ================================================================== *)
(** * URL resolution *)
(* ================================================================== *)

Lemma str_split_nonempty (sep : ascii) (s : string) : str_split sep s <> [].
Proof.
  destruct s as [|c s]; simpl; [discriminate|].
  destruct (Ascii.eqb c sep); [discriminate|].
  destruct (str_split sep s); discriminate.
Qed.

(** The last segment of a text that does not end with the separator is
    not empty. *)
Lemma str_split_last (sep : ascii) : forall s,
  s <> "" -> ends_in (String sep "") s = false ->
  last (str_split sep s) "" <> "".
Proof.
  induction s as [|c s IH]; intros Hne Hend; [congruence|].
  destruct s as [|c' s'].
  - simpl in Hend. unfold char_in in Hend. simpl in Hend.
    rewrite orb_false_r in Hend. simpl. rewrite Hend. discriminate.
  - assert (IH' : last (str_split sep (String c' s')) "" <> "")
      by (apply IH; [discriminate | exact Hend]).
    pose proof (str_split_nonempty sep (String c' s')) as Hnil.
    change (str_split sep (String c (String c' s')))
      with (if Ascii.eqb c sep then "" :: str_split sep (String c' s')
            else match str_split sep (String c' s') with
                 | [] => [String c ""]
                 | seg :: segs => String c seg :: segs
                 end).
    destruct (str_split sep (String c' s')) as [|seg segs]; [congruence|].
    destruct (Ascii.eqb c sep).
    + exact IH'.
    + destruct segs as [|seg' segs]; [discriminate | exact IH'].
Qed.

Lemma slug_nonempty (path : string) :
  (2 <= List.length (str_split "/" (str_strip "/" path)))%nat ->
  last (str_split "/" (str_strip "/" path)) "" <> "".
Proof.
  intros Hlen. apply str_split_last.
  - intros E. rewrite E in Hlen. simpl in Hlen. lia.
  - destruct (str_strip_spec "/" path) as (a & b & _ & _ & _ & _ & He). exact He.
Qed.

Section Lookups.
Context {W : Type} {T : Transport W} {P : Pydantic}.

(** A lookup by slug issues one request, to the route of its resource. *)
Lemma markets_get_by_slug_sent (slug : string) (st st' : client_state W) (r : result pyobj) :
  MarketsClient_get_by_slug slug st = (r, st') ->
  sent st' = (sent st ++ [mk_request "GET" ("/markets/slug/" ++ slug) None])%list.
Proof.
  unfold MarketsClient_get_by_slug, bind. rewrite markets_by_slug_route.
  destruct (GammaClient__request "GET" ("/markets/slug/" ++ slug) None st)
    as [[e|data] st1] eqn:Hreq.
  - intros [= _ <-]. now apply (request_sent _ _ _ _ _ _ Hreq).
  - intros Hrun. assert (st' = st1) as ->.
    { destruct data as [| | | | | |[|x l]| |]; now inversion Hrun. }
    now apply (request_sent _ _ _ _ _ _ Hreq).
Qed.

Lemma events_get_by_slug_sent (slug : string) (st st' : client_state W) (r : result pyobj) :
  EventsClient_get_by_slug slug st = (r, st') ->
  sent st' = (sent st ++ [mk_request "GET" ("/events/slug/" ++ slug) None])%list.
Proof.
  unfold EventsClient_get_by_slug, bind. rewrite events_by_slug_route.
  destruct (GammaClient__request "GET" ("/events/slug/" ++ slug) None st)
    as [[e|data] st1] eqn:Hreq.
  - intros [= _ <-]. now apply (request_sent _ _ _ _ _ _ Hreq).
  - intros [= _ <-]. now apply (request_sent _ _ _ _ _ _ Hreq).
Qed.
End Lookups.

(** C3. Let [path_parts] be the path of the URL, stripped of
    surrounding slashes and split on the slash.  With fewer than two
    segments, or a first segment that is neither [market] nor [event],
    [resolve_url] raises [ValidationError] and no request has been made.
    Otherwise the slug is the last segment: the market lookup by slug
    runs first and its value is returned when it succeeds; when it fails
    the event lookup by slug runs and its value is returned when it
    succeeds; when that fails too the result is [None].  So with a slug
    extracted [resolve_url] does not raise. *)
Theorem resolve_url_outcomes {W : Type} {T : Transport W} {P : Pydantic} {U : Urllib}
    (url path : string) (st : client_state W) :
  urlparse_path url = Ok path ->
  ((List.length (str_split "/" (str_strip "/" path)) < 2)%nat
   \/ is_market_or_event (hd "" (str_split "/" (str_strip "/" path))) = false ->
   GammaClient_resolve_url url st
   = (Raise (ValidationError ("Invalid Polymarket URL: " ++ url)), st))
  /\ ((2 <= List.length (str_split "/" (str_strip "/" path)))%nat ->
      is_market_or_event (hd "" (str_split "/" (str_strip "/" path))) = true ->
      forall slug, slug = last (str_split "/" (str_strip "/" path)) "" ->
      is_ok (fst (GammaClient_resolve_url url st)) = true
      /\ (forall r st1, MarketsClient_get_by_slug slug st = (r, st1) ->
            sent st1 = (sent st ++ [mk_request "GET" ("/markets/slug/" ++ slug) None])%list)
      /\ (forall v st1, MarketsClient_get_by_slug slug st = (Ok v, st1) ->
            GammaClient_resolve_url url st = (Ok v, st1))
      /\ (forall e st1, MarketsClient_get_by_slug slug st = (Raise e, st1) ->
            (forall r st2, EventsClient_get_by_slug slug st1 = (r, st2) ->
               sent st2 = (sent st1 ++ [mk_request "GET" ("/events/slug/" ++ slug) None])%list)
            /\ (forall v st2, EventsClient_get_by_slug slug st1 = (Ok v, st2) ->
                  GammaClient_resolve_url url st = (Ok v, st2))
            /\ (forall e' st2, EventsClient_get_by_slug slug st1 = (Raise e', st2) ->
                  GammaClient_resolve_url url st = (Ok PNone, st2)))).
Proof.
  intros Hurl. unfold GammaClient_resolve_url, _extract_slug_from_url. rewrite Hurl.
  unfold Ok. split.
  - intros Hbad.
    replace ((2 <=? List.length (str_split "/" (str_strip "/" path)))%nat
             && is_market_or_event (hd "" (str_split "/" (str_strip "/" path))))
      with false; [reflexivity|].
    symmetry. apply andb_false_iff.
    destruct Hbad as [Hlen|Hseg]; [left; apply Nat.leb_gt; lia | now right].
  - intros Hlen Hseg slug ->.
    replace ((2 <=? List.length (str_split "/" (str_strip "/" path)))%nat
             && is_market_or_event (hd "" (str_split "/" (str_strip "/" path))))
      with true
      by (symmetry; apply andb_true_iff; split; [apply Nat.leb_le; lia | exact Hseg]).
    pose proof (slug_nonempty path Hlen) as Hne.
    apply String.eqb_neq in Hne. unfold not_slug. rewrite Hne.
    unfold try_except, ret.
    split; [|split; [|split]].
    + destruct (MarketsClient_get_by_slug _ st) as [[e|v] st1]; [|reflexivity].
      destruct (EventsClient_get_by_slug _ st1) as [[e'|v'] st2]; reflexivity.
    + intros r st1. apply markets_get_by_slug_sent.
    + intros v st1 Hm. now rewrite Hm.
    + intros e st1 Hm. rewrite Hm. split; [|split].
      * intros r st2. apply events_get_by_slug_sent.
      * intros v st2 He. now rewrite He.
      * intros e' st2 He. now rewrite He.
Qed.

Lemma resolve_url_outcomes_witness :
  is_ok (fst (GammaClient_resolve_url (T := event_upstream) (P := iso_validators)
                (U := plain_urls) "https://polymarket.com/event/foo-bar?tid=1"
                initial_state)) = true.
Proof.
  refine (proj1 (proj2 (resolve_url_outcomes (T := event_upstream) (P := iso_validators)
                          (U := plain_urls) "https://polymarket.com/event/foo-bar?tid=1"
                          "/event/foo-bar" initial_state _) _ _ "foo-bar" _)).
  - reflexivity.
  - simpl. lia.
  - reflexivity.
  - reflexivity.
Defined.

(* ================================================================== *)
(** * Aggregated public search *)
(* ================================================================== *)

Lemma dict_get_absent (k : string) : forall d : dict,
  ~ In k (map fst d) -> dict_get k d = None.
Proof.
  induction d as [|[k0 v0] d IH]; simpl; intros Hn; [reflexivity|].
  destruct (String.eqb_spec k k0) as [->|]; [tauto|]. apply IH. tauto.
Qed.

(** The loop over [params.items()]: the caller's value wins. *)
Lemma fold_dict_set_get (k : string) : forall (params base : dict),
  NoDup (map fst params) ->
  dict_get k (fold_left (fun acc kv => dict_set (fst kv) (snd kv) acc) params base)
  = match dict_get k params with
    | Some v => Some v
    | None => dict_get k base
    end.
Proof.
  induction params as [|[k0 v0] params IH]; intros base Hnd; simpl.
  - reflexivity.
  - inversion Hnd as [|? ? Hnotin Hnd']; subst.
    rewrite (IH _ Hnd'), dict_get_set.
    destruct (String.eqb_spec k k0) as [->|].
    + now rewrite (dict_get_absent k0 params Hnotin).
    + reflexivity.
Qed.

Lemma initial_api_params_get (params : dict) (k : string) :
  NoDup (map fst params) ->
  dict_get k (initial_api_params params)
  = match dict_get k params with
    | Some v => Some v
    | None => dict_get k default_api_params
    end.
Proof.
  intros Hnd. unfold initial_api_params. rewrite (fold_dict_set_get k _ _ Hnd).
  destruct (dict_get k params) as [v|] eqn:Hk; [reflexivity|].
  unfold dict_get_default. simpl.
  destruct (String.eqb_spec k "page"); [reflexivity|].
  destruct (String.eqb_spec k "limit_per_type") as [->|]; [now rewrite Hk|].
  destruct (String.eqb_spec k "type") as [->|]; [now rewrite Hk|].
  destruct (String.eqb_spec k "sort") as [->|]; [now rewrite Hk|].
  reflexivity.
Qed.

Section Instances.
Variable m : model.

Lemma Model_instance (v v' : pyobj) :
  Model_ m v = Some v' -> is_instance (cls_name m) v' = true.
Proof.
  destruct v; simpl; try discriminate.
  - destruct (construct m d) as [e|o] eqn:E; [discriminate|].
    intros [= <-]. destruct (construct_instance m d o E) as (vals & -> & _).
    simpl. apply String.eqb_refl.
  - destruct (String.eqb cls (cls_name m)) eqn:E; [|discriminate].
    intros [= <-]. exact E.
Qed.

Lemma validate_all_instances : forall l l',
  validate_all (Model_ m) l = Some l' ->
  forallb (is_instance (cls_name m)) l' = true.
Proof.
  induction l as [|x l IH]; simpl; intros l'.
  - now intros [= <-].
  - destruct (Model_ m x) as [x'|] eqn:Hx; [|discriminate].
    destruct (validate_all (Model_ m) l) as [r|]; [|discriminate].
    intros [= <-]. simpl. now rewrite (Model_instance x x' Hx), (IH r).
Qed.

(** Instances of the class pass validation unchanged. *)
Lemma validate_all_keep : forall l,
  forallb (is_instance (cls_name m)) l = true ->
  validate_all (Model_ m) l = Some l.
Proof.
  induction l as [|x l IH]; simpl; [reflexivity|].
  intros H. apply andb_true_iff in H as [Hx Hl]. rewrite (IH Hl).
  destruct x; simpl in Hx; try discriminate. simpl. now rewrite Hx.
Qed.
End Instances.

Lemma forallb_app_true {A} (f : A -> bool) (l1 l2 : list A) :
  forallb f l1 = true -> forallb f l2 = true -> forallb f (l1 ++ l2) = true.
Proof. intros H1 H2. rewrite forallb_app. now rewrite H1, H2. Qed.

Lemma List_Model_shape (m : model) (v v' : pyobj) :
  List_ (Model_ m) v = Some v' ->
  exists l, v' = PList l /\ forallb (is_instance (cls_name m)) l = true.
Proof.
  destruct v; simpl; try discriminate.
  destruct (validate_all (Model_ m) l) as [l'|] eqn:El; simpl; [|discriminate].
  intros [= <-]. exists l'. split; [reflexivity|].
  now apply (validate_all_instances m l).
Qed.

Lemma Optional_Dict_shape (v v' : pyobj) :
  Optional Dict_str_Any v = Some v' -> v' = PNone \/ exists pd, v' = PDict pd.
Proof.
  destruct v; simpl; try discriminate; intros [= <-]; [now left | right; now eexists].
Qed.

Section Search.
Context {W : Type} {T : Transport W} {P : Pydantic}.

(** The shape of a validated search response. *)
Lemma PublicSearchResponse_shape (d : dict) (o : pyobj) :
  construct PublicSearchResponse d = Ok o ->
  exists evs pg,
    o = PModel "PublicSearchResponse" [("events", PList evs); ("pagination", pg)]
    /\ forallb (is_instance "PublicSearchEvent") evs = true
    /\ (pg = PNone \/ exists pd, pg = PDict pd).
Proof.
  unfold construct. cbn -[Model_ PublicSearchEvent validate_field].
  unfold validate_field.
  cbn -[Model_ PublicSearchEvent field_input Optional List_ Dict_str_Any].
  destruct (field_input _ (assign "pagination" _ _) d) as [pv|];
    [destruct (Optional Dict_str_Any pv) as [pv'|] eqn:Ep|];
    (destruct (field_input _ (assign "events" _ _) d) as [ev|];
     [destruct (List_ (Model_ PublicSearchEvent) ev) as [ev'|] eqn:Ee|]);
    cbn; try discriminate; intros [= <-];
    try (destruct (List_Model_shape _ _ _ Ee) as (l & -> & Hl));
    eexists; eexists; (split; [reflexivity|]);
    (split; [first [exact Hl | reflexivity]
            | first [exact (Optional_Dict_shape _ _ Ep) | now left]]).
Qed.

Lemma public_search_ok (query : string) (ps : dict) (st st' : client_state W) (data : pyobj) :
  GammaClient_public_search query ps st = (Ok data, st') ->
  (exists evs pg,
      data = PModel "PublicSearchResponse" [("events", PList evs); ("pagination", pg)]
      /\ forallb (is_instance "PublicSearchEvent") evs = true
      /\ (pg = PNone \/ exists pd, pg = PDict pd))
  /\ sent st' = (sent st ++ [search_request query ps])%list.
Proof.
  unfold GammaClient_public_search, bind.
  destruct (GammaClient__request "GET" PUBLIC_SEARCH (Some (dict_set "q" (PStr query) ps)) st)
    as [[e|body] st1] eqn:Hreq; [discriminate|].
  unfold lift. intros [= Hc <-]. split.
  - destruct body as [| | | | | | |d|]; try discriminate.
    now apply (PublicSearchResponse_shape d).
  - now apply (request_sent _ _ _ _ _ _ Hreq).
Qed.

(** The aggregated response is built from instances, which are kept. *)
Lemma PublicSearchResponse_of_events (evs : list pyobj) :
  forallb (is_instance "PublicSearchEvent") evs = true ->
  construct PublicSearchResponse [("events", PList evs)]
  = Ok (PModel "PublicSearchResponse" [("events", PList evs); ("pagination", PNone)]).
Proof.
  intros Hevs. unfold construct. cbn -[Model_ PublicSearchEvent validate_field].
  unfold validate_field. cbn -[Model_ PublicSearchEvent List_].
  unfold List_. now rewrite (validate_all_keep PublicSearchEvent evs Hevs).
Qed.

(** The loop of the aggregation performs the fetches of [fetched]. *)
Lemma fetch_pages_fetched (query : string) (api_params : dict)
    (pages : list Z) (st st2 : client_state W) (datas : list pyobj) :
  fetched query api_params pages st datas st2 ->
  forall api' events,
    (forall v, dict_set "page" v api' = dict_set "page" v api_params) ->
    forallb (is_instance "PublicSearchEvent") events = true ->
    fetch_pages query pages api' events st
    = (Ok (events ++ List.concat (map events_of datas))%list, st2)
    /\ forallb (is_instance "PublicSearchEvent")
         (events ++ List.concat (map events_of datas))%list = true
    /\ sent st2
       = (sent st
          ++ map (fun page => search_request query (dict_set "page" (PInt page) api_params))
                 pages)%list.
Proof.
  induction 1 as [st|page pages st data st1 datas st2 Hfetch Hrest IH];
    intros api' events Hapi Hevs.
  - simpl. rewrite !app_nil_r. repeat split; trivial.
  - destruct (public_search_ok _ _ _ _ _ Hfetch)
      as ((evs & pg & -> & Hinst & _) & Hsent).
    destruct (IH (dict_set "page" (PInt page) api') (events ++ evs)%list) as (Hrun & Hall & Hlog).
    + intros v. now rewrite dict_set_set, Hapi.
    + now apply forallb_app_true.
    + simpl fetch_pages. unfold bind at 1. rewrite Hapi, Hfetch.
      unfold bind at 1. unfold lift at 1.
      change (extend_events events
                (PModel "PublicSearchResponse" [("events", PList evs); ("pagination", pg)]))
        with (Ok (events ++ evs)%list).
      cbv beta iota. unfold Ok at 1. rewrite Hapi in Hrun.
      change (map events_of
                (PModel "PublicSearchResponse" [("events", PList evs); ("pagination", pg)]
                 :: datas))
        with (evs :: map events_of datas).
      simpl List.concat. rewrite app_assoc. repeat split.
      * rewrite <- Hapi. rewrite Hapi. exact Hrun.
      * exact Hall.
      * rewrite Hlog, Hsent. simpl. now rewrite <- app_assoc.
Qed.
End Search.

(** C1, as the code has it.  Let the first page, fetched with the
    defaults [limit_per_type] 20, [type] events, [sort] volume_24hr
    overridden by the caller's parameters, be [data].  Without
    pagination, [public_search_all] returns [data] itself.  With a
    pagination whose [totalResults] is an integer, and a
    [limit_per_type] that is an integer other than zero, [page_count] is
    the floor quotient of the two plus one: when [hasMore] is false
    [data] itself is returned; otherwise the pages of
    [range(2, page_count)] are fetched in order, and the response
    returned holds the events of all fetched pages in fetch order and no
    pagination. *)
Theorem public_search_all_pages {W : Type} {T : Transport W} {P : Pydantic}
    (query : string) (params : dict) (st0 st1 : client_state W) (data : pyobj) :
  NoDup (map fst params) ->
  GammaClient_public_search query (initial_api_params params) st0 = (Ok data, st1) ->
  (forall k, dict_get k (initial_api_params params)
             = match dict_get k params with
               | Some v => Some v
               | None => dict_get k default_api_params
               end)
  /\ sent st1 = (sent st0 ++ [search_request query (initial_api_params params)])%list
  /\ (getattr data "pagination" = Ok PNone ->
      GammaClient_public_search_all query params st0 = (Ok data, st1))
  /\ (forall pagination total limit has_more,
        getattr data "pagination" = Ok (PDict pagination) ->
        dict_get "totalResults" pagination = Some (PInt total) ->
        dict_get "limit_per_type" (initial_api_params params) = Some (PInt limit) ->
        limit <> 0 ->
        dict_get "hasMore" pagination = Some has_more ->
        (truthy has_more = false ->
         GammaClient_public_search_all query params st0 = (Ok data, st1))
        /\ (truthy has_more = true ->
            forall pages st2,
              fetched query (initial_api_params params)
                      (range 2 (total / limit + 1)) st1 pages st2 ->
              GammaClient_public_search_all query params st0
              = (Ok (PModel "PublicSearchResponse"
                       [ ("events",
                          PList (events_of data ++ List.concat (map events_of pages))%list);
                         ("pagination", PNone) ]), st2)
              /\ sent st2
                 = (sent st0
                    ++ search_request query (initial_api_params params)
                    :: map (fun page =>
                              search_request query
                                (dict_set "page" (PInt page) (initial_api_params params)))
                           (range 2 (total / limit + 1)))%list)).
Proof.
  intros Hnd Hfirst.
  destruct (public_search_ok _ _ _ _ _ Hfirst) as ((evs & pg & -> & Hinst & _) & Hsent).
  split; [intros k; now apply initial_api_params_get|].
  split; [exact Hsent|].
  split.
  - intros Hpg. cbn in Hpg. injection Hpg as ->.
    unfold GammaClient_public_search_all, bind. rewrite Hfirst. reflexivity.
  - intros pagination total limit has_more Hpg Htotal Hlimit Hnz Hmore.
    cbn in Hpg. injection Hpg as ->.
    assert (Hhead : forall k : option pyobj -> M W pyobj,
              bind (total <- lift (getitem (PDict pagination) "totalResults") ;;
                    limit <- lift (getitem (PDict (initial_api_params params))
                                     "limit_per_type") ;;
                    quotient <- lift (py_floordiv total limit) ;;
                    count <- lift (py_add quotient (PInt 1)) ;;
                    ret (Some count)) k st1
              = k (Some (PInt (total / limit + 1))) st1).
    { intros k. unfold bind, lift, getitem. rewrite Htotal, Hlimit.
      unfold Ok, py_floordiv. cbn [as_number].
      apply Z.eqb_neq in Hnz. rewrite Hnz. reflexivity. }
    split.
    + intros Hfalse.
      unfold GammaClient_public_search_all. unfold bind at 1. rewrite Hfirst.
      unfold bind at 1. cbn [lift getattr dict_get String.eqb Ascii.eqb Bool.eqb Ok].
      rewrite Hhead.
      unfold bind, lift, getitem. rewrite Hmore. unfold Ok. rewrite Hfalse. reflexivity.
    + intros Htrue pages st2 Hfetched.
      destruct (fetch_pages_fetched _ _ _ _ _ _ Hfetched (initial_api_params params) evs
                  (fun v => eq_refl) Hinst) as (Hrun & Hall & Hlog).
      split.
      * unfold GammaClient_public_search_all. unfold bind at 1. rewrite Hfirst.
        unfold bind at 1. cbn [lift getattr dict_get String.eqb Ascii.eqb Bool.eqb Ok].
        rewrite Hhead.
        unfold bind at 1. unfold bind at 1. unfold lift at 1. unfold getitem.
        rewrite Hmore. unfold Ok at 1. unfold ret at 1. rewrite Htrue.
        cbn [negb]. unfold bind at 1. unfold lift at 1.
        change (extend_events []
                  (PModel "PublicSearchResponse"
                     [("events", PList evs); ("pagination", PDict pagination)]))
          with (Ok evs).
        unfold Ok at 1. unfold bind at 1. unfold lift at 1. unfold py_range.
        unfold Ok at 1. cbv beta iota.
        change (events_of
                  (PModel "PublicSearchResponse"
                     [("events", PList evs); ("pagination", PDict pagination)]))
          with evs.
        unfold Ok in *. cbv beta iota. unfold bind at 1. rewrite Hrun. unfold lift.
        now rewrite (PublicSearchResponse_of_events _ Hall).
      * rewrite Hlog, Hsent. now rewrite <- app_assoc.
Qed.

Lemma public_search_all_pages_witness :
  GammaClient_public_search_all (T := paged_upstream) (P := iso_validators)
    "q" [] initial_state
  = (Ok (PModel "PublicSearchResponse"
           [ ("events",
              PList (events_of first_page ++ List.concat (map events_of [second_page]))%list);
             ("pagination", PNone) ]), after_second_page).
Proof.
  refine (proj1 (proj2 (proj2 (proj2 (proj2
            (public_search_all_pages (T := paged_upstream) (P := iso_validators)
               "q" [] initial_state after_first_page first_page _ _)))
            [("hasMore", PBool true); ("totalResults", PInt 45)] 45 20 (PBool true)
            _ _ _ _ _) eq_refl [second_page] after_second_page _)).
  - constructor.
  - vm_compute. reflexivity.
  - reflexivity.
  - reflexivity.
  - reflexivity.
  - discriminate.
  - reflexivity.
  - apply fetched_cons with (st1 := after_second_page).
    + vm_compute. reflexivity.
    + constructor.
Defined.

(** C1 as stated fails: the page count is computed before [hasMore] is
    read.  With a page size of zero, and with a pagination that has no
    [totalResults], the first page says that nothing more follows and
    the call raises instead of returning it. *)
Lemma public_search_all_returns_first_page_counterexample :
  GammaClient_public_search (T := last_page_upstream) (P := iso_validators)
    "q" (initial_api_params zero_limit_params) initial_state
  = (Ok last_page,
     mk_state tt [search_request "q" (initial_api_params zero_limit_params)])
  /\ getattr last_page "pagination"
     = Ok (PDict [("hasMore", PBool false); ("totalResults", PInt 5)])
  /\ GammaClient_public_search_all (T := last_page_upstream) (P := iso_validators)
       "q" zero_limit_params initial_state
     = (Raise (PyError "ZeroDivisionError" "integer division or modulo by zero"),
        mk_state tt [search_request "q" (initial_api_params zero_limit_params)])
  /\ GammaClient_public_search (T := untotalled_upstream) (P := iso_validators)
       "q" (initial_api_params []) initial_state
     = (Ok untotalled_page, mk_state tt [search_request "q" (initial_api_params [])])
  /\ getattr untotalled_page "pagination" = Ok (PDict [("hasMore", PBool false)])
  /\ GammaClient_public_search_all (T := untotalled_upstream) (P := iso_validators)
       "q" [] initial_state
     = (Raise (PyError "KeyError" "totalResults"),
        mk_state tt [search_request "q" (initial_api_params [])]).
Proof. repeat split; vm_compute; reflexivity. Qed.

(* ================================================================== *)
(** * Runs of the model on the inputs of the test suite *)
(* ================================================================== *)

Example normalizer_truncated_negative_offset :
  parse_flexible_datetime (PStr "2026-01-30T19:37:52-00") = PStr "2026-01-30T19:37:52-00:00".
Proof. reflexivity. Qed.

Example normalizer_identity_on_none_and_datetime (d : datetime) :
  parse_flexible_datetime PNone = PNone
  /\ parse_flexible_datetime (PDatetime d) = PDatetime d.
Proof. split; reflexivity. Qed.

(** The month-name texts get no repair of their own: the space rule
    turns the space into a ["T"] and the text stays a text. *)
Example normalizer_month_name :
  parse_flexible_datetime (PStr "April 1, 2023") = PStr "AprilT1, 2023"
  /\ parse_flexible_datetime (PStr "AprilT1, 2023") = PStr "AprilT1, 2023".
Proof. split; reflexivity. Qed.

Example market_model_validation :
  is_ok (construct (Market (P := iso_validators)) minimal_market) = true.
Proof. reflexivity. Qed.

Example search_market_standard_uma_end_date :
  is_ok (construct (PublicSearchMarket (P := iso_validators))
           (search_market_with "umaEndDate" "2023-04-01T00:00:00")) = true.
Proof. reflexivity. Qed.

Example public_search_empty_response :
  fst (GammaClient_public_search
         (T := table_transport (fun _ => Ok (json_response (PDict [("events", PList [])]))))
         (P := iso_validators) "nonexistent" [] initial_state)
  = Ok (PModel "PublicSearchResponse" [("events", PList []); ("pagination", PNone)]).
Proof. reflexivity. Qed.

Example extract_slug_from_market_url :
  _extract_slug_from_url (U := plain_urls) "https://polymarket.com/market/foo-bar"
  = Some "foo-bar"
  /\ _extract_slug_from_url (U := plain_urls) "https://polymarket.com/foo-bar" = None
  /\ _extract_slug_from_url (U := plain_urls) "https://polymarket.com/profile/foo-bar" = None.
Proof. repeat split; reflexivity. Qed.

(* ================================================================== *)
(** * Further properties: the normalizer *)
(* ================================================================== *)

Lemma str_length_app (a b : string) :
  String.length (a ++ b) = (String.length a + String.length b)%nat.
Proof. induction a as [|x a IH]; simpl; [reflexivity | now rewrite IH]. Qed.

Lemma str_in_char_split (c : ascii) : forall s,
  str_in (String c "") s = true ->
  exists a b, s = a ++ String c b /\ str_in (String c "") a = false.
Proof.
  induction s as [|x s IH]; intros Hin; [discriminate|].
  rewrite str_in_char_cons in Hin.
  destruct (Ascii.eqb_spec c x) as [->|Hne].
  - exists "", s. split; reflexivity.
  - simpl in Hin. destruct (IH Hin) as (a & b & -> & Ha).
    exists (String x a), b. split; [reflexivity|].
    rewrite str_in_char_cons, Ha.
    destruct (Ascii.eqb_spec c x); [congruence | reflexivity].
Qed.

Lemma str_endswith_true : forall s suf,
  str_endswith s suf = true -> exists a, s = a ++ suf.
Proof.
  induction s as [|c s IH]; intros suf H.
  - destruct suf; [now exists "" | discriminate].
  - change (String.eqb (String c s) suf || str_endswith s suf = true) in H.
    apply orb_true_iff in H as [H|H].
    + apply String.eqb_eq in H. subst suf. now exists "".
    + destruct (IH suf H) as (a & ->). now exists (String c a).
Qed.

(** Texts that end with equally long suffixes: the parts agree. *)
Lemma str_app_inv : forall a b x y,
  a ++ x = b ++ y -> String.length x = String.length y -> a = b /\ x = y.
Proof.
  induction a as [|c a IH]; intros [|d b] x y E L.
  - now split.
  - simpl in E. subst x. simpl in L. rewrite str_length_app in L. lia.
  - simpl in E. subst y. simpl in L. rewrite str_length_app in L. lia.
  - simpl in E. injection E as -> E. destruct (IH b x y E L) as [-> ->]. now split.
Qed.

Lemma str_endswith_offset_completed (s suf : string) :
  String.length suf = 3%nat -> suf <> ":00" ->
  str_endswith (s ++ ":00") suf = false.
Proof.
  intros Hlen Hne. destruct (str_endswith (s ++ ":00") suf) eqn:E; [|reflexivity].
  destruct (str_endswith_true _ _ E) as (a & Ha).
  destruct (str_app_inv s a ":00" suf Ha) as [_ Hs]; [now rewrite Hlen|].
  congruence.
Qed.

Lemma needs_T_offset_completed (s : string) : needs_T (s ++ ":00") = needs_T s.
Proof.
  unfold needs_T. rewrite !str_in_char_app.
  change (str_in " " ":00") with false. change (str_in "T" ":00") with false.
  now rewrite !orb_false_r.
Qed.

Lemma needs_T_after_replace (s : string) :
  needs_T s = true -> needs_T (str_replace_first " " "T" s) = false.
Proof.
  unfold needs_T. intros H. apply andb_true_iff in H as [Hsp _].
  destruct (str_in_char_split " " s Hsp) as (a & b & -> & Ha).
  rewrite (str_replace_first_char " " "T" a b Ha).
  rewrite (str_in_char_app "T" a ("T" ++ b)).
  change ("T" ++ b) with (String "T" b).
  rewrite (str_in_char_cons "T" "T" b). simpl.
  rewrite orb_true_r. apply andb_false_r.
Qed.

(** X1. The normalizer is idempotent on every input, and it returns
    every input that is not a text as it is. *)
Theorem parse_flexible_datetime_idempotent (value : pyobj) :
  parse_flexible_datetime (parse_flexible_datetime value) = parse_flexible_datetime value
  /\ match value with
     | PStr _ => True
     | _ => parse_flexible_datetime value = value
     end.
Proof.
  split; [|destruct value; reflexivity].
  destruct value; try reflexivity.
  unfold parse_flexible_datetime. fold (needs_T s).
  set (s1 := if needs_T s then str_replace_first " " "T" s else s).
  assert (H1 : needs_T s1 = false).
  { unfold s1. destruct (needs_T s) eqn:E; [now apply needs_T_after_replace | exact E]. }
  set (s2 := if str_endswith s1 "+00" || str_endswith s1 "-00" then s1 ++ ":00" else s1).
  fold (needs_T s2).
  assert (H2 : needs_T s2 = false).
  { unfold s2. destruct (str_endswith s1 "+00" || str_endswith s1 "-00");
      [now rewrite needs_T_offset_completed | exact H1]. }
  rewrite H2.
  assert (H3 : str_endswith s2 "+00" || str_endswith s2 "-00" = false).
  { unfold s2. destruct (str_endswith s1 "+00" || str_endswith s1 "-00") eqn:E.
    - rewrite !str_endswith_offset_completed; trivial; discriminate.
    - exact E. }
  now rewrite H3.
Qed.

(* ================================================================== *)
(** * Further properties: routes and requests *)
(* ================================================================== *)

Lemma str_app_inv_l : forall p a b : string, p ++ a = p ++ b -> a = b.
Proof.
  induction p as [|c p IH]; simpl; intros a b E; [exact E|].
  injection E as E. now apply IH.
Qed.

Lemma render_injective (before after : string) (v v' : string) :
  before ++ v ++ after = before ++ v' ++ after -> v = v'.
Proof.
  intros E. apply str_app_inv_l in E.
  now destruct (str_app_inv v v' after after E eq_refl).
Qed.

(** X2. Every templated route renders to its fixed text with the
    identifier inserted as it is, whatever characters it holds, and two
    identifiers that differ never render to the same endpoint. *)
Theorem routes_render_verbatim :
  Forall renders_verbatim templated_routes
  /\ Forall renders_injectively templated_routes.
Proof.
  assert (Hv : Forall renders_verbatim templated_routes).
  { unfold templated_routes.
    repeat (apply Forall_cons;
            [intros value; unfold str_format; simpl; rewrite ?str_app_nil_r; reflexivity|]).
    apply Forall_nil. }
  split; [exact Hv|].
  eapply Forall_impl; [|exact Hv].
  intros [[[template name] before] after] Hr v v'. simpl in Hr.
  rewrite !Hr. apply render_injective.
Qed.

Section Sends.
Context {W : Type} {T : Transport W}.

Lemma sends_request (method endpoint : string) (params : option dict) :
  sends (GammaClient__request method endpoint params) (mk_request method endpoint params).
Proof. intros st r st'. apply request_sent. Qed.

Lemma sends_bind_lift {A B} (op : M W A) (f : A -> result B) (rq : request) :
  sends op rq -> sends (bind op (fun a => lift (f a))) rq.
Proof.
  intros Hop st r st'. unfold bind, lift.
  destruct (op st) as [[e|a] st1] eqn:E; intros [= _ <-]; now apply (Hop st _ _ E).
Qed.
End Sends.

(** X3. Every operation of the sub-clients, and the status, search and
    public-search operations of the facade, issue exactly one GET
    request, to their route rendered with the identifier given and with
    the caller's parameters when they take any, whatever the outcome:
    nothing is retried, and a failure of decoding or validation sends
    nothing more. *)
Theorem operations_send_one_request {W : Type} {T : Transport W} {P : Pydantic}
    (id : string) (params : dict) :
  sends (W := W) (SportsClient_list_teams params) (mk_request "GET" SPORTS_TEAMS (Some params))
  /\ sends (W := W) SportsClient_get_metadata (mk_request "GET" SPORTS None)
  /\ sends (W := W) SportsClient_get_market_types (mk_request "GET" SPORTS_MARKET_TYPES None)
  /\ sends (W := W) (TagsClient_list params) (mk_request "GET" TAGS (Some params))
  /\ sends (W := W) (TagsClient_get_by_id id)
       (mk_request "GET" (str_format TAGS_BY_ID "tag_id" id) None)
  /\ sends (W := W) (TagsClient_get_by_slug id)
       (mk_request "GET" (str_format TAGS_BY_SLUG "slug" id) None)
  /\ sends (W := W) (TagsClient_get_related_by_id id)
       (mk_request "GET" (str_format TAGS_RELATED_BY_ID "tag_id" id) None)
  /\ sends (W := W) (TagsClient_get_related_by_slug id)
       (mk_request "GET" (str_format TAGS_RELATED_BY_SLUG "slug" id) None)
  /\ sends (W := W) (TagsClient_get_tags_related_to_id id)
       (mk_request "GET" (str_format TAGS_RELATED_TO_ID "tag_id" id) None)
  /\ sends (W := W) (TagsClient_get_tags_related_to_slug id)
       (mk_request "GET" (str_format TAGS_RELATED_TO_SLUG "slug" id) None)
  /\ sends (W := W) (EventsClient_list params) (mk_request "GET" EVENTS (Some params))
  /\ sends (W := W) (EventsClient_get_by_id id)
       (mk_request "GET" (str_format EVENTS_BY_ID "event_id" id) None)
  /\ sends (W := W) (EventsClient_get_tags id)
       (mk_request "GET" (str_format EVENTS_TAGS "event_id" id) None)
  /\ sends (W := W) (EventsClient_get_by_slug id)
       (mk_request "GET" (str_format EVENTS_BY_SLUG "slug" id) None)
  /\ sends (W := W) (MarketsClient_list params) (mk_request "GET" MARKETS (Some params))
  /\ sends (W := W) (MarketsClient_get_by_id id)
       (mk_request "GET" (str_format MARKETS_BY_ID "market_id" id) None)
  /\ sends (W := W) (MarketsClient_get_tags id)
       (mk_request "GET" (str_format MARKETS_TAGS "market_id" id) None)
  /\ sends (W := W) (MarketsClient_get_by_slug id)
       (mk_request "GET" (str_format MARKETS_BY_SLUG "slug" id) None)
  /\ sends (W := W) (SeriesClient_list params) (mk_request "GET" SERIES (Some params))
  /\ sends (W := W) (SeriesClient_get_by_id id)
       (mk_request "GET" (str_format SERIES_BY_ID "series_id" id) None)
  /\ sends (W := W) (CommentsClient_list params) (mk_request "GET" COMMENTS (Some params))
  /\ sends (W := W) (CommentsClient_get_by_id id)
       (mk_request "GET" (str_format COMMENTS_BY_ID "comment_id" id) None)
  /\ sends (W := W) (CommentsClient_get_by_user id)
       (mk_request "GET" (str_format COMMENTS_BY_USER "address" id) None)
  /\ sends (W := W) (ProfilesClient_get_by_address id)
       (mk_request "GET" (str_format PROFILES_BY_ADDRESS "address" id) None)
  /\ sends (W := W) GammaClient_get_status (mk_request "GET" STATUS None)
  /\ sends (W := W) (GammaClient_search id params)
       (mk_request "GET" SEARCH (Some (dict_set "q" (PStr id) params)))
  /\ sends (W := W) (GammaClient_public_search id params)
       (mk_request "GET" PUBLIC_SEARCH (Some (dict_set "q" (PStr id) params))).
Proof.
  repeat split;
    first [ apply sends_request
          | apply (sends_bind_lift (W := W)); apply sends_request
          | idtac ].
  intros st r st' Hrun. rewrite markets_by_slug_route.
  now apply (markets_get_by_slug_sent _ _ _ _ Hrun).
Qed.

(* ================================================================== *)
(** * Further properties: decoding bodies into models *)
(* ================================================================== *)

Section Comprehension.
Variable m : model.

Lemma call_model_instance (item o : pyobj) :
  call_model m item = Ok o -> is_instance (cls_name m) o = true.
Proof.
  destruct item; try discriminate. simpl. intros Hc.
  destruct (construct_instance m d o Hc) as (vals & -> & _).
  simpl. apply String.eqb_refl.
Qed.

Lemma call_model_error (item : pyobj) (e : exn) :
  call_model m item = Raise e -> is_GammaError e = false.
Proof.
  destruct item; simpl; try (intros [= <-]; reflexivity).
  unfold construct. destruct (validate_fields _ _ d) as [[|x errs] vals];
    [discriminate | intros [= <-]; reflexivity].
Qed.

Lemma construct_each_ok (items outs : list pyobj) :
  constructed m items outs -> construct_each m items = Ok outs.
Proof.
  induction 1 as [|item o items outs Hc _ IH]; simpl; [reflexivity|].
  now rewrite Hc, IH.
Qed.

Lemma construct_each_inv : forall items outs,
  construct_each m items = Ok outs -> constructed m items outs.
Proof.
  induction items as [|item items IH]; simpl; intros outs.
  - intros [= <-]. constructor.
  - destruct (call_model m item) as [e|o] eqn:Hc; [discriminate|].
    destruct (construct_each m items) as [e|os]; [discriminate|].
    intros [= <-]. constructor; [exact Hc | now apply IH].
Qed.

Lemma construct_each_first_failure (pre outs : list pyobj) (bad : pyobj)
    (rest : list pyobj) (e : exn) :
  constructed m pre outs -> call_model m bad = Raise e ->
  construct_each m (pre ++ bad :: rest) = Raise e.
Proof.
  induction 1 as [|item o items outs Hc _ IH]; simpl; intros Hbad.
  - now rewrite Hbad.
  - now rewrite Hc, (IH Hbad).
Qed.

Lemma construct_each_error : forall items e,
  construct_each m items = Raise e -> is_GammaError e = false.
Proof.
  induction items as [|item items IH]; simpl; intros e; [discriminate|].
  destruct (call_model m item) as [e'|o] eqn:Hc.
  - intros [= <-]. now apply (call_model_error item).
  - destruct (construct_each m items) as [e'|os]; [|discriminate].
    intros [= <-]. now apply IH.
Qed.

Lemma comprehension_error (data : pyobj) (e : exn) :
  comprehension m data = Raise e -> is_GammaError e = false.
Proof.
  unfold comprehension.
  destruct (py_iter data) as [e'|items] eqn:Hi.
  - intros [= <-]. destruct data; try discriminate; now injection Hi as <-.
  - destruct (construct_each m items) as [e'|os] eqn:Hc; [|discriminate].
    intros [= <-]. now apply (construct_each_error items).
Qed.

Lemma constructed_instances (items outs : list pyobj) :
  constructed m items outs ->
  List.length outs = List.length items
  /\ forallb (is_instance (cls_name m)) outs = true.
Proof.
  induction 1 as [|item o items outs Hc _ [IHl IHi]]; simpl; [now split|].
  rewrite IHl, IHi, (call_model_instance item o Hc). now split.
Qed.
End Comprehension.

(** X4. A list operation is all or nothing.  On a body that is an
    array, the comprehension gives the instances of the items, one for
    one and in their order, instances of the class all of them; an empty
    array gives an empty list; and when an item fails, the error of the
    first failing item is raised and no instance is returned.  So is
    [MarketsClient.list] when its request succeeds with an array. *)
Theorem comprehension_all_or_nothing {W : Type} {T : Transport W} {P : Pydantic}
    (m : model) (items : list pyobj) :
  comprehension m (PList []) = Ok (PList [])
  /\ (forall outs, constructed m items outs ->
        comprehension m (PList items) = Ok (PList outs))
  /\ (forall v, comprehension m (PList items) = Ok v ->
        exists outs, v = PList outs /\ constructed m items outs
                     /\ List.length outs = List.length items
                     /\ forallb (is_instance (cls_name m)) outs = true)
  /\ (forall pre outs bad rest e,
        items = (pre ++ bad :: rest)%list ->
        constructed m pre outs -> call_model m bad = Raise e ->
        comprehension m (PList items) = Raise e)
  /\ (forall params (st st' : client_state W),
        GammaClient__request "GET" MARKETS (Some params) st = (Ok (PList items), st') ->
        MarketsClient_list params st = (comprehension Market (PList items), st')).
Proof.
  split; [reflexivity|]. split; [|split; [|split]].
  - intros outs Hc. unfold comprehension. simpl. now rewrite (construct_each_ok m _ _ Hc).
  - intros v. unfold comprehension. simpl.
    destruct (construct_each m items) as [e|outs] eqn:Hc; [discriminate|].
    intros [= <-]. pose proof (construct_each_inv m _ _ Hc) as Hcons.
    exists outs. split; [reflexivity|]. split; [exact Hcons|].
    now apply constructed_instances.
  - intros pre outs bad rest e -> Hc Hbad. unfold comprehension. simpl.
    now rewrite (construct_each_first_failure m pre outs bad rest e Hc Hbad).
  - intros params st st' Hreq. unfold MarketsClient_list, bind. now rewrite Hreq.
Qed.

Lemma comprehension_all_or_nothing_witness :
  comprehension (Tag (P := iso_validators))
    (PList [tag_mapping "1"; PInt 7; tag_mapping "2"])
  = Raise (PyError "TypeError" "argument after ** must be a mapping").
Proof.
  refine (proj1 (proj2 (proj2 (proj2
            (comprehension_all_or_nothing (T := json_upstream PNone) (P := iso_validators)
               (Tag (P := iso_validators))
               [tag_mapping "1"; PInt 7; tag_mapping "2"]))))
            [tag_mapping "1"] _ (PInt 7) [tag_mapping "2"] _ eq_refl _ eq_refl).
  repeat constructor.
Defined.

(** X5. A body that is not an array, on a list operation: an empty
    object and an empty text give an empty list without any error; an
    object with a key, a text with a character, a number, a boolean and
    [None] raise [TypeError]. *)
Theorem comprehension_of_non_array (m : model) :
  comprehension m (PDict []) = Ok (PList [])
  /\ comprehension m (PStr "") = Ok (PList [])
  /\ (forall k v d, exists msg,
        comprehension m (PDict ((k, v) :: d)) = Raise (PyError "TypeError" msg))
  /\ (forall c s, exists msg,
        comprehension m (PStr (String c s)) = Raise (PyError "TypeError" msg))
  /\ (forall data,
        match data with
        | PNone | PBool _ | PInt _ | PFloat _ | PDatetime _ | PModel _ _ =>
            exists msg, comprehension m data = Raise (PyError "TypeError" msg)
        | _ => True
        end).
Proof.
  repeat split; try (intros; eexists; reflexivity).
  intros data. destruct data; trivial; eexists; reflexivity.
Qed.

Section Escapes.
Context {W : Type} {T : Transport W}.

(** An operation that decodes the body of one request: a library error
    it raises is the error of the request. *)
Lemma decoded_request_errors (method endpoint : string) (params : option dict)
    (f : pyobj -> result pyobj) (st st' : client_state W) (e : exn) :
  (forall data e', f data = Raise e' -> is_GammaError e' = false) ->
  bind (GammaClient__request method endpoint params) (fun data => lift (f data)) st
  = (Raise e, st') ->
  (is_GammaError e = true /\ GammaClient__request method endpoint params st = (Raise e, st'))
  \/ (is_GammaError e = false
      /\ exists data, GammaClient__request method endpoint params st = (Ok data, st')
                      /\ f data = Raise e).
Proof.
  intros Hf. unfold bind, lift.
  destruct (GammaClient__request method endpoint params st) as [[e'|data] st1] eqn:Hreq.
  - intros [= <- <-]. left. split; [|reflexivity].
    now apply (request_raises_GammaError _ _ _ _ _ _ Hreq).
  - intros [= Hd <-]. right. split; [now apply (Hf data)|]. now exists data.
Qed.
End Escapes.

(** X6. Model construction runs outside the handlers of [_request]:
    when [public_search], [MarketsClient.list] or
    [EventsClient.get_by_id] raise, the error is either a [GammaError]
    raised by the request itself, or the request succeeded and the error
    is the one of constructing the models from its body, which is never
    a [GammaError]. *)
Theorem validation_errors_are_not_GammaErrors {W : Type} {T : Transport W} {P : Pydantic}
    (arg : string) (params : dict) (st st' : client_state W) (e : exn) :
  (GammaClient_public_search arg params st = (Raise e, st') ->
     (is_GammaError e = true
      /\ GammaClient__request "GET" PUBLIC_SEARCH (Some (dict_set "q" (PStr arg) params)) st
         = (Raise e, st'))
     \/ (is_GammaError e = false
         /\ exists data,
              GammaClient__request "GET" PUBLIC_SEARCH
                (Some (dict_set "q" (PStr arg) params)) st = (Ok data, st')
              /\ call_model PublicSearchResponse data = Raise e))
  /\ (MarketsClient_list params st = (Raise e, st') ->
     (is_GammaError e = true
      /\ GammaClient__request "GET" MARKETS (Some params) st = (Raise e, st'))
     \/ (is_GammaError e = false
         /\ exists data,
              GammaClient__request "GET" MARKETS (Some params) st = (Ok data, st')
              /\ comprehension Market data = Raise e))
  /\ (EventsClient_get_by_id arg st = (Raise e, st') ->
     (is_GammaError e = true
      /\ GammaClient__request "GET" (str_format EVENTS_BY_ID "event_id" arg) None st
         = (Raise e, st'))
     \/ (is_GammaError e = false
         /\ exists data,
              GammaClient__request "GET" (str_format EVENTS_BY_ID "event_id" arg) None st
              = (Ok data, st')
              /\ call_model Event data = Raise e)).
Proof.
  split; [|split].
  - apply decoded_request_errors. intros data e'. apply call_model_error.
  - apply decoded_request_errors. intros data e'. apply comprehension_error.
  - apply decoded_request_errors. intros data e'. apply call_model_error.
Qed.

Lemma validation_errors_are_not_GammaErrors_witness :
  (is_GammaError (PyError "TypeError" "argument after ** must be a mapping") = true
   /\ GammaClient__request (T := status_text "OK") "GET" PUBLIC_SEARCH
        (Some (dict_set "q" (PStr "q") [])) initial_state
      = (Raise (PyError "TypeError" "argument after ** must be a mapping"),
         mk_state tt [search_request "q" []]))
  \/ (is_GammaError (PyError "TypeError" "argument after ** must be a mapping") = false
      /\ exists data,
           GammaClient__request (T := status_text "OK") "GET" PUBLIC_SEARCH
             (Some (dict_set "q" (PStr "q") [])) initial_state
           = (Ok data, mk_state tt [search_request "q" []])
           /\ call_model (PublicSearchResponse (P := iso_validators)) data
              = Raise (PyError "TypeError" "argument after ** must be a mapping")).
Proof.
  apply (proj1 (validation_errors_are_not_GammaErrors (T := status_text "OK")
                  (P := iso_validators) "q" [] initial_state
                  (mk_state tt [search_request "q" []])
                  (PyError "TypeError" "argument after ** must be a mapping"))).
  reflexivity.
Defined.

(** X7. Identifiers are not escaped, so an identifier that starts with
    [slug/] reaches the route of the lookup by slug: for tags and for
    events, [get_by_id] of [slug/s] is [get_by_slug] of [s], request and
    result. *)
Theorem get_by_id_reaches_slug_route {W : Type} {T : Transport W} {P : Pydantic}
    (slug : string) (st : client_state W) :
  TagsClient_get_by_id ("slug/" ++ slug) st = TagsClient_get_by_slug slug st
  /\ EventsClient_get_by_id ("slug/" ++ slug) st = EventsClient_get_by_slug slug st
  /\ str_format MARKETS_BY_ID "market_id" ("slug/" ++ slug)
     = str_format MARKETS_BY_SLUG "slug" slug.
Proof.
  assert (Ht : str_format TAGS_BY_ID "tag_id" ("slug/" ++ slug)
               = str_format TAGS_BY_SLUG "slug" slug) by reflexivity.
  assert (He : str_format EVENTS_BY_ID "event_id" ("slug/" ++ slug)
               = str_format EVENTS_BY_SLUG "slug" slug) by reflexivity.
  split; [|split; [|reflexivity]].
  - unfold TagsClient_get_by_id, TagsClient_get_by_slug. now rewrite Ht.
  - unfold EventsClient_get_by_id, EventsClient_get_by_slug. now rewrite He.
Qed.

(** X8. The market lookup by slug reads one element only: of an array
    with several elements the first is constructed and the others are
    never looked at, valid or not; a body that is neither an array nor
    an object raises [TypeError]. *)
Theorem get_by_slug_reads_first_element {W : Type} {T : Transport W} {P : Pydantic}
    (slug : string) (st st' : client_state W) (body : pyobj) :
  GammaClient__request "GET" ("/markets/slug/" ++ slug) None st = (Ok body, st') ->
  (forall first rest, body = PList (first :: rest) ->
     MarketsClient_get_by_slug slug st = (call_model Market first, st'))
  /\ (match body with
      | PList _ | PDict _ => True
      | _ => exists msg,
               MarketsClient_get_by_slug slug st = (Raise (PyError "TypeError" msg), st')
      end).
Proof.
  intros Hreq. split.
  - intros first rest ->. unfold MarketsClient_get_by_slug, bind.
    now rewrite markets_by_slug_route, Hreq.
  - destruct body; trivial; eexists; unfold MarketsClient_get_by_slug, bind;
      rewrite markets_by_slug_route, Hreq; reflexivity.
Qed.

Lemma get_by_slug_reads_first_element_witness :
  MarketsClient_get_by_slug
    (T := market_upstream (PList [PDict minimal_market; PInt 0; PNone]))
    (P := iso_validators) "foo-bar" initial_state
  = (call_model (Market (P := iso_validators)) (PDict minimal_market),
     mk_state tt [mk_request "GET" "/markets/slug/foo-bar" None]).
Proof.
  refine (proj1 (get_by_slug_reads_first_element
            (T := market_upstream (PList [PDict minimal_market; PInt 0; PNone]))
            (P := iso_validators) "foo-bar" initial_state
            (mk_state tt [mk_request "GET" "/markets/slug/foo-bar" None])
            (PList [PDict minimal_market; PInt 0; PNone]) _)
            (PDict minimal_market) [PInt 0; PNone] eq_refl).
  reflexivity.
Defined.

(** X9. [get_market_types] returns what the body holds under
    [marketTypes], whatever it is and unvalidated, and an empty list
    when the object has no such key; a body that is not an object raises
    [AttributeError], which is not a [GammaError]. *)
Theorem get_market_types_default {W : Type} {T : Transport W}
    (st st' : client_state W) (body : pyobj) :
  GammaClient__request "GET" SPORTS_MARKET_TYPES None st = (Ok body, st') ->
  (forall d v, body = PDict d -> dict_get "marketTypes" d = Some v ->
     SportsClient_get_market_types st = (Ok v, st'))
  /\ (forall d, body = PDict d -> dict_get "marketTypes" d = None ->
     SportsClient_get_market_types st = (Ok (PList []), st'))
  /\ (match body with
      | PDict _ => True
      | _ => exists e, SportsClient_get_market_types st = (Raise e, st')
                       /\ is_GammaError e = false
      end).
Proof.
  intros Hreq. unfold SportsClient_get_market_types, bind. rewrite Hreq.
  repeat split.
  - intros d v -> Hv. unfold Ok. cbv beta iota.
    unfold lift, py_get, dict_get_default. now rewrite Hv.
  - intros d -> Hv. unfold Ok. cbv beta iota.
    unfold lift, py_get, dict_get_default. now rewrite Hv.
  - destruct body; trivial; eexists; split; reflexivity.
Qed.

Lemma get_market_types_default_witness :
  SportsClient_get_market_types (T := json_upstream (PDict [("other", PInt 1)])) initial_state
  = (Ok (PList []), mk_state tt [mk_request "GET" SPORTS_MARKET_TYPES None]).
Proof.
  refine (proj1 (proj2 (get_market_types_default
            (T := json_upstream (PDict [("other", PInt 1)])) initial_state
            (mk_state tt [mk_request "GET" SPORTS_MARKET_TYPES None])
            (PDict [("other", PInt 1)]) _))
            [("other", PInt 1)] eq_refl eq_refl).
  reflexivity.
Defined.

(* ================================================================== *)
(** * Further properties: URL resolution *)
(* ================================================================== *)

Lemma str_split_segments (sep : ascii) : forall s,
  Forall (fun seg => str_in (String sep "") seg = false) (str_split sep s).
Proof.
  induction s as [|c s IH]; simpl.
  - repeat constructor.
  - destruct (Ascii.eqb_spec c sep) as [->|Hne].
    + constructor; [reflexivity | exact IH].
    + destruct (str_split sep s) as [|seg segs]; [repeat constructor|].
      * rewrite str_in_char_cons. simpl. rewrite orb_false_r.
        apply Ascii.eqb_neq. congruence.
      * inversion IH as [|? ? Hseg Hsegs]; subst. constructor; [|exact Hsegs].
        rewrite str_in_char_cons, Hseg, orb_false_r.
        apply Ascii.eqb_neq. congruence.
Qed.

Lemma Forall_last {A} (Q : A -> Prop) (d : A) : forall l,
  l <> [] -> Forall Q l -> Q (last l d).
Proof.
  induction l as [|x l IH]; intros Hne HF; [congruence|].
  inversion HF as [|? ? Hx Hl]; subst. destruct l as [|y l]; [exact Hx|].
  apply IH; [discriminate | exact Hl].
Qed.

Lemma str_split_whole (sep : ascii) : forall s,
  str_in (String sep "") s = false -> str_split sep s = [s].
Proof.
  induction s as [|c s IH]; intros Hs; [reflexivity|].
  rewrite str_in_char_cons in Hs. apply orb_false_iff in Hs as [Hc Hs].
  simpl. rewrite Ascii.eqb_sym, Hc, (IH Hs). reflexivity.
Qed.

Lemma str_split_app (sep : ascii) (b : string) : forall a,
  str_in (String sep "") a = false ->
  str_split sep (a ++ String sep b) = a :: str_split sep b.
Proof.
  induction a as [|c a IH]; intros Ha.
  - simpl. now rewrite Ascii.eqb_refl.
  - rewrite str_in_char_cons in Ha. apply orb_false_iff in Ha as [Hc Ha].
    change (String c a ++ String sep b) with (String c (a ++ String sep b)).
    simpl. rewrite Ascii.eqb_sym, Hc, (IH Ha). reflexivity.
Qed.

Lemma ends_in_char (c : ascii) : forall s,
  str_in (String c "") s = false -> ends_in (String c "") s = false.
Proof.
  induction s as [|x s IH]; intros Hs; [reflexivity|].
  rewrite str_in_char_cons in Hs. apply orb_false_iff in Hs as [Hx Hs].
  destruct s as [|y s].
  - simpl. unfold char_in. simpl. now rewrite Ascii.eqb_sym, Hx.
  - change (ends_in (String c "") (String x (String y s)))
      with (ends_in (String c "") (String y s)).
    now apply IH.
Qed.

Lemma ends_in_app (chars : string) (b : string) : forall a,
  b <> "" -> ends_in chars (a ++ b) = ends_in chars b.
Proof.
  induction a as [|x a IH]; intros Hb; [reflexivity|].
  change (String x a ++ b) with (String x (a ++ b)).
  destruct (a ++ b) as [|y r] eqn:E.
  - destruct a; [simpl in E; congruence | discriminate].
  - change (ends_in chars (String x (String y r))) with (ends_in chars (String y r)).
    now apply IH.
Qed.

(** X10. The slug [_extract_slug_from_url] returns is never empty and
    holds no slash.  For a path made of [market] or [event] and a
    non-empty slug without slash, it returns that slug. *)
Theorem extract_slug_round_trip {U : Urllib} (url : string) :
  (forall slug, _extract_slug_from_url url = Some slug ->
     slug <> "" /\ str_in "/" slug = false)
  /\ (forall kind slug,
        kind = "market" \/ kind = "event" ->
        slug <> "" -> str_in "/" slug = false ->
        urlparse_path url = Ok ("/" ++ kind ++ "/" ++ slug) ->
        _extract_slug_from_url url = Some slug).
Proof.
  unfold _extract_slug_from_url. split.
  - intros slug. destruct (urlparse_path url) as [e|path]; [discriminate|].
    destruct ((2 <=? List.length (str_split "/" (str_strip "/" path)))%nat) eqn:Hlen;
      [|discriminate].
    destruct (is_market_or_event _); [|discriminate].
    simpl. intros [= <-]. apply Nat.leb_le in Hlen. split.
    + now apply slug_nonempty.
    + apply (Forall_last (fun seg => str_in "/" seg = false)).
      * apply str_split_nonempty.
      * apply str_split_segments.
  - intros kind slug Hkind Hne Hslash ->. unfold Ok.
    assert (Hstrip : str_strip "/" ("/" ++ kind ++ "/" ++ slug) = kind ++ "/" ++ slug).
    { unfold str_strip.
      assert (Hl : str_lstrip "/" ("/" ++ kind ++ "/" ++ slug) = kind ++ "/" ++ slug)
        by (destruct Hkind as [-> | ->]; reflexivity).
      rewrite Hl. apply str_rstrip_id.
      rewrite <- str_app_assoc. rewrite ends_in_app by exact Hne.
      now apply ends_in_char. }
    rewrite Hstrip.
    assert (Hsplit : str_split "/" (kind ++ "/" ++ slug) = [kind; slug]).
    { change (kind ++ "/" ++ slug) with (kind ++ String "/" slug).
      rewrite str_split_app by (destruct Hkind as [-> | ->]; reflexivity).
      now rewrite (str_split_whole "/" slug Hslash). }
    rewrite Hsplit. destruct Hkind as [-> | ->]; reflexivity.
Qed.

Lemma extract_slug_round_trip_witness :
  _extract_slug_from_url (U := plain_urls) "https://polymarket.com/event/foo-bar"
  = Some "foo-bar".
Proof.
  refine (proj2 (extract_slug_round_trip (U := plain_urls)
                   "https://polymarket.com/event/foo-bar")
            "event" "foo-bar" _ _ _ _).
  - now right.
  - discriminate.
  - reflexivity.
  - reflexivity.
Defined.

Section Resolve.
Context {W : Type} {T : Transport W} {P : Pydantic} {U : Urllib}.

(** With a slug extracted, [resolve_url] is the two guarded lookups. *)
Lemma resolve_url_lookups (url slug : string) (st : client_state W) :
  _extract_slug_from_url url = Some slug ->
  GammaClient_resolve_url url st
  = try_except (MarketsClient_get_by_slug slug)
      (fun _ => try_except (EventsClient_get_by_slug slug) (fun _ => ret PNone)) st.
Proof.
  intros Hslug. unfold GammaClient_resolve_url. rewrite Hslug.
  destruct (String.eqb_spec slug "") as [->|Hne]; [|simpl].
  - exfalso. revert Hslug. unfold _extract_slug_from_url.
    destruct (urlparse_path url) as [e|path]; [discriminate|].
    destruct ((2 <=? List.length (str_split "/" (str_strip "/" path)))%nat) eqn:Hlen;
      [|discriminate].
    destruct (is_market_or_event _); [|discriminate].
    simpl. intros [= Hl]. apply Nat.leb_le in Hlen.
    now apply (slug_nonempty path Hlen).
  - apply String.eqb_neq in Hne. now rewrite Hne.
Qed.
End Resolve.

(** X11. When the market lookup answers with an empty array,
    [resolve_url] returns [None] at once: the lookup did not fail, so
    the event lookup is not attempted, and one request has been made. *)
Theorem resolve_url_empty_market_array {W : Type} {T : Transport W} {P : Pydantic}
    {U : Urllib} (url slug : string) (st st' : client_state W) :
  _extract_slug_from_url url = Some slug ->
  GammaClient__request "GET" ("/markets/slug/" ++ slug) None st = (Ok (PList []), st') ->
  GammaClient_resolve_url url st = (Ok PNone, st')
  /\ sent st' = (sent st ++ [mk_request "GET" ("/markets/slug/" ++ slug) None])%list.
Proof.
  intros Hslug Hreq. split.
  - rewrite (resolve_url_lookups url slug st Hslug).
    unfold try_except, MarketsClient_get_by_slug, bind.
    now rewrite markets_by_slug_route, Hreq.
  - now apply (request_sent _ _ _ _ _ _ Hreq).
Qed.

Lemma resolve_url_empty_market_array_witness :
  GammaClient_resolve_url (T := json_upstream (PList [])) (P := iso_validators)
    (U := plain_urls) "https://polymarket.com/event/foo-bar" initial_state
  = (Ok PNone, mk_state tt [mk_request "GET" "/markets/slug/foo-bar" None]).
Proof.
  refine (proj1 (resolve_url_empty_market_array (T := json_upstream (PList []))
                   (P := iso_validators) (U := plain_urls)
                   "https://polymarket.com/event/foo-bar" "foo-bar" initial_state
                   (mk_state tt [mk_request "GET" "/markets/slug/foo-bar" None]) _ _)).
  - reflexivity.
  - reflexivity.
Defined.

(* ================================================================== *)
(** * Further properties: the aggregation *)
(* ================================================================== *)

Lemma range_length (a b : Z) : List.length (range a b) = Z.to_nat (b - a).
Proof. unfold range. now rewrite length_map, length_seq. Qed.

Lemma range_In (a b p : Z) : In p (range a b) <-> a <= p < b.
Proof.
  unfold range. rewrite in_map_iff. split.
  - intros (i & <- & Hi). apply in_seq in Hi. lia.
  - intros Hp. exists (Z.to_nat (p - a)). split; [lia|]. apply in_seq. lia.
Qed.

Section Aggregation.
Context {W : Type} {T : Transport W} {P : Pydantic}.
Variables (query : string) (params : dict).
Variables (st0 st1 : client_state W) (evs : list pyobj) (pagination : dict).

Hypothesis first_fetch :
  GammaClient_public_search query (initial_api_params params) st0
  = (Ok (PModel "PublicSearchResponse"
           [("events", PList evs); ("pagination", PDict pagination)]), st1).

(** After the first page, [page_count] is computed before anything else. *)
Lemma public_search_all_page_count :
  GammaClient_public_search_all query params st0
  = bind (bind (total <- lift (getitem (PDict pagination) "totalResults") ;;
                limit <- lift (getitem (PDict (initial_api_params params))
                                 "limit_per_type") ;;
                quotient <- lift (py_floordiv total limit) ;;
                count <- lift (py_add quotient (PInt 1)) ;;
                ret (Some count))
            (fun page_count =>
               stop <- match page_count with
                       | None => ret true
                       | Some _ =>
                           has_more <- lift (getitem (PDict pagination) "hasMore") ;;
                           ret (negb (truthy has_more))
                       end ;;
               ret (page_count, stop)))
      (fun pc_stop =>
         if (snd pc_stop : bool)
         then ret (PModel "PublicSearchResponse"
                     [("events", PList evs); ("pagination", PDict pagination)])
         else match fst pc_stop with
              | None => ret (PModel "PublicSearchResponse"
                               [("events", PList evs); ("pagination", PDict pagination)])
              | Some count =>
                  pages <- lift (py_range 2 count) ;;
                  events <- fetch_pages query pages (initial_api_params params) evs ;;
                  lift (construct PublicSearchResponse [("events", PList events)])
              end) st1.
Proof.
  unfold GammaClient_public_search_all. unfold bind at 1. rewrite first_fetch.
  unfold bind at 1. cbn [lift getattr dict_get String.eqb Ascii.eqb Bool.eqb Ok].
  unfold bind, lift, ret.
  destruct (getitem (PDict pagination) "totalResults") as [e|total]; [reflexivity|].
  destruct (getitem (PDict (initial_api_params params)) "limit_per_type") as [e|limit];
    [reflexivity|].
  destruct (py_floordiv total limit) as [e|quotient]; [reflexivity|].
  destruct (py_add quotient (PInt 1)) as [e|count]; [reflexivity|].
  destruct (getitem (PDict pagination) "hasMore") as [e|has_more]; [reflexivity|].
  destruct (negb (truthy has_more)); reflexivity.
Qed.

Variables (total limit : Z) (has_more : pyobj).
Hypothesis total_results : dict_get "totalResults" pagination = Some (PInt total).
Hypothesis limit_per_type :
  dict_get "limit_per_type" (initial_api_params params) = Some (PInt limit).
Hypothesis limit_nonzero : limit <> 0.
Hypothesis more : dict_get "hasMore" pagination = Some has_more.
Hypothesis more_true : truthy has_more = true.

(** With more announced, the loop over the pages decides the outcome. *)
Lemma public_search_all_loop :
  GammaClient_public_search_all query params st0
  = bind (fetch_pages query (range 2 (total / limit + 1)) (initial_api_params params) evs)
      (fun events => lift (construct PublicSearchResponse [("events", PList events)])) st1.
Proof.
  rewrite public_search_all_page_count.
  unfold bind, lift, ret, getitem. rewrite total_results, limit_per_type, more.
  unfold Ok, py_floordiv. cbn [as_number].
  apply Z.eqb_neq in limit_nonzero. rewrite limit_nonzero.
  cbn [py_add as_number]. unfold Ok. rewrite more_true. reflexivity.
Qed.

(** The loop stops at the first page whose fetch fails. *)
Lemma fetch_pages_aborts (api_params : dict) (pre : list Z) (st st2 st3 : client_state W)
    (datas : list pyobj) (page : Z) (rest : list Z) (e : exn) :
  fetched query api_params pre st datas st2 ->
  GammaClient_public_search query (dict_set "page" (PInt page) api_params) st2
  = (Raise e, st3) ->
  forall api' events,
    (forall v, dict_set "page" v api' = dict_set "page" v api_params) ->
    fetch_pages query (pre ++ page :: rest) api' events st = (Raise e, st3).
Proof.
  induction 1 as [st|p pages st data st' datas st2 Hfetch Hrest IH];
    intros Hfail api' events Hapi.
  - simpl. unfold bind. now rewrite Hapi, Hfail.
  - destruct (public_search_ok _ _ _ _ _ Hfetch) as ((evs' & pg & -> & _ & _) & _).
    simpl. unfold bind at 1. rewrite Hapi, Hfetch.
    unfold bind at 1. unfold lift at 1.
    change (extend_events events
              (PModel "PublicSearchResponse" [("events", PList evs'); ("pagination", pg)]))
      with (Ok (events ++ evs')%list).
    unfold Ok at 1. cbv beta iota. rewrite <- Hapi.
    apply (IH Hfail). intros v. now rewrite dict_set_set, Hapi.
Qed.
End Aggregation.

(** X12. No partial result: when more is announced and the fetch of
    one of the pages of [range(2, page_count)] raises, after the pages
    before it were fetched, [public_search_all] raises that error; the
    events gathered so far are not returned and no later page is
    requested. *)
Theorem public_search_all_aborts {W : Type} {T : Transport W} {P : Pydantic}
    (query : string) (params : dict) (st0 st1 st2 st3 : client_state W)
    (evs : list pyobj) (pagination : dict) (total limit : Z) (has_more : pyobj)
    (pre : list Z) (page : Z) (rest : list Z) (datas : list pyobj) (e : exn) :
  GammaClient_public_search query (initial_api_params params) st0
  = (Ok (PModel "PublicSearchResponse"
           [("events", PList evs); ("pagination", PDict pagination)]), st1) ->
  dict_get "totalResults" pagination = Some (PInt total) ->
  dict_get "limit_per_type" (initial_api_params params) = Some (PInt limit) ->
  limit <> 0 ->
  dict_get "hasMore" pagination = Some has_more ->
  truthy has_more = true ->
  range 2 (total / limit + 1) = (pre ++ page :: rest)%list ->
  fetched query (initial_api_params params) pre st1 datas st2 ->
  GammaClient_public_search query (dict_set "page" (PInt page) (initial_api_params params)) st2
  = (Raise e, st3) ->
  GammaClient_public_search_all query params st0 = (Raise e, st3)
  /\ sent st3
     = (sent st0
        ++ search_request query (initial_api_params params)
        :: map (fun p => search_request query
                           (dict_set "page" (PInt p) (initial_api_params params)))
               (pre ++ [page]))%list.
Proof.
  intros Hfirst Htotal Hlimit Hnz Hmore Htrue Hrange Hpre Hfail. split.
  - rewrite (public_search_all_loop query params st0 st1 evs pagination Hfirst
               total limit has_more Htotal Hlimit Hnz Hmore Htrue).
    unfold bind. rewrite Hrange.
    now rewrite (fetch_pages_aborts query _ pre st1 st2 st3 datas page rest e Hpre Hfail
                   (initial_api_params params) evs (fun v => eq_refl)).
  - destruct (public_search_ok _ _ _ _ _ Hfirst) as ((evs0 & pg0 & Hd & Hinst & _) & Hsent).
    injection Hd as <- _.
    destruct (fetch_pages_fetched _ _ _ _ _ _ Hpre (initial_api_params params) evs
                (fun v => eq_refl) Hinst) as (_ & _ & Hlog).
    unfold GammaClient_public_search, bind in Hfail.
    destruct (GammaClient__request "GET" PUBLIC_SEARCH _ st2) as [[e'|body] st'] eqn:Hreq.
    + injection Hfail as _ <-.
      rewrite (request_sent _ _ _ _ _ _ Hreq), Hlog, Hsent.
      rewrite map_app. simpl. rewrite <- !app_assoc. reflexivity.
    + unfold lift in Hfail. injection Hfail as _ <-.
      rewrite (request_sent _ _ _ _ _ _ Hreq), Hlog, Hsent.
      rewrite map_app. simpl. rewrite <- !app_assoc. reflexivity.
Qed.

Lemma public_search_all_aborts_witness :
  GammaClient_public_search_all (T := interrupted_upstream) (P := iso_validators)
    "q" [] initial_state
  = (Raise (GammaAPIError "Unexpected Error: connection lost" None None),
     mk_state tt [ search_request "q" (initial_api_params []);
                   search_request "q" (dict_set "page" (PInt 2) (initial_api_params [])) ]).
Proof.
  refine (proj1 (public_search_all_aborts (T := interrupted_upstream) (P := iso_validators)
            "q" [] initial_state after_first_page after_first_page
            (mk_state tt [ search_request "q" (initial_api_params []);
                           search_request "q"
                             (dict_set "page" (PInt 2) (initial_api_params [])) ])
            (events_of first_page)
            [("hasMore", PBool true); ("totalResults", PInt 45)] 45 20 (PBool true)
            [] 2 [] [] (GammaAPIError "Unexpected Error: connection lost" None None)
            _ _ _ _ _ _ _ _ _)).
  - vm_compute. reflexivity.
  - reflexivity.
  - reflexivity.
  - discriminate.
  - reflexivity.
  - reflexivity.
  - reflexivity.
  - constructor.
  - vm_compute. reflexivity.
Defined.

(** X13. The page count is computed as soon as the first page has a
    pagination, before [hasMore] is looked at: a pagination without
    [totalResults] raises [KeyError], a [limit_per_type] of zero raises
    [ZeroDivisionError], and a pagination without [hasMore] raises
    [KeyError], after the one request of the first page; none of these
    is a [GammaError]. *)
Theorem public_search_all_malformed_pagination {W : Type} {T : Transport W} {P : Pydantic}
    (query : string) (params : dict) (st0 st1 : client_state W)
    (evs : list pyobj) (pagination : dict) :
  GammaClient_public_search query (initial_api_params params) st0
  = (Ok (PModel "PublicSearchResponse"
           [("events", PList evs); ("pagination", PDict pagination)]), st1) ->
  (dict_get "totalResults" pagination = None ->
   GammaClient_public_search_all query params st0
   = (Raise (PyError "KeyError" "totalResults"), st1))
  /\ (forall total,
        dict_get "totalResults" pagination = Some (PInt total) ->
        dict_get "limit_per_type" (initial_api_params params) = Some (PInt 0) ->
        GammaClient_public_search_all query params st0
        = (Raise (PyError "ZeroDivisionError" "integer division or modulo by zero"), st1))
  /\ (forall total limit,
        dict_get "totalResults" pagination = Some (PInt total) ->
        dict_get "limit_per_type" (initial_api_params params) = Some (PInt limit) ->
        limit <> 0 ->
        dict_get "hasMore" pagination = None ->
        GammaClient_public_search_all query params st0
        = (Raise (PyError "KeyError" "hasMore"), st1)).
Proof.
  intros Hfirst.
  rewrite (public_search_all_page_count query params st0 st1 evs pagination Hfirst).
  split; [|split].
  - intros Hnone. unfold bind, lift, getitem. now rewrite Hnone.
  - intros total Htotal Hlimit. unfold bind, lift, getitem.
    now rewrite Htotal, Hlimit.
  - intros total limit Htotal Hlimit Hnz Hmore. unfold bind, lift, getitem.
    rewrite Htotal, Hlimit, Hmore. unfold Ok, py_floordiv. cbn [as_number].
    apply Z.eqb_neq in Hnz. now rewrite Hnz.
Qed.

Lemma public_search_all_malformed_pagination_witness :
  GammaClient_public_search_all (T := untotalled_upstream) (P := iso_validators)
    "q" [] initial_state
  = (Raise (PyError "KeyError" "totalResults"),
     mk_state tt [search_request "q" (initial_api_params [])]).
Proof.
  refine (proj1 (public_search_all_malformed_pagination
            (T := untotalled_upstream) (P := iso_validators)
            "q" [] initial_state (mk_state tt [search_request "q" (initial_api_params [])])
            [] [("hasMore", PBool false)] _) _).
  - vm_compute. reflexivity.
  - reflexivity.
Defined.

(** X14. The pages the aggregation requests.  When more is announced
    and every fetch succeeds, the requests made are those of page 1 and
    of the pages from 2 to the floor quotient of [totalResults] by
    [limit_per_type]: their number is that quotient, or one when the
    quotient is smaller, and the page after the quotient is never
    requested. *)
Theorem public_search_all_requested_pages {W : Type} {T : Transport W} {P : Pydantic}
    (query : string) (params : dict) (st0 st1 st2 : client_state W)
    (evs : list pyobj) (pagination : dict) (total limit : Z) (has_more : pyobj)
    (datas : list pyobj) :
  GammaClient_public_search query (initial_api_params params) st0
  = (Ok (PModel "PublicSearchResponse"
           [("events", PList evs); ("pagination", PDict pagination)]), st1) ->
  dict_get "totalResults" pagination = Some (PInt total) ->
  dict_get "limit_per_type" (initial_api_params params) = Some (PInt limit) ->
  limit <> 0 ->
  dict_get "hasMore" pagination = Some has_more ->
  truthy has_more = true ->
  fetched query (initial_api_params params) (range 2 (total / limit + 1)) st1 datas st2 ->
  snd (GammaClient_public_search_all query params st0) = st2
  /\ List.length (sent st2)
     = (List.length (sent st0) + Z.to_nat (Z.max 1 (total / limit)))%nat
  /\ (forall page, In page (range 2 (total / limit + 1)) <-> 2 <= page <= total / limit)
  /\ List.length datas = Z.to_nat (total / limit - 1).
Proof.
  intros Hfirst Htotal Hlimit Hnz Hmore Htrue Hfetched.
  destruct (public_search_ok _ _ _ _ _ Hfirst) as ((evs0 & pg0 & Hd & Hinst & _) & Hsent).
  injection Hd as <- _.
  destruct (fetch_pages_fetched _ _ _ _ _ _ Hfetched (initial_api_params params) evs
              (fun v => eq_refl) Hinst) as (Hrun & _ & Hlog).
  split; [|split; [|split]].
  - rewrite (public_search_all_loop query params st0 st1 evs pagination Hfirst
               total limit has_more Htotal Hlimit Hnz Hmore Htrue).
    unfold bind. rewrite Hrun. unfold Ok, lift. reflexivity.
  - rewrite Hlog, Hsent, !length_app, length_map, range_length. simpl. lia.
  - intros page. rewrite range_In. lia.
  - assert (Hlen : forall pages s datas' s',
              fetched query (initial_api_params params) pages s datas' s' ->
              List.length datas' = List.length pages).
    { induction 1; simpl; congruence. }
    rewrite (Hlen _ _ _ _ Hfetched), range_length. f_equal. lia.
Qed.

Lemma public_search_all_requested_pages_witness :
  List.length (sent after_second_page)
  = (List.length (sent initial_state) + Z.to_nat (Z.max 1 (45 / 20)))%nat.
Proof.
  refine (proj1 (proj2 (public_search_all_requested_pages
            (T := paged_upstream) (P := iso_validators)
            "q" [] initial_state after_first_page after_second_page
            (events_of first_page)
            [("hasMore", PBool true); ("totalResults", PInt 45)] 45 20 (PBool true)
            [second_page] _ _ _ _ _ _ _))).
  - vm_compute. reflexivity.
  - reflexivity.
  - reflexivity.
  - discriminate.
  - reflexivity.
  - reflexivity.
  - apply fetched_cons with (st1 := after_second_page).
    + vm_compute. reflexivity.
    + constructor.
Defined.

(* ================================================================== *)
(** * Further properties: the entity models *)
(* ================================================================== *)

Lemma validate_fields_same_inputs (cfg : model_config) (d d' : dict) : forall fs,
  (forall f, In f fs -> field_input cfg f d = field_input cfg f d') ->
  validate_fields cfg fs d = validate_fields cfg fs d'.
Proof.
  induction fs as [|f fs IH]; intros Hsame; simpl; [reflexivity|].
  rewrite IH by (intros g Hg; apply Hsame; now right).
  unfold validate_field. now rewrite (Hsame f (or_introl eq_refl)).
Qed.

Lemma owns_names_spec (m : model) (f g : field) :
  owns_names m f = true -> In g (cls_fields m) ->
  (wire_name g = wire_name f /\ f_name g = f_name f)
  \/ (wire_name g <> wire_name f /\ f_name g <> wire_name f
      /\ wire_name g <> f_name f /\ f_name g <> f_name f).
Proof.
  unfold owns_names. intros Hown Hg.
  rewrite forallb_forall in Hown. specialize (Hown g Hg).
  destruct (String.eqb_spec (wire_name g) (wire_name f));
    destruct (String.eqb_spec (f_name g) (wire_name f));
    destruct (String.eqb_spec (wire_name g) (f_name f));
    destruct (String.eqb_spec (f_name g) (f_name f));
    simpl in Hown; try discriminate; try (left; now split);
    right; repeat split; assumption.
Qed.

(** X15. Construction by either name.  In a model that populates by
    name, for a field whose alias and Python name are its own: a value
    supplied under the Python name, the alias being absent, gives what
    the same value under the alias gives; and when the alias is
    supplied, a value under the Python name is not read. *)
Theorem construct_by_either_name (m : model) (f : field) (d : dict) (v other : pyobj) :
  populate_by_name (model_config_of m) = true ->
  In f (cls_fields m) ->
  owns_names m f = true ->
  wire_name f <> f_name f ->
  (dict_get (wire_name f) d = None -> dict_get (f_name f) d = Some v ->
   construct m d = construct m (dict_set (wire_name f) v d))
  /\ (dict_get (wire_name f) d = Some v ->
      construct m (dict_set (f_name f) other d) = construct m d).
Proof.
  intros Hpop Hf Hown Hdiff. split.
  - intros Hnone Hsome. unfold construct.
    rewrite (validate_fields_same_inputs (model_config_of m) d
               (dict_set (wire_name f) v d) (cls_fields m)); [reflexivity|].
    intros g Hg. unfold field_input. rewrite Hpop, !dict_get_set.
    destruct (owns_names_spec m f g Hown Hg) as [[Hw Hn]|(Hw & Hn & _ & _)].
    + rewrite Hw, Hn, String.eqb_refl, Hnone, Hsome. reflexivity.
    + apply String.eqb_neq in Hw, Hn. now rewrite Hw, Hn.
  - intros Hsome. unfold construct.
    rewrite (validate_fields_same_inputs (model_config_of m)
               (dict_set (f_name f) other d) d (cls_fields m)); [reflexivity|].
    intros g Hg. unfold field_input. rewrite Hpop, !dict_get_set.
    destruct (owns_names_spec m f g Hown Hg) as [[Hw Hn]|(_ & _ & Hw & Hn)].
    + rewrite Hw, Hn, Hsome. apply String.eqb_neq in Hdiff. now rewrite Hdiff.
    + apply String.eqb_neq in Hw, Hn. now rewrite Hw, Hn.
Qed.

Lemma construct_by_either_name_witness :
  construct (Market (P := iso_validators)) market_by_python_names
  = construct (Market (P := iso_validators))
      (dict_set "conditionId" (PStr "0x1") market_by_python_names).
Proof.
  refine (proj1 (construct_by_either_name (Market (P := iso_validators))
                   (Field "condition_id" str_ Required "conditionId")
                   market_by_python_names (PStr "0x1") PNone _ _ _ _) _ _).
  - reflexivity.
  - simpl. tauto.
  - reflexivity.
  - discriminate.
  - reflexivity.
  - reflexivity.
Defined.

Lemma is_some_validate_all (t : validator) : forall l,
  is_some (validate_all t l) = forallb (fun x => is_some (t x)) l.
Proof.
  induction l as [|x l IH]; simpl; [reflexivity|].
  destruct (t x); simpl; [|reflexivity].
  rewrite <- IH. now destruct (validate_all t l).
Qed.

(** X16. An event built from its three mandatory keys has empty lists
    of markets and tags, never [None], and the declared flags.  With
    markets supplied, construction succeeds exactly when every element
    is accepted as a [Market]: one invalid nested market fails the
    event. *)
Theorem event_nested_markets {P : Pydantic} (id slug title : string) (items : list pyobj) :
  construct Event (event_mapping id slug title)
  = Ok (PModel "Event"
          [ ("id", PStr id); ("ticker", PNone); ("slug", PStr slug);
            ("title", PStr title); ("description", PNone); ("image", PNone);
            ("icon", PNone); ("active", PBool true); ("closed", PBool false);
            ("archived", PBool false); ("new", PBool false);
            ("featured", PBool false); ("restricted", PBool false);
            ("start_date", PNone); ("end_date", PNone); ("creation_date", PNone);
            ("last_updated_at", PNone); ("markets", PList []); ("tags", PList []) ])
  /\ is_ok (construct Event
              (event_mapping id slug title ++ [("markets", PList items)])%list)
     = forallb (fun item => is_some (Model_ Market item)) items.
Proof.
  split; [reflexivity|].
  rewrite <- is_some_validate_all.
  unfold construct, event_mapping. cbn -[Model_ Market validate_all].
  destruct (validate_all (Model_ Market) items); reflexivity.
Qed.

(** X17. The mandatory wire names of every entity model, and what
    they mean: with supplied values that pass their validators,
    construction of any of the entities fails exactly when one of its
    mandatory fields is supplied under neither of its names. *)
Theorem entity_mandatory_fields {P : Pydantic} :
  map (fun m => (cls_name m, mandatory m)) entity_models
  = [ ("Tag", ["id"]);
      ("Market", ["id"; "question"; "conditionId"; "slug"; "outcomes"; "clobTokenIds"]);
      ("Event", ["id"; "slug"; "title"]);
      ("Team", ["id"; "name"; "league"]);
      ("SportMetadata", ["sport"]);
      ("Series", ["id"; "title"; "slug"; "active"]);
      ("Comment", ["id"; "comment"; "userAddress"]);
      ("Profile", ["proxyWallet"]);
      ("PublicSearchMarket", ["id"; "question"; "conditionId"; "slug"]);
      ("PublicSearchEvent", ["id"; "slug"; "title"]);
      ("PublicSearchResponse", []) ]
  /\ (forall m d, In m entity_models -> well_typed m d ->
        (is_ok (construct m d) = false
         <-> exists f, In f (cls_fields m) /\ is_required f = true /\ absent m f d))
  /\ (forall d, is_ok (construct PublicSearchResponse d) = false ->
        ~ well_typed PublicSearchResponse d).
Proof.
  split; [reflexivity|]. split.
  - intros m d _. apply construct_fails_iff_missing.
  - intros d Hfail Hwt.
    apply (construct_fails_iff_missing PublicSearchResponse d Hwt) in Hfail.
    destruct Hfail as (f & Hf & Hreq & _).
    simpl in Hf. destruct Hf as [<-|[<-|[]]]; discriminate.
Qed.

(** X18. The search market takes outcomes and clobTokenIds as one text
    only: a list of strings, which [Market] accepts, fails its
    validation, and a text is kept as it is. *)
Theorem search_market_outcomes_are_text {P : Pydantic}
    (id question conditionId slug text : string) (l : list string) :
  construct PublicSearchMarket
    (search_market_mapping id question conditionId slug
     ++ [("outcomes", PList (map PStr l))])%list
  = Raise (PydanticValidationError "PublicSearchMarket" [("outcomes", "invalid")])
  /\ construct PublicSearchMarket
       (search_market_mapping id question conditionId slug
        ++ [("clobTokenIds", PList (map PStr l))])%list
     = Raise (PydanticValidationError "PublicSearchMarket" [("clobTokenIds", "invalid")])
  /\ exists vals,
       construct PublicSearchMarket
         (search_market_mapping id question conditionId slug
          ++ [("outcomes", PStr text)])%list
       = Ok (PModel "PublicSearchMarket" vals)
       /\ dict_get "outcomes" vals = Some (PStr text).
Proof.
  split; [reflexivity|]. split; [reflexivity|].
  eexists. split; reflexivity.
Qed.

(* ================================================================== *)
(** * Further properties: decoding by content type *)
(* ================================================================== *)

(** X19. A 2xx answer is decoded by its [Content-Type] alone.  When
    the header contains [application/json], what [response.json()]
    returns is handed over unchanged, whatever JSON value it is, and the
    text is not looked at; when there is no such header at all the body
    is taken as text, even if it would decode as JSON. *)
Theorem request_decodes_by_content_type {W : Type} {T : Transport W}
    (method endpoint : string) (params : option dict) (st : client_state W)
    (r : response) (w' : W) :
  send (mk_request method endpoint params) (world st) = (Ok r, w') ->
  200 <= status_code r <= 299 ->
  (forall ct v, content_type_header r = Some ct ->
                str_in "application/json" ct = true ->
                json r = Ok v ->
                fst (GammaClient__request method endpoint params st) = Ok v)
  /\ (content_type_header r = None ->
      fst (GammaClient__request method endpoint params st)
      = Ok (PStr (str_strip dquote (text r)))).
Proof.
  intros Hs Hin. rewrite (request_success _ _ _ _ r w' Hs Hin). split.
  - intros ct v Hct Hjson Hv. now rewrite Hct, Hjson, Hv.
  - intros Hct. now rewrite Hct.
Qed.

Lemma request_decodes_by_content_type_witness :
  fst (GammaClient__request (T := table_transport (fun _ => Ok headerless_response))
         "GET" STATUS None initial_state)
  = Ok (PStr "{}").
Proof.
  refine (proj2 (request_decodes_by_content_type
                   (T := table_transport (fun _ => Ok headerless_response))
                   "GET" STATUS None initial_state headerless_response tt _ _) _).
  - reflexivity.
  - simpl. lia.
  - reflexivity.
Defined.
